(** * Vantrue dash-cam movie maker: grouping, batching and rendering

    A shallow embedding of [main.py], [ffmpeg/ffmpeg.py] and [ffmpeg/probe.py].
    Python objects that are mutated in place ([PROBE], [FFMPEG], [VideoGroup],
    [Video]) are records threaded through the functions that mutate them;
    exceptions are the left injection of a sum; child processes and the
    standard-library functions the script calls are the fields of
    [Externals]. *)

From Stdlib Require Import ZArith Ascii DecimalString.
From stdpp Require Import base list strings gmap.

Open Scope Z_scope.

(** ** Python values *)

(** The exceptions the embedded code can raise. *)
Inductive exn : Type :=
| ValueError
| OverflowError
| UnicodeDecodeError
| Exception_ (msg : string)
| RuntimeError (returncode : Z) (cmd : list string).

(** [str(n)] for an integer. *)
Definition str_of_Z (z : Z) : string := NilZero.string_of_int (Z.to_int z).

(** [str(len(l))]. *)
Definition str_of_nat (n : nat) : string := str_of_Z (Z.of_nat n).

(** Values interpolated into f-strings: [Input], [Dimension] and [Position]
    of [ffmpeg/types.py] are unions of [str], [int] and [float].  A float is
    carried by its printed form. *)
Inductive fval : Type :=
| VStr (s : string)
| VInt (z : Z)
| VFloat (printed : string).

Definition fmt (v : fval) : string :=
  match v with
  | VStr s => s
  | VInt z => str_of_Z z
  | VFloat p => p
  end.

(** [f"{x}"] for an [Optional[str]]. *)
Definition fmt_opt (o : option string) : string :=
  match o with
  | Some s => s
  | None => "None"
  end.

(** [f"{x}"] for an [Optional[int]]. *)
Definition fmt_opt_Z (o : option Z) : string :=
  match o with
  | Some z => str_of_Z z
  | None => "None"
  end.

(** Truth value of a [str]: the empty string is false. *)
Definition truthy_str (s : string) : bool :=
  match s with
  | EmptyString => false
  | String _ _ => true
  end.

(** Truth value of an [Optional[str]]: [None] and the empty string are false. *)
Definition truthy (o : option string) : bool :=
  match o with
  | Some s => truthy_str s
  | None => false
  end.

(** [c in s] for a one-character [c]. *)
Fixpoint contains_char (c : Ascii.ascii) (s : string) : bool :=
  match s with
  | EmptyString => false
  | String d s' => if Ascii.eqb c d then true else contains_char c s'
  end.

(** [s.split(".")[0]]: everything before the first dot. *)
Fixpoint split_dot_0 (s : string) : string :=
  match s with
  | EmptyString => EmptyString
  | String c s' => if Ascii.eqb c "."%char then EmptyString else String c (split_dot_0 s')
  end.

(** [s.endswith(";")]. *)
Fixpoint endswith_semicolon (s : string) : bool :=
  match s with
  | EmptyString => false
  | String c EmptyString => Ascii.eqb c ";"%char
  | String _ s' => endswith_semicolon s'
  end.

(** [s[:-1]]. *)
Fixpoint drop_last_char (s : string) : string :=
  match s with
  | EmptyString => EmptyString
  | String _ EmptyString => EmptyString
  | String c s' => String c (drop_last_char s')
  end.

(** ASCII white space, as removed by [str.strip()]. *)
Definition is_space (c : Ascii.ascii) : bool :=
  let n := Ascii.nat_of_ascii c in
  (Nat.eqb n 32 || (Nat.leb 9 n && Nat.leb n 13) || (Nat.leb 28 n && Nat.leb n 31))%bool.

Fixpoint lstrip (s : string) : string :=
  match s with
  | EmptyString => EmptyString
  | String c s' => if is_space c then lstrip s' else s
  end.

Fixpoint rstrip (s : string) : string :=
  match s with
  | EmptyString => EmptyString
  | String c s' =>
      match rstrip s' with
      | EmptyString => if is_space c then EmptyString else String c EmptyString
      | r => String c r
      end
  end.

Definition strip (s : string) : string := rstrip (lstrip s).

(** [pathlib.Path] of a directory entry. *)
Record Path : Type := mkPath { parent : string; name : string }.

Definition as_posix (p : Path) : string := parent p +:+ "/" +:+ name p.

#[global] Instance Path_eq_dec : EqDecision Path.
Proof. solve_decision. Defined.

(** ** Dates *)

(** A naive [datetime] with zero microseconds: the number of seconds since
    [datetime.min] (0001-01-01 00:00:00).  A [timedelta] is a number of
    seconds. *)
Definition datetime : Type := Z.
Definition timedelta : Type := Z.

Definition timedelta_hours (h : Z) : timedelta := h * 3600.

(** [datetime.max] is 9999-12-31 23:59:59, ordinal day 3652059. *)
Definition datetime_max : datetime := 3652059 * 86400 - 1.

(** [d - td]; a result outside [datetime.min .. datetime.max] raises
    [OverflowError]. *)
Definition datetime_sub (d : datetime) (td : timedelta) : exn + datetime :=
  if (0 <=? d - td) && (d - td <=? datetime_max) then inr (d - td)
  else inl OverflowError.

(** ** The outside world *)

(** The files that exist, and the argument vectors of the encoder processes
    spawned so far (oldest first). *)
Record World : Type := mkWorld {
  fs : gset string;
  spawned : list (list string)
}.

(** What the script gets from outside its own source: two standard-library
    date functions at the formats the script uses, the probing and the
    encoding child processes, and the text-to-number conversion of the
    probe's output. *)
Class Externals : Type := {
  (** [datetime.strptime(s, "%Y%m%d_%H%M%S")]; [None] is [ValueError]. *)
  strptime : string -> option datetime;
  (** [d.strftime("%d %b %Y %H-%M-%S")]. *)
  strftime : datetime -> string;
  (** The probing process: return code and the bytes written to stdout. *)
  ffprobe_process : list string -> Z * string;
  (** [bytes.decode("utf-8")]; [None] is [UnicodeDecodeError]. *)
  decode_utf8 : string -> option string;
  (** [int(round(float(s), 0))]; [None] is any exception it raises. *)
  int_round_float : string -> option Z;
  (** The encoding process: return code and the files that exist after it
      exits, given its argument vector and the world it starts in. *)
  ffmpeg_process : list string -> World -> Z * gset string
}.

(** [subprocess.Popen(cmd, ...)] followed by [process.wait()] for the
    encoder: the argument vector is recorded in [spawned], the process runs
    and exits with a return code.  The exception that [Popen] itself raises
    when the binary cannot be started is outside the model. *)
Definition spawn_ffmpeg `{Externals} (cmd : list string) (w : World) : Z * World :=
  let '(rc, fs') := ffmpeg_process cmd w in
  (rc, {| fs := fs'; spawned := spawned w ++ [cmd] |}).

(** [pathlib.Path(p).exists()]. *)
Definition exists_ (p : string) (w : World) : bool := bool_decide (p ∈ fs w).

(** ** [ffmpeg/ffmpeg.py]: the command builder *)

Module FFMPEG.

Record t : Type := mk {
  ffmpeg_path : string;
  _debug : bool;
  cmd : list string;
  filter_complex : list string;
  maps : list string;
  _quality : string;
  _preset : string;
  _pix_format : option string;
  _video_encoder : string;
  _audio_encoder : string;
  _bitrate : string;
  _output_added : bool;
  _overwrite_output : bool;
  _input_count : Z;
  extra_input_options : list string
}.

Definition _set_defaults (self : t) : t :=
  {| ffmpeg_path := ffmpeg_path self;
     _debug := _debug self;
     cmd := [ffmpeg_path self];
     filter_complex := [];
     maps := [];
     _quality := "20";
     _preset := "slow";
     _pix_format := None;
     _video_encoder := "h264_nvenc";
     _audio_encoder := "aac";
     _bitrate := "44100";
     _output_added := false;
     _overwrite_output := true;
     _input_count := 0;
     extra_input_options := extra_input_options self |}.

Definition set_cmd (self : t) (c : list string) : t :=
  {| ffmpeg_path := ffmpeg_path self; _debug := _debug self; cmd := c;
     filter_complex := filter_complex self; maps := maps self;
     _quality := _quality self; _preset := _preset self;
     _pix_format := _pix_format self; _video_encoder := _video_encoder self;
     _audio_encoder := _audio_encoder self; _bitrate := _bitrate self;
     _output_added := _output_added self;
     _overwrite_output := _overwrite_output self;
     _input_count := _input_count self;
     extra_input_options := extra_input_options self |}.

Definition set_filter_complex (self : t) (f : list string) : t :=
  {| ffmpeg_path := ffmpeg_path self; _debug := _debug self; cmd := cmd self;
     filter_complex := f; maps := maps self;
     _quality := _quality self; _preset := _preset self;
     _pix_format := _pix_format self; _video_encoder := _video_encoder self;
     _audio_encoder := _audio_encoder self; _bitrate := _bitrate self;
     _output_added := _output_added self;
     _overwrite_output := _overwrite_output self;
     _input_count := _input_count self;
     extra_input_options := extra_input_options self |}.

Definition set_maps (self : t) (m : list string) : t :=
  {| ffmpeg_path := ffmpeg_path self; _debug := _debug self; cmd := cmd self;
     filter_complex := filter_complex self; maps := m;
     _quality := _quality self; _preset := _preset self;
     _pix_format := _pix_format self; _video_encoder := _video_encoder self;
     _audio_encoder := _audio_encoder self; _bitrate := _bitrate self;
     _output_added := _output_added self;
     _overwrite_output := _overwrite_output self;
     _input_count := _input_count self;
     extra_input_options := extra_input_options self |}.

Definition set__output_added (self : t) (b : bool) : t :=
  {| ffmpeg_path := ffmpeg_path self; _debug := _debug self; cmd := cmd self;
     filter_complex := filter_complex self; maps := maps self;
     _quality := _quality self; _preset := _preset self;
     _pix_format := _pix_format self; _video_encoder := _video_encoder self;
     _audio_encoder := _audio_encoder self; _bitrate := _bitrate self;
     _output_added := b;
     _overwrite_output := _overwrite_output self;
     _input_count := _input_count self;
     extra_input_options := extra_input_options self |}.

Definition set__input_count (self : t) (n : Z) : t :=
  {| ffmpeg_path := ffmpeg_path self; _debug := _debug self; cmd := cmd self;
     filter_complex := filter_complex self; maps := maps self;
     _quality := _quality self; _preset := _preset self;
     _pix_format := _pix_format self; _video_encoder := _video_encoder self;
     _audio_encoder := _audio_encoder self; _bitrate := _bitrate self;
     _output_added := _output_added self;
     _overwrite_output := _overwrite_output self;
     _input_count := n;
     extra_input_options := extra_input_options self |}.

(** The [debug] property setter. *)
Definition set_debug (self : t) (value : bool) : t :=
  {| ffmpeg_path := ffmpeg_path self; _debug := value; cmd := cmd self;
     filter_complex := filter_complex self; maps := maps self;
     _quality := _quality self; _preset := _preset self;
     _pix_format := _pix_format self; _video_encoder := _video_encoder self;
     _audio_encoder := _audio_encoder self; _bitrate := _bitrate self;
     _output_added := _output_added self;
     _overwrite_output := _overwrite_output self;
     _input_count := _input_count self;
     extra_input_options := extra_input_options self |}.

(** [FFMPEG(ffmpeg_path, use_gpu)]. *)
Definition __init__ (ffmpeg_path : string) (use_gpu : bool) : t :=
  _set_defaults
    {| ffmpeg_path := ffmpeg_path; _debug := true; cmd := [];
       filter_complex := []; maps := []; _quality := EmptyString; _preset := EmptyString;
       _pix_format := None; _video_encoder := EmptyString; _audio_encoder := EmptyString;
       _bitrate := EmptyString; _output_added := false; _overwrite_output := false;
       _input_count := 0;
       extra_input_options :=
         if use_gpu then ["-hwaccel"; "cuda"; "-hwaccel_output_format"; "cuda"]
         else [] |}.

Definition _compile_settings (self : t) : list string :=
  (if truthy_str (_video_encoder self) then ["-c:v"; _video_encoder self] else [])
  ++ (if truthy_str (_audio_encoder self) then ["-c:a"; _audio_encoder self] else [])
  ++ (if truthy_str (_bitrate self) then ["-b:a"; _bitrate self] else [])
  ++ (if truthy_str (_quality self) then ["-qp"; _quality self] else [])
  ++ (if truthy_str (_preset self) then ["-preset"; _preset self] else [])
  ++ (if truthy (_pix_format self) then ["-pix_fmt"; fmt_opt (_pix_format self)] else [])
  ++ (if _overwrite_output self then ["-y"] else []).

Definition _add_settings (self : t) : t :=
  set_cmd self (cmd self ++ _compile_settings self).

Definition _compile_filter_complex (self : t) : string :=
  let commands := String.concat EmptyString (filter_complex self) in
  if endswith_semicolon commands then drop_last_char commands else commands.

Definition _add_filter_complex (self : t) : t :=
  match filter_complex self with
  | [] => self
  | _ :: _ =>
      let commands := _compile_filter_complex self in
      let self := set_cmd self (cmd self ++ ["-filter_complex"; commands]) in
      set_cmd self (cmd self ++ maps self)
  end.

Definition current_input_index (self : t) : Z := _input_count self - 1.

Definition reset (self : t) : t := _set_defaults self.

(** [add_input(input_file)]; the script never passes [start_from], so the
    [-ss] branch is not taken. *)
Definition add_input (self : t) (input_file : string) : t :=
  let input_cmd := extra_input_options self ++ ["-i"; input_file] in
  let self := set_cmd self (cmd self ++ input_cmd) in
  set__input_count self (_input_count self + 1).

Definition add_output (self : t) (output_file : string) : t :=
  let self := _add_settings self in
  let self := _add_filter_complex self in
  let self := set_cmd self (cmd self ++ [output_file]) in
  set__output_added self true.

(** [filter_complex.append(f)]. *)
Definition append_filter (self : t) (f : string) : t :=
  set_filter_complex self (filter_complex self ++ [f]).

(** [scale]: the [RoundFloats] decorator has rounded float arguments to two
    decimals before they are printed. *)
Definition scale (self : t) (input width height : fval) (output : string) : t :=
  append_filter self
    ("[" +:+ fmt input +:+ "]scale_cuda='" +:+ fmt width +:+ "':'"
     +:+ fmt height +:+ "'[" +:+ output +:+ "];").

Definition overlay (self : t) (background overlay x y : fval) (output : string) : t :=
  append_filter self
    ("[" +:+ fmt background +:+ "][" +:+ fmt overlay +:+ "]overlay_cuda='"
     +:+ fmt x +:+ "':'" +:+ fmt y +:+ "'[" +:+ output +:+ "];").

(** The labels [concat] writes for one input pair. *)
Definition concat_labels (output_video output_audio : option string)
    (i : fval * fval) : string :=
  (if truthy output_video then "[" +:+ fmt (fst i) +:+ "]" else EmptyString)
  +:+ (if truthy output_audio then "[" +:+ fmt (snd i) +:+ "]" else EmptyString).

(** The three-way branch that closes the fragment [concat] builds. *)
Definition concat_outputs (output_video output_audio : option string) : string :=
  if truthy output_audio && truthy output_audio then
    "v=1:a=1[" +:+ fmt_opt output_video +:+ "][" +:+ fmt_opt output_audio +:+ "];"
  else if truthy output_video then
    "v=1[" +:+ fmt_opt output_video +:+ "];"
  else if truthy output_audio then
    "a=1[" +:+ fmt_opt output_audio +:+ "];"
  else EmptyString.

(** The string [concat] appends to [filter_complex]. *)
Definition concat_filter (input : list (fval * fval))
    (output_video output_audio : option string) : string :=
  let filter :=
    foldl (fun filter i => filter +:+ concat_labels output_video output_audio i)
      EmptyString input in
  let filter := filter +:+ "concat=n=" +:+ str_of_nat (length input) +:+ ":" in
  filter +:+ concat_outputs output_video output_audio.

Definition concat (self : t) (input : list (fval * fval))
    (output_video output_audio : option string) : t :=
  append_filter self (concat_filter input output_video output_audio).

Definition create_silent_audio_stream (self : t) (output : string)
    (duration : option Z) : t :=
  append_filter self
    ("anullsrc=channel_layout=stereo:sample_rate=" +:+ _bitrate self
     +:+ ":d=" +:+ fmt_opt_Z duration +:+ "[" +:+ output +:+ "];").

Definition map (self : t) (input : fval) : t :=
  set_maps self (maps self ++ ["-map"; "[" +:+ fmt input +:+ "]"]).

(** [run]: spawn the compiled command and raise on a non-zero return code. *)
Definition run `{Externals} (self : t) (w : World) : (exn + unit) * World :=
  if negb (_output_added self) then (inl (Exception_ "Output file not added"), w)
  else
    let '(returncode, w') := spawn_ffmpeg (cmd self) w in
    if negb (returncode =? 0) then (inl (RuntimeError returncode (cmd self)), w')
    else (inr tt, w').

End FFMPEG.

(** ** [ffmpeg/probe.py] *)

Module PROBE.

Record t : Type := mk {
  probe_path : string;
  _debug : bool;
  cmd : list string
}.

Definition _set_defaults (self : t) : t :=
  {| probe_path := probe_path self; _debug := _debug self;
     cmd := [probe_path self] |}.

Definition __init__ (ffprobe_path : string) : t :=
  _set_defaults {| probe_path := ffprobe_path; _debug := false; cmd := [] |}.

Definition reset (self : t) : t := _set_defaults self.

Section Run.
Context `{Externals}.

(** [_run]: a non-zero return code raises; otherwise the decoded output. *)
Definition _run (self : t) : exn + string :=
  let '(returncode, stdout) := ffprobe_process (cmd self) in
  if negb (returncode =? 0)
  then inl (Exception_ ("probe exited with code " +:+ str_of_Z returncode))
  else
    match decode_utf8 stdout with
    | None => inl UnicodeDecodeError
    | Some output => inr output
    end.

(** [get_media_duration]: the command is reset only on the path that
    returns; an exception leaves the extended command in place. *)
Definition get_media_duration (self : t) (input_file : string) : (exn + Z) * t :=
  let self :=
    {| probe_path := probe_path self; _debug := _debug self;
       cmd := cmd self ++ ["-v"; "error"; "-show_entries"; "format=duration";
                           "-of"; "default=noprint_wrappers=1:nokey=1";
                           input_file] |} in
  match _run self with
  | inl e => (inl e, self)
  | inr process =>
      let length := strip process in
      match int_round_float length with
      | None => (inl ValueError, self)
      | Some length => (inr length, reset self)
      end
  end.

End Run.

End PROBE.

(** ** [main.py] *)

Definition DEBUG : bool := false.

(** [datetime_from_file_name]: the first 15 characters of the name before
    its first dot, parsed as [%Y%m%d_%H%M%S]. *)
Definition file_name_datetime_section (file : Path) : string :=
  String.substring 0 15 (split_dot_0 (name file)).

Definition datetime_from_file_name `{Externals} (file : Path) : exn + datetime :=
  match strptime (file_name_datetime_section file) with
  | Some datetime_ => inr datetime_
  | None => inl ValueError
  end.

Inductive VideoTypes : Type := Parked | Moving.

Inductive VideoViewPointType : Type := Front | Back.

#[global] Instance VideoTypes_eq_dec : EqDecision VideoTypes.
Proof. solve_decision. Defined.

#[global] Instance VideoViewPointType_eq_dec : EqDecision VideoViewPointType.
Proof. solve_decision. Defined.

(** A [Video]; its [ffmpeg] attribute is the builder of the group that owns
    it, which the methods below take and return. *)
Record Video : Type := mkVideo {
  path : Path;
  view_point : VideoViewPointType;
  type_ : VideoTypes;
  duration_seconds : option Z;
  ffmpeg_input_number : Z;
  ffmpeg_video_stream : string;
  ffmpeg_audio_stream : string
}.

Record VideoGroup : Type := mkVideoGroup {
  ffmpeg : FFMPEG.t;
  title : string;
  start_time : datetime;
  end_time : datetime;
  front_videos : list Video;
  back_videos : list Video;
  final_video : option string
}.

Definition set_end_time (self : VideoGroup) (e : datetime) : VideoGroup :=
  {| ffmpeg := ffmpeg self; title := title self; start_time := start_time self;
     end_time := e; front_videos := front_videos self;
     back_videos := back_videos self; final_video := final_video self |}.

Definition set_front_videos (self : VideoGroup) (l : list Video) : VideoGroup :=
  {| ffmpeg := ffmpeg self; title := title self; start_time := start_time self;
     end_time := end_time self; front_videos := l;
     back_videos := back_videos self; final_video := final_video self |}.

Definition set_back_videos (self : VideoGroup) (l : list Video) : VideoGroup :=
  {| ffmpeg := ffmpeg self; title := title self; start_time := start_time self;
     end_time := end_time self; front_videos := front_videos self;
     back_videos := l; final_video := final_video self |}.

Definition set_ffmpeg (self : VideoGroup) (f : FFMPEG.t) : VideoGroup :=
  {| ffmpeg := f; title := title self; start_time := start_time self;
     end_time := end_time self; front_videos := front_videos self;
     back_videos := back_videos self; final_video := final_video self |}.

Definition set_title (self : VideoGroup) (s : string) : VideoGroup :=
  {| ffmpeg := ffmpeg self; title := s; start_time := start_time self;
     end_time := end_time self; front_videos := front_videos self;
     back_videos := back_videos self; final_video := final_video self |}.

Definition set_final_video (self : VideoGroup) (p : option string) : VideoGroup :=
  {| ffmpeg := ffmpeg self; title := title self; start_time := start_time self;
     end_time := end_time self; front_videos := front_videos self;
     back_videos := back_videos self; final_video := p |}.

Section Grouper.
Context `{Externals}.

(** [Video.__init__]: the tags come from letters of the file name; the
    duration comes from the shared [PROBE], any exception giving [None]. *)
Definition Video__init__ (path : Path) (probe : PROBE.t) : Video * PROBE.t :=
  let file_name := split_dot_0 (name path) in
  let type_ := if contains_char "P" file_name then Parked else Moving in
  let view_point := if contains_char "A" file_name then Front else Back in
  let '(r, probe) := PROBE.get_media_duration probe (as_posix path) in
  let duration_seconds :=
    match r with
    | inr d => Some d
    | inl _ => None
    end in
  ({| path := path; view_point := view_point; type_ := type_;
      duration_seconds := duration_seconds; ffmpeg_input_number := 0;
      ffmpeg_video_stream := "0:v"; ffmpeg_audio_stream := "0:a" |}, probe).

(** [VideoGroup.add_video]. *)
Definition add_video (self : VideoGroup) (video : Path) (probe : PROBE.t)
    : VideoGroup * PROBE.t :=
  let '(video, probe) := Video__init__ video probe in
  match duration_seconds video with
  | None => (self, probe)
  | Some _ =>
      if decide (view_point video = Front)
      then (set_front_videos self (front_videos self ++ [video]), probe)
      else (set_back_videos self (back_videos self ++ [video]), probe)
  end.

(** The loop [for video in videos: self.add_video(video)]. *)
Fixpoint add_videos (self : VideoGroup) (videos : list Path) (probe : PROBE.t)
    : VideoGroup * PROBE.t :=
  match videos with
  | [] => (self, probe)
  | video :: videos =>
      let '(self, probe) := add_video self video probe in
      add_videos self videos probe
  end.

(** [VideoGroup.__init__]. *)
Definition VideoGroup__init__ (start_time end_time : datetime)
    (videos : list Path) (ffmpeg : option FFMPEG.t) (probe : PROBE.t)
    : VideoGroup * PROBE.t :=
  let ffmpeg :=
    match ffmpeg with
    | Some f => f
    | None => FFMPEG.__init__ "ffmpeg" true
    end in
  let ffmpeg := FFMPEG.set_debug ffmpeg DEBUG in
  let self :=
    {| ffmpeg := ffmpeg; title := EmptyString; start_time := start_time;
       end_time := end_time; front_videos := []; back_videos := [];
       final_video := None |} in
  let '(self, probe) := add_videos self videos probe in
  (set_title self (strftime start_time), probe).

(** [len(front_videos) != len(back_videos)]. *)
Definition has_missing_pair (self : VideoGroup) : bool :=
  negb (Nat.eqb (length (front_videos self)) (length (back_videos self))).

(** The inner loop of [get_videos]: the first group whose window holds the
    file takes it.  [None] is [found_group = False]. *)
Fixpoint find_group (file : Path) (file_datetime : datetime)
    (videos : list VideoGroup) (probe : PROBE.t)
    : exn + option (list VideoGroup * PROBE.t) :=
  match videos with
  | [] => inr None
  | video :: rest =>
      match datetime_sub file_datetime (timedelta_hours 2) with
      | inl e => inl e
      | inr d =>
          if d <? end_time video then
            let video := set_end_time video file_datetime in
            let '(video, probe) := add_video video file probe in
            inr (Some (video :: rest, probe))
          else
            match find_group file file_datetime rest probe with
            | inl e => inl e
            | inr None => inr None
            | inr (Some (rest, probe)) => inr (Some (video :: rest, probe))
            end
      end
  end.

(** One iteration of the outer loop of [get_videos]. *)
Definition get_videos_step (videos : list VideoGroup) (probe : PROBE.t)
    (file : Path) : exn + list VideoGroup * PROBE.t :=
  match datetime_from_file_name file with
  | inl e => inl e
  | inr file_datetime =>
      match find_group file file_datetime videos probe with
      | inl e => inl e
      | inr (Some r) => inr r
      | inr None =>
          let '(g, probe) :=
            VideoGroup__init__ file_datetime file_datetime [file] None probe in
          inr (videos ++ [g], probe)
      end
  end.

Fixpoint get_videos_loop (files : list Path) (videos : list VideoGroup)
    (probe : PROBE.t) : exn + list VideoGroup * PROBE.t :=
  match files with
  | [] => inr (videos, probe)
  | file :: files =>
      match get_videos_step videos probe file with
      | inl e => inl e
      | inr (videos, probe) => get_videos_loop files videos probe
      end
  end.

(** [get_videos], given the listing of the input directory and the
    module-level [PROBE] object. *)
Definition get_videos (files : list Path) (probe : PROBE.t)
    : exn + list VideoGroup * PROBE.t :=
  get_videos_loop files [] probe.

End Grouper.

(** ** Rendering *)

(** [range(start, stop, step)] for a positive [step], by counting up while
    below [stop]; [stop] iterations always suffice. *)
Fixpoint range_from (fuel i stop step : nat) : list nat :=
  match fuel with
  | O => []
  | S fuel =>
      if (i <? stop)%nat then i :: range_from fuel (i + step)%nat stop step
      else []
  end.

Definition range (start stop step : nat) : list nat :=
  range_from stop start stop step.

(** [list(zip(self.front_videos, self.back_videos))]. *)
Definition front_and_back_videos (self : VideoGroup) : list (Video * Video) :=
  zip (front_videos self) (back_videos self).

(** [[l[i : i + 4] for i in range(0, len(l), 4)]]. *)
Definition batches_of {A : Type} (l : list A) : list (list A) :=
  (fun i => take 4 (drop i l)) <$> range 0 (length l) 4.

Definition batches (self : VideoGroup) : list (list (Video * Video)) :=
  batches_of (front_and_back_videos self).

(** [Video.add_audio_stream]. *)
Definition add_audio_stream (self : Video) (ffmpeg : FFMPEG.t) : Video * FFMPEG.t :=
  let audio := "a_" +:+ str_of_Z (ffmpeg_input_number self) in
  ({| path := path self; view_point := view_point self; type_ := type_ self;
      duration_seconds := duration_seconds self;
      ffmpeg_input_number := ffmpeg_input_number self;
      ffmpeg_video_stream := ffmpeg_video_stream self;
      ffmpeg_audio_stream := audio |},
   FFMPEG.create_silent_audio_stream ffmpeg audio (duration_seconds self)).

(** [Video.add_as_ffmpeg_input]. *)
Definition add_as_ffmpeg_input (self : Video) (ffmpeg : FFMPEG.t) : Video * FFMPEG.t :=
  let ffmpeg := FFMPEG.add_input ffmpeg (as_posix (path self)) in
  let index := FFMPEG.current_input_index ffmpeg in
  let self :=
    {| path := path self; view_point := view_point self; type_ := type_ self;
       duration_seconds := duration_seconds self;
       ffmpeg_input_number := index;
       ffmpeg_video_stream := str_of_Z index +:+ ":v";
       ffmpeg_audio_stream := str_of_Z index +:+ ":a" |} in
  if bool_decide (type_ self = Parked) && bool_decide (view_point self = Front)
  then add_audio_stream self ffmpeg
  else (self, ffmpeg).

(** The loop that registers both clips of every pair of a batch. *)
Fixpoint add_batch_inputs (batch : list (Video * Video)) (ffmpeg : FFMPEG.t)
    : list (Video * Video) * FFMPEG.t :=
  match batch with
  | [] => ([], ffmpeg)
  | (front_video, back_video) :: batch =>
      let '(front_video, ffmpeg) := add_as_ffmpeg_input front_video ffmpeg in
      let '(back_video, ffmpeg) := add_as_ffmpeg_input back_video ffmpeg in
      let '(batch, ffmpeg) := add_batch_inputs batch ffmpeg in
      ((front_video, back_video) :: batch, ffmpeg)
  end.

Definition streams (video : Video) : fval * fval :=
  (VStr (ffmpeg_video_stream video), VStr (ffmpeg_audio_stream video)).

(** The composition plan of one batch: the chain of builder calls from
    [concat] to [add_output].  [1920 / 1.5] and [1080 / 1.5] are the floats
    [1280.0] and [720.0]. *)
Definition batch_plan (ffmpeg : FFMPEG.t) (batch : list (Video * Video))
    (output_file : string) : FFMPEG.t :=
  let ffmpeg :=
    FFMPEG.concat ffmpeg ((fun p => streams (fst p)) <$> batch)
      (Some "front_v") (Some "front_a") in
  let ffmpeg :=
    FFMPEG.concat ffmpeg ((fun p => streams (snd p)) <$> batch)
      (Some "back_v") None in
  let ffmpeg :=
    FFMPEG.scale ffmpeg (VStr "back_v") (VFloat "1280.0") (VFloat "720.0")
      "back_v" in
  let ffmpeg :=
    FFMPEG.overlay ffmpeg (VStr "front_v") (VStr "back_v") (VInt 0) (VInt 0) "v" in
  let ffmpeg := FFMPEG.map ffmpeg (VStr "v") in
  let ffmpeg := FFMPEG.map ffmpeg (VStr "front_a") in
  FFMPEG.add_output ffmpeg output_file.

(** The argument vector of the final merge. *)
Definition merge_cmd (batch_files : list string) (final_output_file : string)
    : list string :=
  ["ffmpeg"]
  ++ concat ((fun batch_file => ["-i"; batch_file]) <$> batch_files)
  ++ ["-filter_complex";
      "concat=n=" +:+ str_of_nat (length batch_files) +:+ ":v=1:a=1";
      "-c:v"; "h264_nvenc"; "-preset"; "slow"; "-qp"; "20";
      "-c:a"; "aac"; "-b:a"; "44100"; final_output_file].

(** The state of the loop over the batches: the builder, the batches with
    the clips as mutated so far, the intermediate files named so far and the
    world. *)
Record BatchLoop : Type := mkBatchLoop {
  bl_result : exn + unit;
  bl_ffmpeg : FFMPEG.t;
  bl_batches : list (list (Video * Video));
  bl_batch_files : list string;
  bl_world : World
}.

Section Render.
Context `{Externals}.

(** [for index, batch in enumerate(batches): ...]; an exception raised by
    [run] leaves the loop at once. *)
Fixpoint render_batches (title : string) (index : nat)
    (batches : list (list (Video * Video))) (ffmpeg : FFMPEG.t)
    (batch_files : list string) (w : World) : BatchLoop :=
  match batches with
  | [] => mkBatchLoop (inr tt) ffmpeg [] batch_files w
  | batch :: rest =>
      let output_file := title +:+ "_" +:+ str_of_nat index +:+ ".mp4" in
      let batch_files := batch_files ++ [output_file] in
      let ffmpeg := FFMPEG.reset ffmpeg in
      let '(batch, ffmpeg) := add_batch_inputs batch ffmpeg in
      let ffmpeg := batch_plan ffmpeg batch output_file in
      match FFMPEG.run ffmpeg w with
      | (inl e, w) => mkBatchLoop (inl e) ffmpeg (batch :: rest) batch_files w
      | (inr _, w) =>
          let r := render_batches title (S index) rest ffmpeg batch_files w in
          mkBatchLoop (bl_result r) (bl_ffmpeg r) (batch :: bl_batches r)
            (bl_batch_files r) (bl_world r)
      end
  end.

(** The clips of a group after the loop: the paired ones as the loop left
    them, the unpaired ones untouched. *)
Definition with_rendered_clips (self : VideoGroup)
    (rendered : list (list (Video * Video))) : VideoGroup :=
  let pairs := concat rendered in
  let self :=
    set_front_videos self
      ((fst <$> pairs) ++ drop (length pairs) (front_videos self)) in
  set_back_videos self
    ((snd <$> pairs) ++ drop (length pairs) (back_videos self)).

(** [VideoGroup.make_video]. *)
Definition make_video (self : VideoGroup) (w : World)
    : (exn + unit) * VideoGroup * World :=
  let final_output_file := title self +:+ ".mp4" in
  if exists_ final_output_file w && negb DEBUG then (inr tt, self, w)
  else
    let r := render_batches (title self) 0 (batches self) (ffmpeg self) [] w in
    let self := with_rendered_clips (set_ffmpeg self (bl_ffmpeg r)) (bl_batches r) in
    match bl_result r with
    | inl e => (inl e, self, bl_world r)
    | inr _ =>
        let cmd := merge_cmd (bl_batch_files r) final_output_file in
        let '(_, w) := spawn_ffmpeg cmd (bl_world r) in
        (inr tt, set_final_video self (Some final_output_file), w)
    end.

(** The render loop of the script: [for v in vs: v.make_video()]. *)
Fixpoint render_all (vs : list VideoGroup) (w : World)
    : (exn + unit) * list VideoGroup * World :=
  match vs with
  | [] => (inr tt, [], w)
  | v :: rest =>
      match make_video v w with
      | (inl e, v, w) => (inl e, v :: rest, w)
      | (inr _, v, w) =>
          let '(r, rest, w) := render_all rest w in
          (r, v :: rest, w)
      end
  end.

End Render.

(** ** A concrete outside world

    One instance of [Externals], used to run the embedding on concrete
    inputs: dates in the proleptic Gregorian calendar for the fixed-width
    names the camera writes, a probe that reports 60 seconds for every file
    except those listed as unreadable (and, like the real one, refuses an
    argument vector naming more than one input), and an encoder that writes
    its last argument unless that output is listed as failing. *)

Module Fixture.

Definition digit (c : Ascii.ascii) : option Z :=
  let n := Z.of_nat (Ascii.nat_of_ascii c) in
  if (48 <=? n) && (n <=? 57) then Some (n - 48) else None.

Fixpoint digits_acc (acc : Z) (s : string) : option Z :=
  match s with
  | EmptyString => Some acc
  | String c s' =>
      match digit c with
      | Some d => digits_acc (10 * acc + d) s'
      | None => None
      end
  end.

(** A non-empty string of decimal digits. *)
Definition number (s : string) : option Z :=
  match s with
  | EmptyString => None
  | _ => digits_acc 0 s
  end.

Definition is_leap (y : Z) : bool :=
  (y mod 4 =? 0) && (negb (y mod 100 =? 0) || (y mod 400 =? 0)).

Definition days_in_month (y m : Z) : Z :=
  if m =? 2 then (if is_leap y then 29 else 28)
  else if (m =? 4) || (m =? 6) || (m =? 9) || (m =? 11) then 30
  else 31.

(** Days from 0001-01-01 to the given civil date. *)
Definition days_from_civil (y m d : Z) : Z :=
  let y := if m <=? 2 then y - 1 else y in
  let era := y / 400 in
  let yoe := y - era * 400 in
  let doy := (153 * (if 2 <? m then m - 3 else m + 9) + 2) / 5 + d - 1 in
  let doe := yoe * 365 + yoe / 4 - yoe / 100 + doy in
  era * 146097 + doe - 306.

(** The civil date (year, month, day) of a number of days from 0001-01-01. *)
Definition civil_from_days (z : Z) : Z * Z * Z :=
  let z := z + 306 in
  let era := z / 146097 in
  let doe := z - era * 146097 in
  let yoe := (doe - doe / 1460 + doe / 36524 - doe / 146096) / 365 in
  let doy := doe - (365 * yoe + yoe / 4 - yoe / 100) in
  let mp := (5 * doy + 2) / 153 in
  let d := doy - (153 * mp + 2) / 5 + 1 in
  let m := if mp <? 10 then mp + 3 else mp - 9 in
  let y := yoe + era * 400 in
  ((if m <=? 2 then y + 1 else y), m, d).

(** [strptime] at [%Y%m%d_%H%M%S] for the fixed-width form
    [YYYYMMDD_HHMMSS]. *)
Definition strptime_fixed (s : string) : option datetime :=
  if negb (Nat.eqb (String.length s) 15) then None
  else if negb (String.eqb (String.substring 8 1 s) "_") then None
  else
    match number (String.substring 0 4 s), number (String.substring 4 2 s),
          number (String.substring 6 2 s), number (String.substring 9 2 s),
          number (String.substring 11 2 s), number (String.substring 13 2 s) with
    | Some y, Some m, Some d, Some hh, Some mm, Some ss =>
        if (1 <=? y) && (1 <=? m) && (m <=? 12) && (1 <=? d)
           && (d <=? days_in_month y m) && (hh <=? 23) && (mm <=? 59)
           && (ss <=? 59)
        then Some (days_from_civil y m d * 86400 + hh * 3600 + mm * 60 + ss)
        else None
    | _, _, _, _, _, _ => None
    end.

Definition two_digits (z : Z) : string :=
  if z <? 10 then "0" +:+ str_of_Z z else str_of_Z z.

Definition month_abbr (m : Z) : string :=
  nth (Z.to_nat (m - 1))
    ["Jan"; "Feb"; "Mar"; "Apr"; "May"; "Jun";
     "Jul"; "Aug"; "Sep"; "Oct"; "Nov"; "Dec"] EmptyString.

(** [strftime] at [%d %b %Y %H-%M-%S]. *)
Definition strftime_fixed (t : datetime) : string :=
  let '(y, m, d) := civil_from_days (t / 86400) in
  let r := t mod 86400 in
  two_digits d +:+ " " +:+ month_abbr m +:+ " " +:+ str_of_Z y +:+ " "
  +:+ two_digits (r / 3600) +:+ "-" +:+ two_digits (r mod 3600 / 60) +:+ "-"
  +:+ two_digits (r mod 60).

(** The probe: one input only, and not one of the unreadable files. *)
Definition ffprobe (unreadable : list string) (cmd : list string)
    : Z * string :=
  match last cmd with
  | Some input_file =>
      if Nat.eqb (length cmd) 8 && negb (bool_decide (input_file ∈ unreadable))
      then (0, "60.000000" +:+ String (Ascii.ascii_of_nat 10) EmptyString)
      else (1, EmptyString)
  | None => (1, EmptyString)
  end.

(** Text of a decimal number to the nearest integer, ties to even. *)
Fixpoint all_zero (s : string) : bool :=
  match s with
  | EmptyString => true
  | String c s' => Ascii.eqb c "0"%char && all_zero s'
  end.

Fixpoint before_dot (s : string) : string * option string :=
  match s with
  | EmptyString => (EmptyString, None)
  | String c s' =>
      if Ascii.eqb c "."%char then (EmptyString, Some s')
      else let '(a, b) := before_dot s' in (String c a, b)
  end.

Definition round_decimal (s : string) : option Z :=
  let '(whole, frac) := before_dot s in
  match number whole, frac with
  | Some n, None => Some n
  | Some n, Some EmptyString => Some n
  | Some n, Some (String c rest) =>
      match digit c, digits_acc 0 rest with
      | Some d, Some _ =>
          if d <? 5 then Some n
          else if (5 <? d) || negb (all_zero rest) then Some (n + 1)
          else Some (if Z.even n then n else n + 1)
      | _, _ => None
      end
  | None, _ => None
  end.

(** The encoder: exits with 1 for the outputs listed as failing, otherwise
    writes its last argument and exits with 0. *)
Definition encoder (failing : list string) (cmd : list string)
    (w : World) : Z * gset string :=
  match last cmd with
  | Some output =>
      if bool_decide (output ∈ failing) then (1, fs w)
      else (0, {[output]} ∪ fs w)
  | None => (1, fs w)
  end.

Definition externals (unreadable failing : list string) : Externals :=
  {| strptime := strptime_fixed;
     strftime := strftime_fixed;
     ffprobe_process := ffprobe unreadable;
     decode_utf8 := Some;
     int_round_float := round_decimal;
     ffmpeg_process := encoder failing |}.

End Fixture.

(** ** Vocabulary of the statements *)

(** The ceiling of [n / d]. *)
Definition ceil_div (n d : nat) : nat := ((n + d - 1) / d)%nat.

Arguments ceil_div : simpl never.

(** The test of the inner loop of [get_videos] evaluates to true: the
    subtraction is defined and its result is before the end of the group. *)
Definition window_holds (file_datetime : datetime) (g : VideoGroup) : bool :=
  match datetime_sub file_datetime (timedelta_hours 2) with
  | inr d => d <? end_time g
  | inl _ => false
  end.

(** The same test evaluates to false. *)
Definition window_excludes (file_datetime : datetime) (g : VideoGroup) : bool :=
  match datetime_sub file_datetime (timedelta_hours 2) with
  | inr d => end_time g <=? d
  | inl _ => false
  end.

(** The wording of the test in the specification: the end of the group,
    less the gap, is earlier than the time of the file. *)
Definition window_as_worded (file_datetime : datetime) (g : VideoGroup) : bool :=
  end_time g - timedelta_hours 2 <? file_datetime.

(** What [add_video] appends to the sequence of view point [vp] for a clip:
    the clip itself when it has a duration and that view point. *)
Definition clip_at (vp : VideoViewPointType) (v : Video) : list Video :=
  match duration_seconds v with
  | Some _ => if decide (view_point v = vp) then [v] else []
  | None => []
  end.

(** The clips of a group, front then back. *)
Definition clips (g : VideoGroup) : list Video :=
  front_videos g ++ back_videos g.

(** The names of [n] intermediate files, from index [index] on. *)
Definition batch_file_names (title : string) (index n : nat) : list string :=
  (fun i => title +:+ "_" +:+ str_of_nat i +:+ ".mp4") <$> seq index n.

(** [needle in s] for strings. *)
Fixpoint contains (needle s : string) : bool :=
  String.prefix needle s
  || match s with
     | EmptyString => false
     | String _ s' => contains needle s'
     end.

Section Vocabulary.
Context `{Externals}.

(** The argument vector of the probe for a file, given the state the
    [PROBE] object is in. *)
Definition probe_cmd (probe : PROBE.t) (file : Path) : list string :=
  PROBE.cmd probe
  ++ ["-v"; "error"; "-show_entries"; "format=duration"; "-of";
      "default=noprint_wrappers=1:nokey=1"; as_posix file].

(** The probe of a file exits non-zero or its output is not a number. *)
Definition probe_fails (probe : PROBE.t) (file : Path) : bool :=
  let '(returncode, stdout) := ffprobe_process (probe_cmd probe file) in
  negb (returncode =? 0)
  || match decode_utf8 stdout with
     | None => true
     | Some output =>
         match int_round_float (strip output) with
         | None => true
         | Some _ => false
         end
     end.

(** The state of the [PROBE] object once the files [pre] have been seen:
    every file is probed exactly once, when its [Video] is built. *)
Definition probe_before (pre : list Path) (probe : PROBE.t) : PROBE.t :=
  foldl (fun p f => (Video__init__ f p).2) probe pre.

End Vocabulary.

(** A group after [add_video] has been given a clip: the clip is appended
    to the sequence of its view point when it has a duration. *)
Definition with_clip (g : VideoGroup) (v : Video) : VideoGroup :=
  set_back_videos
    (set_front_videos g (front_videos g ++ clip_at Front v))
    (back_videos g ++ clip_at Back v).

(** The start, the end and the names of the front and back clips of every
    group of a scan that returned. *)
Definition outline (r : exn + list VideoGroup * PROBE.t)
    : option (list (datetime * datetime * list string * list string)) :=
  match r with
  | inr (videos, _) =>
      Some ((fun g => (start_time g, end_time g,
                       (fun v => name (path v)) <$> front_videos g,
                       (fun v => name (path v)) <$> back_videos g)) <$> videos)
  | inl _ => None
  end.

(** What [concat] has built when it reaches its three-way branch: the
    labels of the inputs and the count. *)
Definition concat_head (input : list (fval * fval))
    (output_video output_audio : option string) : string :=
  foldl (fun filter i => filter +:+ FFMPEG.concat_labels output_video output_audio i)
    EmptyString input
  +:+ "concat=n=" +:+ str_of_nat (length input) +:+ ":".

(** ** Concrete inputs *)

Module Sample.

Definition entry (n : string) : Path := mkPath "/media/input" n.

Definition probe0 : PROBE.t := PROBE.__init__ "ffprobe".

Definition world0 : World := mkWorld ∅ [].

(** Two recording sessions three hours apart, one front and one back clip
    each. *)
Definition two_sessions_files : list Path :=
  [entry "20230115_100000_A.mp4"; entry "20230115_100010_B.mp4";
   entry "20230115_130000_A.mp4"; entry "20230115_130010_B.mp4"].

Definition groups_of `{Externals} (files : list Path) : list VideoGroup :=
  match get_videos files probe0 with
  | inr (videos, _) => videos
  | inl _ => []
  end.

Definition two_sessions : list VideoGroup :=
  Eval vm_compute in @groups_of (Fixture.externals [] []) two_sessions_files.

Definition no_group : VideoGroup :=
  mkVideoGroup (FFMPEG.__init__ "ffmpeg" true) EmptyString 0 0 [] [] None.

Definition morning : VideoGroup :=
  Eval vm_compute in nth 0 two_sessions no_group.

Definition afternoon : VideoGroup :=
  Eval vm_compute in nth 1 two_sessions no_group.

(** The world after the morning session has been rendered by an encoder
    that never fails. *)
Definition world_after_morning : World :=
  (@make_video (Fixture.externals [] []) morning world0).2.

(** An encoder that fails on the first chunk of the morning session. *)
Definition chunk_fails : Externals :=
  Fixture.externals [] ["15 Jan 2023 10-00-00_0.mp4"].

(** An encoder that fails on the final merge of the morning session. *)
Definition merge_fails : Externals :=
  Fixture.externals [] ["15 Jan 2023 10-00-00.mp4"].

(** A front clip of 10:30 that the probe cannot read. *)
Definition late_clip : Path := entry "20230115_103000_A.mp4".

Definition unreadable : Externals :=
  Fixture.externals ["/media/input/20230115_103000_A.mp4"] [].

(** A file whose name carries no date. *)
Definition misnamed : Path := entry "holiday.mp4".

(** The argument vector of the only chunk of the morning session. *)
Definition morning_chunk_cmd : list string :=
  Eval vm_compute in
    match (@make_video chunk_fails morning world0).1.1 with
    | inl (RuntimeError _ cmd) => cmd
    | _ => []
    end.

End Sample.

(** ** More of [main.py]: what the scan builds and what the table sums *)

(** A clip has a duration. *)
Definition has_duration (v : Video) : bool :=
  match duration_seconds v with
  | Some _ => true
  | None => false
  end.

(** The clips of all groups, group by group. *)
Definition all_clips (gs : list VideoGroup) : list Video :=
  concat (clips <$> gs).

(** The subtraction of the gap from a time is defined. *)
Definition gap_defined (t : datetime) : bool :=
  match datetime_sub t (timedelta_hours 2) with
  | inr _ => true
  | inl _ => false
  end.

(** A list of times never goes back. *)
Fixpoint nondecreasing (ts : list datetime) : bool :=
  match ts with
  | a :: (b :: _) as rest => (a <=? b) && nondecreasing rest
  | _ => true
  end.

(** Every group ends at least the gap before each group created after it
    starts. *)
Definition separated (gs : list VideoGroup) : Prop :=
  ∀ i j g g',
    (i < j)%nat → gs !! i = Some g → gs !! j = Some g' →
    end_time g + timedelta_hours 2 ≤ start_time g'.

(** [VideoGroup.total_seconds]: the float of a whole number of seconds. *)
Definition total_seconds (self : VideoGroup) : Z :=
  end_time self - start_time self.

(** [VideoGroup.total_real_minutes]. *)
Definition total_real_minutes (self : VideoGroup) : nat :=
  length (front_videos self).

(** The [totals] dictionary of [display_table]. *)
Record Totals : Type := mkTotals {
  totals_front_videos : nat;
  totals_back_videos : nat;
  totals_minutes : Z
}.

(** The body of the loop of [display_table] over the groups, as far as
    [totals] goes. *)
Definition totals_add (totals : Totals) (video : VideoGroup) : Totals :=
  let front_videos := length (front_videos video) in
  let back_videos := length (back_videos video) in
  let minutes := total_seconds video / 60 in
  {| totals_front_videos := totals_front_videos totals + front_videos;
     totals_back_videos := totals_back_videos totals + back_videos;
     totals_minutes := totals_minutes totals + minutes |}.

(** The [totals] of [display_table] after its loop. *)
Definition display_table_totals (videos : list VideoGroup) : Totals :=
  foldl totals_add (mkTotals 0 0 0) videos.

Section ScanVocabulary.
Context `{Externals}.

(** The [Video] objects the scan builds, one per file, in discovery order,
    each in the state the [PROBE] object is in when its file is reached. *)
Fixpoint videos_built (files : list Path) (probe : PROBE.t) : list Video :=
  match files with
  | [] => []
  | file :: files =>
      (Video__init__ file probe).1 :: videos_built files (Video__init__ file probe).2
  end.

(** The time of a file, when its name parses. *)
Definition file_time (file : Path) : option datetime :=
  strptime (file_name_datetime_section file).

(** The arguments [get_media_duration] adds to the command for a file. *)
Definition probe_args (file : Path) : list string :=
  ["-v"; "error"; "-show_entries"; "format=duration"; "-of";
   "default=noprint_wrappers=1:nokey=1"; as_posix file].

(** What one iteration keeps true of the Front and Back sequences: they are
    in the order in which the clips were built, and hold clips with a
    duration and the view point of the sequence. *)
Definition sequences_ok (built : list Video) (g : VideoGroup) : Prop :=
  front_videos g `sublist_of` built
  ∧ back_videos g `sublist_of` built
  ∧ Forall (fun c => view_point c = Front ∧ has_duration c = true) (front_videos g)
  ∧ Forall (fun c => view_point c = Back ∧ has_duration c = true) (back_videos g).

(** What the scan keeps true of every group besides its sequences. *)
Definition group_ok (files : list Path) (g : VideoGroup) : Prop :=
  title g = strftime (start_time g)
  ∧ final_video g = None
  ∧ ffmpeg g = FFMPEG.set_debug (FFMPEG.__init__ "ffmpeg" true) DEBUG
  ∧ (∃ file, file ∈ files ∧ file_time file = Some (start_time g))
  ∧ (∃ file, file ∈ files ∧ file_time file = Some (end_time g)).

End ScanVocabulary.

(** ** More of [main.py]: the inputs of a batch *)


(** The audio label of a clip registered as input [n]: the silent stream
    made for a parked front clip, the audio stream of the input otherwise. *)
Definition audio_label (v : Video) (n : Z) : string :=
  if bool_decide (type_ v = Parked) && bool_decide (view_point v = Front)
  then "a_" +:+ str_of_Z n
  else str_of_Z n +:+ ":a".

(** A clip once registered as input [n]. *)
Definition as_input (v : Video) (n : Z) : Video :=
  {| path := path v; view_point := view_point v; type_ := type_ v;
     duration_seconds := duration_seconds v;
     ffmpeg_input_number := n;
     ffmpeg_video_stream := str_of_Z n +:+ ":v";
     ffmpeg_audio_stream := audio_label v n |}.

(** The silent-audio fragment made for a parked front clip registered as
    input [n]; no fragment for any other clip. *)
Definition silent_fragment (bitrate : string) (v : Video) (n : Z) : list string :=
  if bool_decide (type_ v = Parked) && bool_decide (view_point v = Front)
  then ["anullsrc=channel_layout=stereo:sample_rate=" +:+ bitrate
        +:+ ":d=" +:+ fmt_opt_Z (duration_seconds v)
        +:+ "[" +:+ ("a_" +:+ str_of_Z n) +:+ "];"]
  else [].

(** The pairs of a batch registered from input [n] on: front, back, front,
    back, ... *)
Fixpoint number_batch (n : Z) (batch : list (Video * Video)) : list (Video * Video) :=
  match batch with
  | [] => []
  | (front_video, back_video) :: batch =>
      (as_input front_video n, as_input back_video (n + 1))
      :: number_batch (n + 2) batch
  end.

(** The input arguments of a batch. *)
Fixpoint batch_inputs (options : list string) (batch : list (Video * Video))
    : list string :=
  match batch with
  | [] => []
  | (front_video, back_video) :: batch =>
      (options ++ ["-i"; as_posix (path front_video)])
      ++ (options ++ ["-i"; as_posix (path back_video)])
      ++ batch_inputs options batch
  end.

(** The silent-audio fragments of a batch registered from input [n] on. *)
Fixpoint batch_silent (bitrate : string) (n : Z) (batch : list (Video * Video))
    : list string :=
  match batch with
  | [] => []
  | (front_video, back_video) :: batch =>
      silent_fragment bitrate front_video n
      ++ silent_fragment bitrate back_video (n + 1)
      ++ batch_silent bitrate (n + 2) batch
  end.

(** The settings [add_output] compiles on a builder that was reset. *)
Definition default_settings : list string :=
  ["-c:v"; "h264_nvenc"; "-c:a"; "aac"; "-b:a"; "44100"; "-qp"; "20";
   "-preset"; "slow"; "-y"].

(** The filter graph of a chunk: the silent streams, the two concats, the
    scale and the overlay, without a closing semicolon. *)
Definition chunk_graph (batch : list (Video * Video)) : string :=
  String.concat EmptyString (batch_silent "44100" 0 batch)
  +:+ FFMPEG.concat_filter ((fun p => streams (fst p)) <$> number_batch 0 batch)
        (Some "front_v") (Some "front_a")
  +:+ FFMPEG.concat_filter ((fun p => streams (snd p)) <$> number_batch 0 batch)
        (Some "back_v") None
  +:+ "[back_v]scale_cuda='1280.0':'720.0'[back_v];"
  +:+ "[front_v][back_v]overlay_cuda='0':'0'[v]".

(** The argument vector of a chunk. *)
Definition chunk_cmd (ffmpeg_path : string) (options : list string)
    (batch : list (Video * Video)) (output_file : string) : list string :=
  [ffmpeg_path] ++ batch_inputs options batch ++ default_settings
  ++ ["-filter_complex"; chunk_graph batch; "-map"; "[v]"; "-map"; "[front_a]";
      output_file].

(** The builder once a clip is registered: one more input on the command,
    one more silent-audio fragment if the clip is a parked front clip. *)
Definition input_added (ff : FFMPEG.t) (v : Video) : FFMPEG.t :=
  {| FFMPEG.ffmpeg_path := FFMPEG.ffmpeg_path ff;
     FFMPEG._debug := FFMPEG._debug ff;
     FFMPEG.cmd :=
       FFMPEG.cmd ff ++ (FFMPEG.extra_input_options ff ++ ["-i"; as_posix (path v)]);
     FFMPEG.filter_complex :=
       FFMPEG.filter_complex ff
       ++ silent_fragment (FFMPEG._bitrate ff) v (FFMPEG._input_count ff);
     FFMPEG.maps := FFMPEG.maps ff;
     FFMPEG._quality := FFMPEG._quality ff;
     FFMPEG._preset := FFMPEG._preset ff;
     FFMPEG._pix_format := FFMPEG._pix_format ff;
     FFMPEG._video_encoder := FFMPEG._video_encoder ff;
     FFMPEG._audio_encoder := FFMPEG._audio_encoder ff;
     FFMPEG._bitrate := FFMPEG._bitrate ff;
     FFMPEG._output_added := FFMPEG._output_added ff;
     FFMPEG._overwrite_output := FFMPEG._overwrite_output ff;
     FFMPEG._input_count := FFMPEG._input_count ff + 1;
     FFMPEG.extra_input_options := FFMPEG.extra_input_options ff |}.

(** The builder once the clips of a batch are registered. *)
Fixpoint batch_added (ff : FFMPEG.t) (batch : list (Video * Video)) : FFMPEG.t :=
  match batch with
  | [] => ff
  | (front_video, back_video) :: batch =>
      batch_added (input_added (input_added ff front_video) back_video) batch
  end.

(** The argument vectors of the chunks of a group, in order, the first
    chunk having index [index]. *)
Fixpoint chunk_cmds (ffmpeg_path : string) (options : list string) (title : string)
    (index : nat) (batches : list (list (Video * Video))) : list (list string) :=
  match batches with
  | [] => []
  | batch :: batches =>
      chunk_cmd ffmpeg_path options batch
        (title +:+ "_" +:+ str_of_nat index +:+ ".mp4")
      :: chunk_cmds ffmpeg_path options title (S index) batches
  end.

(** A group without the clips that have no partner: each sequence cut to the
    length of the shorter one. *)
Definition without_excess (self : VideoGroup) : VideoGroup :=
  set_back_videos
    (set_front_videos self
       (take (length (front_videos self) `min` length (back_videos self))
          (front_videos self)))
    (take (length (front_videos self) `min` length (back_videos self))
       (back_videos self)).

(** ** More concrete inputs *)

Module Clips.

(** The pairs of the morning session: one front and one back clip. *)
Definition morning_pairs : list (Video * Video) :=
  Eval vm_compute in front_and_back_videos Sample.morning.

Definition no_clip : Video :=
  mkVideo (mkPath EmptyString EmptyString) Front Moving None 0 EmptyString EmptyString.

Definition morning_front : Video :=
  Eval vm_compute in nth 0 (front_videos Sample.morning) no_clip.

Definition morning_back : Video :=
  Eval vm_compute in nth 0 (back_videos Sample.morning) no_clip.

(** A session of which the camera kept the front clip only. *)
Definition front_only : VideoGroup :=
  Eval vm_compute in
    nth 0 (@Sample.groups_of (Fixture.externals [] [])
             [Sample.entry "20230115_100000_A.mp4"]) Sample.no_group.

End Clips.

Module Afternoon.

(** The first file of the afternoon session, and a probe that cannot read
    it. *)
Definition first_clip : Path := Sample.entry "20230115_130000_A.mp4".

Definition next_clip : Path := Sample.entry "20230115_130010_B.mp4".

Definition unreadable : Externals :=
  Fixture.externals ["/media/input/20230115_130000_A.mp4"] [].

(** The two files of the morning session. *)
Definition morning_files : list Path :=
  [Sample.entry "20230115_100000_A.mp4"; Sample.entry "20230115_100010_B.mp4"].

End Afternoon.

Module Drive.

(** A drive of six minutes of which the camera kept five front clips and
    six back clips. *)
Definition files : list Path :=
  [Sample.entry "20230115_100000_A.mp4"; Sample.entry "20230115_100000_B.mp4";
   Sample.entry "20230115_100100_A.mp4"; Sample.entry "20230115_100100_B.mp4";
   Sample.entry "20230115_100200_A.mp4"; Sample.entry "20230115_100200_B.mp4";
   Sample.entry "20230115_100300_A.mp4"; Sample.entry "20230115_100300_B.mp4";
   Sample.entry "20230115_100400_A.mp4"; Sample.entry "20230115_100400_B.mp4";
   Sample.entry "20230115_100500_B.mp4"].

Definition group : VideoGroup :=
  Eval vm_compute in
    nth 0 (@Sample.groups_of (Fixture.externals [] []) files) Sample.no_group.

End Drive.

(** ** More of [ffmpeg/ffmpeg.py]: sequences of builder calls *)

(** A call of one of the builder's methods that the script uses before it
    adds the output. *)
Inductive call : Type :=
| Call_add_input (input_file : string)
| Call_concat (input : list (fval * fval)) (output_video output_audio : option string)
| Call_scale (input width height : fval) (output : string)
| Call_overlay (background overlay x y : fval) (output : string)
| Call_create_silent_audio_stream (output : string) (duration : option Z)
| Call_map (input : fval).

Definition call_on (self : FFMPEG.t) (c : call) : FFMPEG.t :=
  match c with
  | Call_add_input input_file => FFMPEG.add_input self input_file
  | Call_concat input output_video output_audio =>
      FFMPEG.concat self input output_video output_audio
  | Call_scale input width height output => FFMPEG.scale self input width height output
  | Call_overlay background overlay x y output =>
      FFMPEG.overlay self background overlay x y output
  | Call_create_silent_audio_stream output duration =>
      FFMPEG.create_silent_audio_stream self output duration
  | Call_map input => FFMPEG.map self input
  end.

(** The method calls one after the other on the same builder. *)
Definition calls_on (self : FFMPEG.t) (cs : list call) : FFMPEG.t :=
  foldl call_on self cs.

(** The sum of the [total_seconds] of the groups. *)
Definition sum_total_seconds (videos : list VideoGroup) : Z :=
  foldr (fun video acc => total_seconds video + acc) 0 videos.

(** ** [ffmpeg/helpers.py] *)

Module helpers.

(** [s.replace(old, new)] for an [old] of one character. *)
Fixpoint replace_char (old : Ascii.ascii) (new : string) (s : string) : string :=
  match s with
  | EmptyString => EmptyString
  | String c s' =>
      if Ascii.eqb c old then new +:+ replace_char old new s'
      else String c (replace_char old new s')
  end.

(** [fix_ffmpeg_text]. *)
Definition fix_ffmpeg_text (text : string) : string :=
  let text := replace_char ":"%char "\:" text in
  let text := replace_char "'"%char EmptyString text in
  text.

(** [s.split(sep)] for a [sep] of one character: never an empty list. *)
Fixpoint split_char (sep : Ascii.ascii) (s : string) : list string :=
  match s with
  | EmptyString => [EmptyString]
  | String c s' =>
      if Ascii.eqb c sep then EmptyString :: split_char sep s'
      else
        match split_char sep s' with
        | word :: words => String c word :: words
        | [] => [String c EmptyString]
        end
  end.

(** The body of the loop of [fit_text_to_screen] over the words, on the
    pair of [lines] and [current_phrase]. *)
Definition fit_word (max_letters : Z) (st : list string * string) (word : string)
    : list string * string :=
  let '(lines, current_phrase) := st in
  if Z.of_nat (String.length current_phrase) + Z.of_nat (String.length word)
     <=? max_letters
  then
    if Nat.eqb (String.length current_phrase) 0 then (lines, word)
    else (lines, current_phrase +:+ " " +:+ word)
  else (lines ++ [current_phrase], word).

(** [fit_text_to_screen]. *)
Definition fit_text_to_screen (text : string) (max_letters : Z) : list string :=
  if Z.of_nat (String.length text) <=? max_letters then [text]
  else
    let text_words := split_char " "%char text in
    let '(lines, current_phrase) :=
      foldl (fit_word max_letters) ([], EmptyString) text_words in
    if negb (Nat.eqb (String.length current_phrase) 0)
    then lines ++ [current_phrase]
    else lines.

(** What [fix_ffmpeg_text] makes of one character: a colon gets a backslash
    before it, an apostrophe is dropped, any other character is kept. *)
Definition fixed_char (c : Ascii.ascii) : string :=
  if Ascii.eqb c ":"%char then "\:"
  else if Ascii.eqb c "'"%char then EmptyString
  else String c EmptyString.

(** The strings made of the characters of a string, one after the other. *)
Fixpoint each_char (f : Ascii.ascii → string) (s : string) : string :=
  match s with
  | EmptyString => EmptyString
  | String c s' => f c +:+ each_char f s'
  end.

(** A string is not empty. *)
Definition nonempty (s : string) : bool := negb (Nat.eqb (String.length s) 0).

(** Every colon of a string comes right after a backslash; [prev] is the
    character before the string. *)
Fixpoint colons_escaped_after (prev : Ascii.ascii) (s : string) : bool :=
  match s with
  | EmptyString => true
  | String c s' =>
      (if Ascii.eqb c ":"%char then Ascii.eqb prev "\"%char else true)
      && colons_escaped_after c s'
  end.

Definition colons_escaped (s : string) : bool := colons_escaped_after " "%char s.

(** How often a character occurs in a string. *)
Fixpoint count_char (c : Ascii.ascii) (s : string) : nat :=
  match s with
  | EmptyString => 0
  | String d s' => ((if Ascii.eqb d c then 1 else 0) + count_char c s')%nat
  end.

End helpers.

(** * Properties *)

(** ** Pairing and batching *)

(** [ceil_div n 4] is the least number of fours that cover [n]. *)
Lemma ceil_div_4_spec (n : nat) :
  (n ≤ 4 * ceil_div n 4 ∧ 4 * ceil_div n 4 < n + 4)%nat.
Proof.
  unfold ceil_div.
  pose proof (Nat.div_mod_eq (n + 4 - 1) 4).
  pose proof (Nat.mod_upper_bound (n + 4 - 1) 4 ltac:(lia)).
  generalize dependent ((n + 4 - 1) `div` 4)%nat.
  generalize dependent ((n + 4 - 1) `mod` 4)%nat.
  intros. lia.
Qed.

Section Batching.
Context {A : Type}.
Implicit Types l : list A.

Lemma range_from_lookup fuel i stop k j :
  range_from fuel i stop 4 !! k = Some j → (j = i + 4 * k ∧ j < stop)%nat.
Proof.
  revert i k. induction fuel as [|fuel IH]; intros i k; simpl; [done|].
  destruct (Nat.ltb_spec i stop) as [Hlt|Hge]; [|done].
  destruct k as [|k]; simpl.
  - intros [= <-]. lia.
  - intros Hk. apply IH in Hk. lia.
Qed.

Lemma range_from_length fuel i stop :
  (stop - i ≤ fuel)%nat →
  length (range_from fuel i stop 4) = ceil_div (stop - i) 4.
Proof.
  revert i. induction fuel as [|fuel IH]; intros i Hfuel; simpl.
  - pose proof (ceil_div_4_spec (stop - i)). lia.
  - destruct (Nat.ltb_spec i stop) as [Hlt|Hge]; simpl.
    + rewrite IH by lia.
      pose proof (ceil_div_4_spec (stop - i)).
      pose proof (ceil_div_4_spec (stop - (i + 4))). lia.
    + pose proof (ceil_div_4_spec (stop - i)). lia.
Qed.

Lemma range_from_concat fuel i l :
  (length l - i ≤ fuel)%nat →
  concat ((λ j, take 4 (drop j l)) <$> range_from fuel i (length l) 4) = drop i l.
Proof.
  revert i. induction fuel as [|fuel IH]; intros i Hfuel; simpl.
  - by rewrite drop_ge by lia.
  - destruct (Nat.ltb_spec i (length l)) as [Hlt|Hge]; simpl.
    + rewrite IH by lia. rewrite <-(drop_drop l 4 i). apply take_drop.
    + by rewrite drop_ge by lia.
Qed.

Lemma batches_of_concat l : concat (batches_of l) = l.
Proof. unfold batches_of, range. by rewrite range_from_concat by lia. Qed.

Lemma batches_of_length l : length (batches_of l) = ceil_div (length l) 4.
Proof.
  unfold batches_of, range. rewrite length_fmap, range_from_length by lia.
  by rewrite Nat.sub_0_r.
Qed.

Lemma batches_of_lookup l k c :
  batches_of l !! k = Some c →
  c = take 4 (drop (4 * k) l) ∧ (4 * k < length l)%nat.
Proof.
  unfold batches_of, range. rewrite list_lookup_fmap.
  destruct (range_from _ _ _ _ !! k) as [j|] eqn:Hj; [|done].
  apply range_from_lookup in Hj as [-> Hlt]. simpl. intros [= <-]. done.
Qed.

Lemma batches_of_chunk_length l k c :
  batches_of l !! k = Some c → (1 ≤ length c ≤ 4)%nat.
Proof.
  intros [-> Hlt]%batches_of_lookup. rewrite length_take, length_drop. lia.
Qed.

Lemma batches_of_full_chunk l k c :
  batches_of l !! k = Some c → (S k < length (batches_of l))%nat → length c = 4%nat.
Proof.
  intros [-> Hlt]%batches_of_lookup. rewrite batches_of_length.
  intros Hk. rewrite length_take, length_drop.
  pose proof (ceil_div_4_spec (length l)). lia.
Qed.

End Batching.

Lemma zip_fst_take {A B : Type} (l : list A) (k : list B) :
  (zip l k).*1 = take (length k) l.
Proof.
  revert k. induction l as [|x l IH]; intros [|y k]; simpl; [done..|].
  by rewrite IH.
Qed.

Lemma zip_snd_take {A B : Type} (l : list A) (k : list B) :
  (zip l k).*2 = take (length l) k.
Proof.
  revert k. induction l as [|x l IH]; intros [|y k]; simpl; [done..|].
  by rewrite IH.
Qed.

Lemma zip_lookup_Some {A B : Type} (l : list A) (k : list B) i x y :
  zip l k !! i = Some (x, y) ↔ l !! i = Some x ∧ k !! i = Some y.
Proof.
  split.
  - intros (x' & y' & [= -> ->] & ? & ?)%lookup_zip_with_Some. done.
  - intros [? ?]. apply lookup_zip_with_Some. by exists x, y.
Qed.

Section RenderBatches.
Context `{Externals}.

(** The loop names at most one intermediate file per batch, and exactly one
    per batch when no [run] raised. *)
Lemma render_batches_batch_files title index bs ffmpeg0 files0 w :
  let r := render_batches title index bs ffmpeg0 files0 w in
  (length (bl_batch_files r) ≤ length files0 + length bs)%nat
  ∧ (bl_result r = inr tt →
     bl_batch_files r = files0 ++ batch_file_names title index (length bs)).
Proof.
  revert index ffmpeg0 files0 w.
  induction bs as [|b bs IH]; intros index ffmpeg0 files0 w; simpl.
  - split; [lia|]. intros _. unfold batch_file_names. simpl. by rewrite app_nil_r.
  - destruct (add_batch_inputs b (FFMPEG.reset ffmpeg0)) as [b' ff].
    destruct (FFMPEG.run _ w) as [[e|[]] w']; simpl.
    + rewrite length_app. simpl. split; [lia|done].
    + match goal with
      | |- context [render_batches title (S index) bs ?f ?fl w'] =>
          destruct (IH (S index) f fl w') as [IHle IHeq]
      end.
      rewrite length_app in IHle. simpl in IHle. split; [lia|].
      intros Hok. rewrite (IHeq Hok), <-app_assoc. done.
Qed.

End RenderBatches.

(** The examples of the specification: three pairs make one batch of three,
    nine pairs make batches of four, four and one. *)
Example batches_of_three_pairs :
  length <$> batches_of (zip (seq 0 5) (seq 0 3)) = [3%nat].
Proof. reflexivity. Qed.

Example batches_of_nine_pairs :
  length <$> batches_of (zip (seq 0 9) (seq 0 9)) = [4; 4; 1]%nat.
Proof. reflexivity. Qed.

Example batches_of_no_pair : batches_of (zip (seq 0 2) (@nil nat)) = [].
Proof. reflexivity. Qed.

(** ** The render step *)

Section RenderFacts.
Context `{Externals}.

Lemma batch_plan_output_added ffmpeg0 batch output_file :
  FFMPEG._output_added (batch_plan ffmpeg0 batch output_file) = true.
Proof. reflexivity. Qed.

(** [run] on a builder whose output was added: the process is spawned, and
    a non-zero return code is raised as [RuntimeError]. *)
Lemma run_spec (ff : FFMPEG.t) (w : World) :
  FFMPEG._output_added ff = true →
  FFMPEG.run ff w
  = (if (ffmpeg_process (FFMPEG.cmd ff) w).1 =? 0 then inr tt
     else inl (RuntimeError (ffmpeg_process (FFMPEG.cmd ff) w).1 (FFMPEG.cmd ff)),
     {| fs := (ffmpeg_process (FFMPEG.cmd ff) w).2;
        spawned := spawned w ++ [FFMPEG.cmd ff] |}).
Proof.
  intros Hadded. unfold FFMPEG.run, spawn_ffmpeg. rewrite Hadded. simpl.
  destruct (ffmpeg_process (FFMPEG.cmd ff) w) as [rc fs']. simpl.
  by destruct (rc =? 0).
Qed.

(** One iteration of the loop over the batches. *)
Lemma render_batches_cons title index b bs ffmpeg0 files0 w :
  render_batches title index (b :: bs) ffmpeg0 files0 w
  = let output_file := title +:+ "_" +:+ str_of_nat index +:+ ".mp4" in
    let plan :=
      batch_plan (add_batch_inputs b (FFMPEG.reset ffmpeg0)).2
        (add_batch_inputs b (FFMPEG.reset ffmpeg0)).1 output_file in
    let batch := (add_batch_inputs b (FFMPEG.reset ffmpeg0)).1 in
    match FFMPEG.run plan w with
    | (inl e, w) => mkBatchLoop (inl e) plan (batch :: bs) (files0 ++ [output_file]) w
    | (inr _, w) =>
        let r := render_batches title (S index) bs plan (files0 ++ [output_file]) w in
        mkBatchLoop (bl_result r) (bl_ffmpeg r) (batch :: bl_batches r)
          (bl_batch_files r) (bl_world r)
    end.
Proof.
  cbn [render_batches]. by destruct (add_batch_inputs b (FFMPEG.reset ffmpeg0)).
Qed.

(** A loop over the batches that raised did so with the [RuntimeError] of
    the last process it spawned, whose return code was not zero; it spawned
    one process per batch up to that one and none after it. *)
Lemma render_batches_raise title index bs ffmpeg0 files0 w e :
  bl_result (render_batches title index bs ffmpeg0 files0 w) = inl e →
  ∃ rc cmd before,
    e = RuntimeError rc cmd ∧ rc ≠ 0
    ∧ spawned (bl_world (render_batches title index bs ffmpeg0 files0 w))
      = spawned w ++ before ++ [cmd]
    ∧ (length before < length bs)%nat.
Proof.
  revert index ffmpeg0 files0 w.
  induction bs as [|b bs IH]; intros index ffmpeg0 files0 w; [done|].
  rewrite render_batches_cons. cbv zeta.
  rewrite run_spec by apply batch_plan_output_added.
  generalize (add_batch_inputs b (FFMPEG.reset ffmpeg0)).1.
  generalize (add_batch_inputs b (FFMPEG.reset ffmpeg0)).2.
  generalize (files0 ++ [title +:+ "_" +:+ str_of_nat index +:+ ".mp4"]).
  generalize (title +:+ "_" +:+ str_of_nat index +:+ ".mp4").
  intros out files1 ff batch. generalize (batch_plan ff batch out). intros plan.
  destruct (Z.eqb_spec (ffmpeg_process (FFMPEG.cmd plan) w).1 0) as [Hz|Hnz];
    cbn [bl_result bl_world].
  - intros (rc & cmd & before & -> & Hrc & Hsp & Hlen)%IH.
    exists rc, cmd, (FFMPEG.cmd plan :: before).
    split; [reflexivity|]. split; [exact Hrc|]. split.
    + rewrite Hsp. cbn [spawned]. by rewrite <-!app_assoc.
    + cbn [length]. lia.
  - intros [= <-].
    exists (ffmpeg_process (FFMPEG.cmd plan) w).1, (FFMPEG.cmd plan), [].
    split; [reflexivity|]. split; [exact Hnz|]. split; [reflexivity|].
    cbn [length]. lia.
Qed.

(** A loop over the batches that did not raise spawned one process per
    batch. *)
Lemma render_batches_return title index bs ffmpeg0 files0 w :
  bl_result (render_batches title index bs ffmpeg0 files0 w) = inr tt →
  ∃ cmds,
    spawned (bl_world (render_batches title index bs ffmpeg0 files0 w))
      = spawned w ++ cmds
    ∧ length cmds = length bs.
Proof.
  revert index ffmpeg0 files0 w.
  induction bs as [|b bs IH]; intros index ffmpeg0 files0 w.
  - intros _. exists []. cbn [render_batches bl_world]. by rewrite app_nil_r.
  - rewrite render_batches_cons. cbv zeta.
    rewrite run_spec by apply batch_plan_output_added.
    generalize (add_batch_inputs b (FFMPEG.reset ffmpeg0)).1.
    generalize (add_batch_inputs b (FFMPEG.reset ffmpeg0)).2.
    generalize (files0 ++ [title +:+ "_" +:+ str_of_nat index +:+ ".mp4"]).
    generalize (title +:+ "_" +:+ str_of_nat index +:+ ".mp4").
    intros out files1 ff batch. generalize (batch_plan ff batch out). intros plan.
    destruct (Z.eqb_spec (ffmpeg_process (FFMPEG.cmd plan) w).1 0) as [Hz|Hnz];
      cbn [bl_result bl_world]; [|done].
    intros (cmds & Hsp & Hlen)%IH. exists (FFMPEG.cmd plan :: cmds).
    rewrite Hsp. cbn [spawned length]. rewrite <-app_assoc. split; [done|lia].
Qed.

Lemma make_video_title self w : title (make_video self w).1.2 = title self.
Proof.
  unfold make_video. destruct (exists_ _ w && negb DEBUG); [done|].
  destruct (bl_result _); [done|]. by destruct (spawn_ffmpeg _ _).
Qed.

(** The final output file exists: nothing is rendered. *)
Lemma make_video_skip self w :
  title self +:+ ".mp4" ∈ fs w → make_video self w = (inr tt, self, w).
Proof.
  intros Hin. unfold make_video, exists_. by rewrite bool_decide_true.
Qed.

(** Whatever the first call did, a second call that finds the final output
    file renders nothing. *)
Lemma make_video_again self w :
  title self +:+ ".mp4" ∈ fs (make_video self w).2 →
  make_video (make_video self w).1.2 (make_video self w).2
  = (inr tt, (make_video self w).1.2, (make_video self w).2).
Proof. intros Hin. apply make_video_skip. by rewrite make_video_title. Qed.

(** A failing chunk is fatal to the render of its group: the exception
    leaves [make_video], no later chunk and no merge is spawned, and
    [final_video] keeps its value. *)
Lemma make_video_chunk_failure self w e :
  title self +:+ ".mp4" ∉ fs w →
  bl_result (render_batches (title self) 0 (batches self) (ffmpeg self) [] w) = inl e →
  ∃ rc cmd before,
    e = RuntimeError rc cmd ∧ rc ≠ 0
    ∧ (make_video self w).1.1 = inl e
    ∧ final_video (make_video self w).1.2 = final_video self
    ∧ spawned (make_video self w).2 = spawned w ++ before ++ [cmd]
    ∧ (length before < length (batches self))%nat.
Proof.
  intros Hnot Hres.
  destruct (render_batches_raise _ _ _ _ _ _ _ Hres) as (rc & cmd & before & -> & Hrc & Hsp & Hlen).
  exists rc, cmd, before. unfold make_video, exists_.
  rewrite bool_decide_false by done. simpl. rewrite Hres. simpl. done.
Qed.

(** When every chunk succeeds the merge is spawned, and whatever its return
    code the call returns and records the final output. *)
Lemma make_video_merge self w :
  title self +:+ ".mp4" ∉ fs w →
  bl_result (render_batches (title self) 0 (batches self) (ffmpeg self) [] w) = inr tt →
  (make_video self w).1.1 = inr tt
  ∧ final_video (make_video self w).1.2 = Some (title self +:+ ".mp4")
  ∧ ∃ cmds,
      spawned (make_video self w).2
      = spawned w ++ cmds
        ++ [merge_cmd (batch_file_names (title self) 0 (length (batches self)))
              (title self +:+ ".mp4")]
      ∧ length cmds = length (batches self).
Proof.
  intros Hnot Hres.
  destruct (render_batches_return _ _ _ _ _ _ Hres) as (cmds & Hsp & Hlen).
  destruct (render_batches_batch_files (title self) 0 (batches self)
              (ffmpeg self) [] w) as [_ Hfiles].
  specialize (Hfiles Hres). simpl in Hfiles.
  unfold make_video, exists_. rewrite bool_decide_false by done. simpl.
  rewrite Hres, Hfiles. unfold spawn_ffmpeg.
  destruct (ffmpeg_process _ _) as [rc fs']. simpl.
  split_and!; [done..|]. exists cmds. rewrite Hsp, <-app_assoc. done.
Qed.

(** The render loop stops at the first group whose render raises. *)
Lemma render_all_raise pre g post w pre' w1 e g' w2 :
  render_all pre w = (inr tt, pre', w1) →
  make_video g w1 = (inl e, g', w2) →
  render_all (pre ++ g :: post) w = (inl e, pre' ++ g' :: post, w2).
Proof.
  revert w pre'. induction pre as [|v pre IH]; intros w pre'; simpl.
  - intros [= <- <-] ->. done.
  - destruct (make_video v w) as [[[e0|[]] v'] w'] eqn:Hv; [done|].
    destruct (render_all pre w') as [[r rest] w''] eqn:Hrest.
    intros [= -> <- ->] Hg. by rewrite (IH _ _ Hrest Hg).
Qed.

End RenderFacts.

(** The scan of four files, two at 10:00 and two at 13:00, returns the two
    groups used as inputs below. *)
Example two_sessions_grouped :
  @get_videos (Fixture.externals [] []) Sample.two_sessions_files Sample.probe0
  = inr ([Sample.morning; Sample.afternoon], Sample.probe0).
Proof. vm_compute. reflexivity. Qed.

(** C4: when the final output file [<title>.mp4] of a group exists, the
    render step returns at once with the group and the world as they were,
    so no encoder process is spawned; a second call in a row does the
    same. *)
Theorem C4_existing_output_skips_render `{Externals} (self : VideoGroup) (w : World) :
  title self +:+ ".mp4" ∈ fs w →
  make_video self w = (inr tt, self, w)
  ∧ spawned (make_video self w).2 = spawned w
  ∧ make_video (make_video self w).1.2 (make_video self w).2 = (inr tt, self, w)
  ∧ spawned (make_video (make_video self w).1.2 (make_video self w).2).2 = spawned w.
Proof.
  intros Hin. pose proof (make_video_skip self w Hin) as Hskip.
  rewrite !Hskip. simpl. rewrite !Hskip. done.
Qed.

Lemma C4_existing_output_skips_render_witness :
  title Sample.morning +:+ ".mp4" ∈ fs Sample.world_after_morning
  ∧ @make_video (Fixture.externals [] []) Sample.morning Sample.world_after_morning
    = (inr tt, Sample.morning, Sample.world_after_morning).
Proof.
  assert (title Sample.morning +:+ ".mp4" ∈ fs Sample.world_after_morning) as Hin.
  { apply (bool_decide_unpack _). vm_compute. exact I. }
  split; [exact Hin|].
  exact (proj1 (@C4_existing_output_skips_render (Fixture.externals [] [])
                  Sample.morning Sample.world_after_morning Hin)).
Defined.

(** C5, at a group of one front and one back clip whose only chunk encodes
    and whose final merge exits with code 1: the merge is spawned and fails,
    the file is not written, and yet the render step returns normally and
    records the final output path. *)
Theorem C5_merge_exit_code_ignored :
  (@ffmpeg_process Sample.merge_fails
     (merge_cmd ["15 Jan 2023 10-00-00_0.mp4"] "15 Jan 2023 10-00-00.mp4")
     (mkWorld {["15 Jan 2023 10-00-00_0.mp4"]} [])).1 = 1
  ∧ (@make_video Sample.merge_fails Sample.morning Sample.world0).1.1 = inr tt
  ∧ final_video (@make_video Sample.merge_fails Sample.morning Sample.world0).1.2
    = Some "15 Jan 2023 10-00-00.mp4"
  ∧ last (spawned (@make_video Sample.merge_fails Sample.morning Sample.world0).2)
    = Some (merge_cmd ["15 Jan 2023 10-00-00_0.mp4"] "15 Jan 2023 10-00-00.mp4")
  ∧ elements (fs (@make_video Sample.merge_fails Sample.morning Sample.world0).2)
    = ["15 Jan 2023 10-00-00_0.mp4"].
Proof. vm_compute. done. Qed.

(** C6 fails: the first chunk of the morning session does not encode; the
    render loop returns the exception after that one process, and the
    afternoon session, which would have rendered, is returned untouched. *)
Lemma C6_counterexample :
  (@render_all Sample.chunk_fails [Sample.morning; Sample.afternoon] Sample.world0).1.1
  = inl (RuntimeError 1 Sample.morning_chunk_cmd)
  ∧ spawned (@render_all Sample.chunk_fails [Sample.morning; Sample.afternoon]
               Sample.world0).2
    = [Sample.morning_chunk_cmd]
  ∧ (@render_all Sample.chunk_fails [Sample.morning; Sample.afternoon]
       Sample.world0).1.2 !! 1%nat
    = Some Sample.afternoon
  ∧ final_video Sample.afternoon = None
  ∧ (@make_video Sample.chunk_fails Sample.afternoon
       (@render_all Sample.chunk_fails [Sample.morning; Sample.afternoon]
          Sample.world0).2).1.1
    = inr tt
  ∧ length (spawned (@make_video Sample.chunk_fails Sample.afternoon
       (@render_all Sample.chunk_fails [Sample.morning; Sample.afternoon]
          Sample.world0).2).2)
    = 3%nat.
Proof. vm_compute. done. Qed.

(** C6, amended: when the groups before [g] render without an exception and
    a chunk of [g] does not encode, the render loop ends there with the
    [RuntimeError] of that process: the groups after [g] are returned as
    they were and no process is spawned after the failing one. *)
Theorem C6_chunk_failure_ends_render_loop `{Externals}
    (pre : list VideoGroup) (g : VideoGroup) (post : list VideoGroup)
    (w : World) (pre' : list VideoGroup) (w1 : World) (e : exn) :
  render_all pre w = (inr tt, pre', w1) →
  title g +:+ ".mp4" ∉ fs w1 →
  bl_result (render_batches (title g) 0 (batches g) (ffmpeg g) [] w1) = inl e →
  ∃ rc cmd before,
    e = RuntimeError rc cmd ∧ rc ≠ 0
    ∧ render_all (pre ++ g :: post) w
      = (inl e, pre' ++ (make_video g w1).1.2 :: post, (make_video g w1).2)
    ∧ spawned (make_video g w1).2 = spawned w1 ++ before ++ [cmd].
Proof.
  intros Hpre Hnot Hres.
  destruct (make_video_chunk_failure g w1 e Hnot Hres)
    as (rc & cmd & before & -> & Hrc & He & _ & Hsp & _).
  exists rc, cmd, before. split_and!; [done..| |done].
  apply (render_all_raise pre g post w pre' w1); [done|].
  destruct (make_video g w1) as [[r g'] w2]. simpl in *. by subst r.
Qed.

Lemma C6_chunk_failure_ends_render_loop_witness :
  bl_result (@render_batches Sample.chunk_fails (title Sample.morning) 0
               (batches Sample.morning) (ffmpeg Sample.morning) [] Sample.world0)
  = inl (RuntimeError 1 Sample.morning_chunk_cmd)
  ∧ ∃ rc cmd before,
      RuntimeError 1 Sample.morning_chunk_cmd = RuntimeError rc cmd ∧ rc ≠ 0
      ∧ @render_all Sample.chunk_fails ([] ++ Sample.morning :: [Sample.afternoon])
          Sample.world0
        = (inl (RuntimeError 1 Sample.morning_chunk_cmd),
           [] ++ (@make_video Sample.chunk_fails Sample.morning Sample.world0).1.2
              :: [Sample.afternoon],
           (@make_video Sample.chunk_fails Sample.morning Sample.world0).2)
      ∧ spawned (@make_video Sample.chunk_fails Sample.morning Sample.world0).2
        = spawned Sample.world0 ++ before ++ [cmd].
Proof.
  assert (bl_result (@render_batches Sample.chunk_fails (title Sample.morning) 0
               (batches Sample.morning) (ffmpeg Sample.morning) [] Sample.world0)
          = inl (RuntimeError 1 Sample.morning_chunk_cmd)) as Hres
    by (vm_compute; reflexivity).
  split; [exact Hres|].
  apply (@C6_chunk_failure_ends_render_loop Sample.chunk_fails []
           Sample.morning [Sample.afternoon] Sample.world0 [] Sample.world0).
  - reflexivity.
  - apply (bool_decide_unpack _). vm_compute. exact I.
  - exact Hres.
Defined.

(** ** The grouper *)

Section GrouperFacts.
Context `{Externals}.

Lemma Video__init___path file probe : path (Video__init__ file probe).1 = file.
Proof.
  unfold Video__init__. by destruct (PROBE.get_media_duration _ _) as [[?|?] ?].
Qed.

(** The duration of a clip is unknown exactly when its probe fails. *)
Lemma Video__init___duration file probe :
  duration_seconds (Video__init__ file probe).1 = None
  ↔ probe_fails probe file = true.
Proof.
  unfold Video__init__, PROBE.get_media_duration, PROBE._run, probe_fails, probe_cmd.
  simpl. destruct (ffprobe_process _) as [rc out]. simpl.
  destruct (rc =? 0); simpl; [|done].
  destruct (decode_utf8 out) as [output|]; simpl; [|done].
  by destruct (int_round_float (strip output)).
Qed.

Lemma add_video_spec g file probe :
  add_video g file probe
  = (with_clip g (Video__init__ file probe).1, (Video__init__ file probe).2).
Proof.
  unfold add_video, with_clip, clip_at.
  destruct (Video__init__ file probe) as [v p]. simpl.
  destruct (duration_seconds v); [|destruct g; simpl; by rewrite !app_nil_r].
  destruct v as [? [] ? ? ? ? ?]; destruct g; simpl; by rewrite !app_nil_r.
Qed.

Lemma with_clip_times g v :
  start_time (with_clip g v) = start_time g
  ∧ end_time (with_clip g v) = end_time g
  ∧ title (with_clip g v) = title g.
Proof. done. Qed.

(** A clip without a duration leaves the group as it is. *)
Lemma with_clip_None g v : duration_seconds v = None → with_clip g v = g.
Proof.
  intros Hd. unfold with_clip, clip_at. rewrite Hd.
  destruct g; simpl; by rewrite !app_nil_r.
Qed.

Lemma window_holds_excludes t g : window_excludes t g = true → window_holds t g = false.
Proof.
  unfold window_excludes, window_holds.
  destruct (datetime_sub _ _); [done|]. intros ?%Z.leb_le. by apply Z.ltb_ge.
Qed.

(** The scan of the groups, when the window of the group at [i] holds the
    file and the windows of all groups before it exclude it. *)
Lemma find_group_first file t gs probe i g :
  gs !! i = Some g →
  window_holds t g = true →
  (∀ j g', (j < i)%nat → gs !! j = Some g' → window_excludes t g' = true) →
  find_group file t gs probe
  = inr (Some (<[i := with_clip (set_end_time g t) (Video__init__ file probe).1]> gs,
               (Video__init__ file probe).2)).
Proof.
  revert i. induction gs as [|g0 gs IH]; intros i Hi Hholds Hbefore; [done|].
  simpl. destruct i as [|i]; simpl in Hi.
  - injection Hi as ->. unfold window_holds in Hholds.
    destruct (datetime_sub t (timedelta_hours 2)) as [|d]; [done|].
    rewrite Hholds, add_video_spec. done.
  - assert (window_excludes t g0 = true) as Hex by (apply (Hbefore 0%nat); [lia|done]).
    pose proof (window_holds_excludes _ _ Hex) as Hnot.
    unfold window_holds in Hnot.
    destruct (datetime_sub t (timedelta_hours 2)) as [|d] eqn:Hsub.
    { unfold window_excludes in Hex. by rewrite Hsub in Hex. }
    rewrite Hnot.
    rewrite (IH i Hi Hholds); [done|].
    intros j g' Hj Hg'. apply (Hbefore (S j)); [lia|done].
Qed.

(** The scan of the groups, when every window excludes the file. *)
Lemma find_group_none file t gs probe :
  (∀ g, g ∈ gs → window_excludes t g = true) →
  find_group file t gs probe = inr None.
Proof.
  induction gs as [|g0 gs IH]; intros Hall; [done|]. simpl.
  assert (window_excludes t g0 = true) as Hex by (apply Hall; left).
  pose proof (window_holds_excludes _ _ Hex) as Hnot. unfold window_holds in Hnot.
  destruct (datetime_sub t (timedelta_hours 2)) as [|d] eqn:Hsub.
  { unfold window_excludes in Hex. by rewrite Hsub in Hex. }
  rewrite Hnot, IH; [done|]. intros g Hg. apply Hall. by right.
Qed.

(** The group that [VideoGroup.__init__] builds from one file. *)
Lemma VideoGroup__init___one t file probe :
  ∃ g,
    VideoGroup__init__ t t [file] None probe = (g, (Video__init__ file probe).2)
    ∧ start_time g = t ∧ end_time g = t ∧ title g = strftime t
    ∧ final_video g = None
    ∧ front_videos g = clip_at Front (Video__init__ file probe).1
    ∧ back_videos g = clip_at Back (Video__init__ file probe).1.
Proof.
  unfold VideoGroup__init__. simpl. rewrite add_video_spec. eexists. split; [done|].
  done.
Qed.

Lemma get_videos_step_first gs probe file t i g :
  strptime (file_name_datetime_section file) = Some t →
  gs !! i = Some g →
  window_holds t g = true →
  (∀ j g', (j < i)%nat → gs !! j = Some g' → window_excludes t g' = true) →
  get_videos_step gs probe file
  = inr (<[i := with_clip (set_end_time g t) (Video__init__ file probe).1]> gs,
         (Video__init__ file probe).2).
Proof.
  intros Ht Hi Hholds Hbefore. unfold get_videos_step, datetime_from_file_name.
  rewrite Ht. by rewrite (find_group_first file t gs probe i g).
Qed.

Lemma get_videos_step_new gs probe file t :
  strptime (file_name_datetime_section file) = Some t →
  (∀ g, g ∈ gs → window_excludes t g = true) →
  ∃ g,
    get_videos_step gs probe file = inr (gs ++ [g], (Video__init__ file probe).2)
    ∧ start_time g = t ∧ end_time g = t ∧ title g = strftime t
    ∧ final_video g = None
    ∧ front_videos g = clip_at Front (Video__init__ file probe).1
    ∧ back_videos g = clip_at Back (Video__init__ file probe).1.
Proof.
  intros Ht Hall. unfold get_videos_step, datetime_from_file_name.
  rewrite Ht, find_group_none by done.
  destruct (VideoGroup__init___one t file probe) as (g & -> & Hg). by exists g.
Qed.

End GrouperFacts.

Section GrouperSteps.
Context `{Externals}.

Lemma window_holds_false_excludes t g g' :
  window_holds t g = true → window_holds t g' = false → window_excludes t g' = true.
Proof.
  unfold window_holds, window_excludes.
  destruct (datetime_sub t (timedelta_hours 2)); [done|].
  intros _ ?%Z.ltb_ge. by apply Z.leb_le.
Qed.

(** Every outcome of the scan of the groups that is not an exception. *)
Lemma find_group_cases file t gs probe res :
  find_group file t gs probe = inr res →
  (res = None ∧ ∀ g, g ∈ gs → window_excludes t g = true)
  ∨ ∃ i g,
      gs !! i = Some g ∧ window_holds t g = true
      ∧ (∀ j g', (j < i)%nat → gs !! j = Some g' → window_holds t g' = false)
      ∧ res = Some (<[i := with_clip (set_end_time g t) (Video__init__ file probe).1]> gs,
                    (Video__init__ file probe).2).
Proof.
  revert res. induction gs as [|g0 gs IH]; intros res; simpl.
  - intros [= <-]. left. split; [done|]. intros g Hg. by apply elem_of_nil in Hg.
  - destruct (datetime_sub t (timedelta_hours 2)) as [|d] eqn:Hsub; [done|].
    destruct (d <? end_time g0) eqn:Hd.
    + rewrite add_video_spec. intros [= <-]. right. exists 0%nat, g0.
      unfold window_holds. rewrite Hsub. split_and!; [done..|lia|done].
    + destruct (find_group file t gs probe) as [|res0]; [done|].
      destruct (IH res0 eq_refl) as [[-> Hall]|(i & g & Hi & Hholds & Hbefore & ->)].
      * intros [= <-]. left. split; [done|].
        intros g [->|Hg]%elem_of_cons; [|by apply Hall].
        unfold window_excludes. rewrite Hsub. apply Z.leb_le. by apply Z.ltb_ge.
      * intros [= <-]. right. exists (S i), g. split_and!; [done..| |done].
        intros [|j] g' Hj Hg'; simpl in Hg'.
        -- injection Hg' as <-. unfold window_holds. by rewrite Hsub.
        -- apply (Hbefore j); [lia|done].
Qed.

(** Every outcome of one iteration of [get_videos] that is not an
    exception: the file has a time, it was probed once, and either one
    group took it or a new group was appended. *)
Lemma get_videos_step_cases gs probe file gs' probe' :
  get_videos_step gs probe file = inr (gs', probe') →
  probe' = (Video__init__ file probe).2
  ∧ ∃ t,
      strptime (file_name_datetime_section file) = Some t
      ∧ ((∃ i g,
            gs !! i = Some g ∧ window_holds t g = true
            ∧ gs' = <[i := with_clip (set_end_time g t) (Video__init__ file probe).1]> gs)
         ∨ (∃ g1,
              (∀ g, g ∈ gs → window_excludes t g = true)
              ∧ gs' = gs ++ [g1]
              ∧ start_time g1 = t ∧ end_time g1 = t
              ∧ front_videos g1 = clip_at Front (Video__init__ file probe).1
              ∧ back_videos g1 = clip_at Back (Video__init__ file probe).1)).
Proof.
  unfold get_videos_step, datetime_from_file_name.
  destruct (strptime _) as [t|] eqn:Ht; [|done].
  destruct (find_group file t gs probe) as [|res] eqn:Hfind; [done|].
  destruct (find_group_cases _ _ _ _ _ Hfind)
    as [[-> Hall]|(i & g & Hi & Hholds & _ & ->)].
  - destruct (VideoGroup__init___one t file probe) as (g1 & -> & ? & ? & _ & _ & ? & ?).
    intros [= <- <-]. split; [done|]. exists t. split; [done|]. right. by exists g1.
  - intros [= <- <-]. split; [done|]. exists t. split; [done|]. left. by exists i, g.
Qed.

(** Groups are never removed or reordered, and keep their start and title. *)
Lemma get_videos_step_keeps gs probe file gs' probe' i g :
  get_videos_step gs probe file = inr (gs', probe') →
  gs !! i = Some g →
  ∃ g', gs' !! i = Some g' ∧ start_time g' = start_time g ∧ title g' = title g.
Proof.
  intros (_ & t & _ & [(k & gk & Hk & _ & ->)|(g1 & _ & -> & _)])%get_videos_step_cases Hi.
  - destruct (decide (k = i)) as [->|Hne].
    + rewrite list_lookup_insert_eq by (by eapply lookup_lt_Some).
      eexists. split; [done|]. rewrite Hk in Hi. by injection Hi as ->.
    + rewrite list_lookup_insert_ne by done. by exists g.
  - exists g. by rewrite lookup_app_l by (by eapply lookup_lt_Some).
Qed.

Lemma get_videos_loop_keeps files gs probe gs' probe' i g :
  get_videos_loop files gs probe = inr (gs', probe') →
  gs !! i = Some g →
  ∃ g', gs' !! i = Some g' ∧ start_time g' = start_time g ∧ title g' = title g.
Proof.
  revert gs probe g. induction files as [|file files IH]; intros gs probe g; simpl.
  - intros [= <- <-] Hi. by exists g.
  - destruct (get_videos_step gs probe file) as [|[gs1 probe1]] eqn:Hstep; [done|].
    intros Hloop Hi.
    destruct (get_videos_step_keeps _ _ _ _ _ _ _ Hstep Hi) as (g1 & Hi1 & <- & <-).
    by apply (IH gs1 probe1).
Qed.

Lemma elem_of_clip_at vp v v0 :
  v ∈ clip_at vp v0 → v = v0 ∧ duration_seconds v ≠ None.
Proof.
  unfold clip_at. destruct (duration_seconds v0) eqn:Hd.
  - case_decide.
    + intros ->%list_elem_of_singleton. by rewrite Hd.
    + by intros ?%elem_of_nil.
  - by intros ?%elem_of_nil.
Qed.

Lemma elem_of_clips_with_clip v g0 v0 :
  v ∈ clips (with_clip g0 v0) →
  v ∈ clips g0 ∨ (v = v0 ∧ duration_seconds v ≠ None).
Proof.
  unfold clips, with_clip. cbn [front_videos back_videos set_front_videos set_back_videos].
  rewrite !elem_of_app.
  intros [[?|?%elem_of_clip_at]|[?|?%elem_of_clip_at]]; auto.
Qed.

(** Every clip of a group after one iteration was a clip of a group before
    it, or is the clip of the file of that iteration, with a duration. *)
Lemma get_videos_step_clips gs probe file gs' probe' g' v :
  get_videos_step gs probe file = inr (gs', probe') →
  g' ∈ gs' → v ∈ clips g' →
  (∃ g, g ∈ gs ∧ v ∈ clips g)
  ∨ (v = (Video__init__ file probe).1 ∧ duration_seconds v ≠ None).
Proof.
  intros (_ & t & _ & [(k & gk & Hk & _ & ->)|(g1 & _ & -> & _ & _ & Hf & Hb)])%get_videos_step_cases.
  - intros (j & Hj)%list_elem_of_lookup Hv.
    destruct (decide (k = j)) as [->|Hne].
    + rewrite list_lookup_insert_eq in Hj by (by eapply lookup_lt_Some).
      injection Hj as <-. apply elem_of_clips_with_clip in Hv as [Hv|Hv]; [|by right].
      left. exists gk. split; [by eapply list_elem_of_lookup_2|done].
    + rewrite list_lookup_insert_ne in Hj by done.
      left. exists g'. split; [by eapply list_elem_of_lookup_2|done].
  - intros [Hg|Hg]%elem_of_app Hv.
    + left. by exists g'.
    + apply list_elem_of_singleton in Hg as ->. right.
      unfold clips in Hv. rewrite Hf, Hb in Hv.
      by apply elem_of_app in Hv as [Hv%elem_of_clip_at|Hv%elem_of_clip_at].
Qed.

Lemma get_videos_step_probe gs probe file gs' probe' :
  get_videos_step gs probe file = inr (gs', probe') →
  probe' = (Video__init__ file probe).2.
Proof. by intros [? _]%get_videos_step_cases. Qed.

(** Every clip of the output of the loop was there at the start or was
    built, with a duration, for one of the files, in the state the [PROBE]
    object had when that file was reached. *)
Lemma get_videos_loop_clips files gs probe gs' probe' g' v :
  get_videos_loop files gs probe = inr (gs', probe') →
  g' ∈ gs' → v ∈ clips g' →
  (∃ g, g ∈ gs ∧ v ∈ clips g)
  ∨ ∃ pre file post,
      files = pre ++ file :: post
      ∧ v = (Video__init__ file (probe_before pre probe)).1
      ∧ duration_seconds v ≠ None.
Proof.
  revert gs probe. induction files as [|file files IH]; intros gs probe; simpl.
  - intros [= <- <-] Hg Hv. left. by exists g'.
  - destruct (get_videos_step gs probe file) as [|[gs1 probe1]] eqn:Hstep; [done|].
    intros Hloop Hg Hv.
    destruct (IH _ _ Hloop Hg Hv) as [(g1 & Hg1 & Hv1)|(pre & f & post & -> & -> & Hd)].
    + destruct (get_videos_step_clips _ _ _ _ _ _ _ Hstep Hg1 Hv1) as [?|[-> Hd]];
        [by left|].
      right. by exists [], file, files.
    + right. exists (file :: pre), f, post. split; [done|].
      simpl. by rewrite <-(get_videos_step_probe _ _ _ _ _ Hstep).
Qed.

(** An unparseable name anywhere in the listing leaves the loop with an
    exception. *)
Lemma get_videos_loop_unparseable files gs probe file :
  file ∈ files →
  strptime (file_name_datetime_section file) = None →
  ∃ e, get_videos_loop files gs probe = inl e.
Proof.
  intros Hin Hnone. revert gs probe.
  induction files as [|f files IH]; intros gs probe; [by apply elem_of_nil in Hin|].
  simpl. destruct (get_videos_step gs probe f) as [e|[gs1 probe1]] eqn:Hstep;
    [by exists e|].
  apply elem_of_cons in Hin as [<-|Hin]; [|by apply IH].
  unfold get_videos_step, datetime_from_file_name in Hstep. by rewrite Hnone in Hstep.
Qed.

(** When it is the first file that stops the loop, the exception is the
    [ValueError] of [strptime]. *)
Lemma get_videos_loop_ValueError pre file post gs probe gs1 probe1 :
  get_videos_loop pre gs probe = inr (gs1, probe1) →
  strptime (file_name_datetime_section file) = None →
  get_videos_loop (pre ++ file :: post) gs probe = inl ValueError.
Proof.
  revert gs probe. induction pre as [|f pre IH]; intros gs probe; simpl.
  - intros _ Hnone. unfold get_videos_step, datetime_from_file_name. by rewrite Hnone.
  - destruct (get_videos_step gs probe f) as [|[gs2 probe2]]; [done|]. apply IH.
Qed.

(** The loop returns when every name parses to a time at least two hours
    after [datetime.min] and no later than [datetime.max]. *)
Lemma get_videos_loop_total files gs probe :
  (∀ file, file ∈ files →
     ∃ t, strptime (file_name_datetime_section file) = Some t
          ∧ timedelta_hours 2 ≤ t ≤ datetime_max) →
  ∃ r, get_videos_loop files gs probe = inr r.
Proof.
  revert gs probe. induction files as [|f files IH]; intros gs probe Hall; simpl.
  - by eexists.
  - destruct (Hall f) as (t & Ht & Hrange); [left|].
    assert (∃ r, get_videos_step gs probe f = inr r) as [[gs1 probe1] ->].
    { unfold get_videos_step, datetime_from_file_name. rewrite Ht.
      assert (∃ res, find_group f t gs probe = inr res) as [res ->].
      { clear -Hrange. induction gs as [|g gs [res IHgs]]; simpl; [by eexists|].
        unfold datetime_sub, timedelta_hours, datetime_max in *.
        rewrite andb_true_intro by (split; lia).
        destruct (_ <? end_time g).
        - destruct (add_video _ _ _). by eexists.
        - rewrite IHgs. destruct res as [[]|]; by eexists. }
      destruct res as [r|]; [by eexists|].
      destruct (VideoGroup__init__ _ _ _ _ _). by eexists. }
    apply IH. intros file Hin. apply Hall. by right.
Qed.

End GrouperSteps.

Section GrouperClaims.
Context `{Externals}.

Lemma clip_at_front_back v :
  clip_at Front v ++ clip_at Back v
  = match duration_seconds v with Some _ => [v] | None => [] end.
Proof.
  unfold clip_at. destruct (duration_seconds v); [|done].
  by destruct (view_point v); repeat case_decide.
Qed.

(** The clips [add_video] appends for a file: its clip unless the probe
    failed. *)
Lemma clips_of_file file probe :
  clip_at Front (Video__init__ file probe).1 ++ clip_at Back (Video__init__ file probe).1
  = if probe_fails probe file then [] else [(Video__init__ file probe).1].
Proof.
  rewrite clip_at_front_back.
  pose proof (Video__init___duration file probe) as Hd.
  destruct Hd as [Hd1 Hd2].
  destruct (duration_seconds _), (probe_fails probe file); try done.
  - by specialize (Hd2 eq_refl).
  - by specialize (Hd1 eq_refl).
Qed.

Lemma insert_at_end {A : Type} (l : list A) (x y : A) :
  <[length l := y]> (l ++ [x]) = l ++ [y].
Proof. induction l as [|a l IH]; simpl; [done|]. by rewrite IH. Qed.

(** The loop over a listing is the loop over its first files followed by
    the loop over the others. *)
Lemma get_videos_loop_app pre post gs probe :
  get_videos_loop (pre ++ post) gs probe
  = match get_videos_loop pre gs probe with
    | inl e => inl e
    | inr (gs1, probe1) => get_videos_loop post gs1 probe1
    end.
Proof.
  revert gs probe. induction pre as [|f pre IH]; intros gs probe; [done|].
  cbn [app get_videos_loop].
  destruct (get_videos_step gs probe f) as [e|[gs1 probe1]]; [done|]. apply IH.
Qed.

(** The scan of a listing, given what the scan of its first files
    returns. *)
Lemma get_videos_app pre post probe gs probe1 :
  get_videos pre probe = inr (gs, probe1) →
  get_videos (pre ++ post) probe = get_videos_loop post gs probe1.
Proof.
  unfold get_videos. intros Hpre. by rewrite get_videos_loop_app, Hpre.
Qed.

(** The scan of a listing with one more file is one more iteration. *)
Lemma get_videos_snoc pre file probe gs probe1 :
  get_videos pre probe = inr (gs, probe1) →
  get_videos (pre ++ [file]) probe = get_videos_step gs probe1 file.
Proof.
  intros Hpre. rewrite (get_videos_app pre [file] probe gs probe1 Hpre).
  cbn [get_videos_loop]. by destruct (get_videos_step gs probe1 file) as [e|[gs2 probe2]].
Qed.

(** The scan of a listing, given what the scan up to one of its files
    returns. *)
Lemma get_videos_after pre file post probe gs2 probe2 :
  get_videos (pre ++ [file]) probe = inr (gs2, probe2) →
  get_videos (pre ++ file :: post) probe = get_videos_loop post gs2 probe2.
Proof.
  intros Hpre. rewrite (cons_middle file pre post), app_assoc.
  by apply get_videos_app.
Qed.

End GrouperClaims.

(** C1 fails: a file of 10:30 that the probe cannot read, scanned on its
    own, opens a group that starts and ends at 10:30 and contains no clip,
    not that file. *)
Lemma C1_counterexample :
  @strptime Sample.unreadable (file_name_datetime_section Sample.late_clip)
  = Some 63809375400
  ∧ outline (@get_videos Sample.unreadable [Sample.late_clip] Sample.probe0)
    = Some [(63809375400, 63809375400, [], [])].
Proof. vm_compute. done. Qed.

(** C1, amended: in the scan of a listing, a file whose name parses to the
    time [t] and that the scan reaches (the scan of the files before it
    returned the groups [gs]) is given to the first group, in creation order,
    for which the test [t - 2h < end] is true: that group's end becomes [t],
    its start is kept, and the clip of the file is appended to the sequence
    of its view point if the probe gave it a duration, nothing being appended
    otherwise.  If the test is false for every group, a new group that
    starts and ends at [t] is appended, whose only clip is that of the file
    if the probe gave it a duration, and which has no clip otherwise.  In
    both cases these are the groups the scan of the listing up to that file
    returns, and the groups from which the scan goes on with the files after
    it. *)
Theorem C1_first_open_window_takes_file `{Externals}
    (pre : list Path) (file : Path) (post : list Path) (probe : PROBE.t)
    (gs : list VideoGroup) (probe1 : PROBE.t) (t : datetime) :
  get_videos pre probe = inr (gs, probe1) →
  strptime (file_name_datetime_section file) = Some t →
  (∀ i g,
     gs !! i = Some g → window_holds t g = true →
     (∀ j g', (j < i)%nat → gs !! j = Some g' → window_holds t g' = false) →
     ∃ g1,
       get_videos (pre ++ [file]) probe
       = inr (<[i := g1]> gs, (Video__init__ file probe1).2)
       ∧ get_videos (pre ++ file :: post) probe
         = get_videos_loop post (<[i := g1]> gs) (Video__init__ file probe1).2
       ∧ end_time g1 = t ∧ start_time g1 = start_time g
       ∧ front_videos g1
         = front_videos g ++ clip_at Front (Video__init__ file probe1).1
       ∧ back_videos g1
         = back_videos g ++ clip_at Back (Video__init__ file probe1).1)
  ∧ ((∀ g, g ∈ gs → window_excludes t g = true) →
     ∃ g1,
       get_videos (pre ++ [file]) probe
       = inr (gs ++ [g1], (Video__init__ file probe1).2)
       ∧ get_videos (pre ++ file :: post) probe
         = get_videos_loop post (gs ++ [g1]) (Video__init__ file probe1).2
       ∧ start_time g1 = t ∧ end_time g1 = t
       ∧ front_videos g1 = clip_at Front (Video__init__ file probe1).1
       ∧ back_videos g1 = clip_at Back (Video__init__ file probe1).1
       ∧ clips g1
         = if probe_fails probe1 file then [] else [(Video__init__ file probe1).1]).
Proof.
  intros Hpre Ht. split.
  - intros i g Hi Hholds Hbefore.
    exists (with_clip (set_end_time g t) (Video__init__ file probe1).1).
    assert (get_videos (pre ++ [file]) probe
            = inr (<[i := with_clip (set_end_time g t) (Video__init__ file probe1).1]> gs,
                   (Video__init__ file probe1).2)) as Hscan.
    { rewrite (get_videos_snoc pre file probe gs probe1 Hpre).
      apply get_videos_step_first; [done..|].
      intros j g' Hj Hg'. apply (window_holds_false_excludes t g); [done|].
      by apply (Hbefore j). }
    split; [exact Hscan|]. split; [by apply get_videos_after|done].
  - intros Hall.
    destruct (get_videos_step_new gs probe1 file t Ht Hall)
      as (g1 & Hstep & Hs & He & _ & _ & Hf & Hb).
    exists g1.
    assert (get_videos (pre ++ [file]) probe
            = inr (gs ++ [g1], (Video__init__ file probe1).2)) as Hscan.
    { by rewrite (get_videos_snoc pre file probe gs probe1 Hpre). }
    split; [exact Hscan|]. split; [by apply get_videos_after|].
    split_and!; [done..|].
    unfold clips. rewrite Hf, Hb. apply clips_of_file.
Qed.

Lemma C1_first_open_window_takes_file_witness :
  (@get_videos (Fixture.externals [] []) [Sample.entry "20230115_100000_A.mp4"]
     Sample.probe0
   = inr ([Clips.front_only], Sample.probe0)
   ∧ @strptime (Fixture.externals [] [])
       (file_name_datetime_section (Sample.entry "20230115_100010_B.mp4"))
     = Some 63809373610
   ∧ ∃ g1,
       @get_videos (Fixture.externals [] [])
         ([Sample.entry "20230115_100000_A.mp4"]
          ++ [Sample.entry "20230115_100010_B.mp4"]) Sample.probe0
       = inr (<[0%nat := g1]> [Clips.front_only],
              (@Video__init__ (Fixture.externals [] [])
                 (Sample.entry "20230115_100010_B.mp4") Sample.probe0).2)
       ∧ end_time g1 = 63809373610
       ∧ start_time g1 = start_time Clips.front_only
       ∧ length (back_videos g1) = 1%nat)
  ∧ (@get_videos (Fixture.externals [] [])
       [Sample.entry "20230115_100000_A.mp4"; Sample.entry "20230115_100010_B.mp4"]
       Sample.probe0
     = inr ([Sample.morning], Sample.probe0)
     ∧ @strptime (Fixture.externals [] [])
         (file_name_datetime_section (Sample.entry "20230115_130000_A.mp4"))
       = Some 63809384400
     ∧ ∃ g1,
         @get_videos (Fixture.externals [] [])
           ([Sample.entry "20230115_100000_A.mp4";
             Sample.entry "20230115_100010_B.mp4"]
            ++ [Sample.entry "20230115_130000_A.mp4"]) Sample.probe0
         = inr ([Sample.morning] ++ [g1],
                (@Video__init__ (Fixture.externals [] [])
                   (Sample.entry "20230115_130000_A.mp4") Sample.probe0).2)
         ∧ start_time g1 = 63809384400 ∧ end_time g1 = 63809384400
         ∧ length (clips g1) = 1%nat).
Proof.
  split.
  - assert (@get_videos (Fixture.externals [] [])
              [Sample.entry "20230115_100000_A.mp4"] Sample.probe0
            = inr ([Clips.front_only], Sample.probe0)) as Hpre
      by (vm_compute; reflexivity).
    assert (@strptime (Fixture.externals [] [])
              (file_name_datetime_section (Sample.entry "20230115_100010_B.mp4"))
            = Some 63809373610) as Ht by (vm_compute; reflexivity).
    split; [exact Hpre|]. split; [exact Ht|].
    destruct (proj1 (@C1_first_open_window_takes_file (Fixture.externals [] [])
                       [Sample.entry "20230115_100000_A.mp4"]
                       (Sample.entry "20230115_100010_B.mp4")
                       [Sample.entry "20230115_130000_A.mp4"] Sample.probe0
                       [Clips.front_only] Sample.probe0 63809373610 Hpre Ht)
                0%nat Clips.front_only)
      as (g1 & Hscan & _ & He & Hs & _ & Hb).
    + reflexivity.
    + vm_compute. reflexivity.
    + intros j g' Hj. lia.
    + exists g1. split; [exact Hscan|]. split; [exact He|]. split; [exact Hs|].
      rewrite Hb. vm_compute. reflexivity.
  - assert (@get_videos (Fixture.externals [] [])
              [Sample.entry "20230115_100000_A.mp4";
               Sample.entry "20230115_100010_B.mp4"] Sample.probe0
            = inr ([Sample.morning], Sample.probe0)) as Hpre
      by (vm_compute; reflexivity).
    assert (@strptime (Fixture.externals [] [])
              (file_name_datetime_section (Sample.entry "20230115_130000_A.mp4"))
            = Some 63809384400) as Ht by (vm_compute; reflexivity).
    split; [exact Hpre|]. split; [exact Ht|].
    destruct (proj2 (@C1_first_open_window_takes_file (Fixture.externals [] [])
                       [Sample.entry "20230115_100000_A.mp4";
                        Sample.entry "20230115_100010_B.mp4"]
                       (Sample.entry "20230115_130000_A.mp4")
                       [Sample.entry "20230115_130010_B.mp4"] Sample.probe0
                       [Sample.morning] Sample.probe0 63809384400 Hpre Ht))
      as (g1 & Hscan & _ & Hs & He & _ & _ & Hc).
    + intros g Hg. apply list_elem_of_singleton in Hg. subst g.
      vm_compute. reflexivity.
    + exists g1. split; [exact Hscan|]. split; [exact Hs|]. split; [exact He|].
      rewrite Hc. vm_compute. reflexivity.
Defined.

(** The first example of the specification: files of 10:00, 10:30 and
    13:00 make two groups. *)
Example three_files_two_groups :
  outline (@get_videos (Fixture.externals [] [])
             [Sample.entry "20230115_100000_A.mp4";
              Sample.entry "20230115_103000_A.mp4";
              Sample.entry "20230115_130000_A.mp4"] Sample.probe0)
  = Some [(63809373600, 63809375400,
           ["20230115_100000_A.mp4"; "20230115_103000_A.mp4"], []);
          (63809384400, 63809384400, ["20230115_130000_A.mp4"], [])].
Proof. vm_compute. reflexivity. Qed.

(** The test of the scan is one-sided: a file four hours before the end of
    a group is given to that group, whose end moves back to it. *)
Example window_is_one_sided :
  outline (@get_videos (Fixture.externals [] [])
             [Sample.entry "20230115_130000_A.mp4";
              Sample.entry "20230115_090000_B.mp4"] Sample.probe0)
  = Some [(63809384400, 63809370000,
           ["20230115_130000_A.mp4"], ["20230115_090000_B.mp4"])].
Proof. vm_compute. reflexivity. Qed.

(** The test as the specification words it is not the test of the scan: for
    a file three hours after the end of a group the worded test is true and
    the scan opens a new group. *)
Example worded_test_differs :
  window_as_worded 63809384400 Sample.morning = true
  ∧ window_holds 63809384400 Sample.morning = false
  ∧ outline (@get_videos (Fixture.externals [] [])
               [Sample.entry "20230115_100000_A.mp4";
                Sample.entry "20230115_100010_B.mp4";
                Sample.entry "20230115_130000_A.mp4"] Sample.probe0)
    = Some [(63809373600, 63809373610,
             ["20230115_100000_A.mp4"], ["20230115_100010_B.mp4"]);
            (63809384400, 63809384400, ["20230115_130000_A.mp4"], [])].
Proof. vm_compute. done. Qed.

(** A name within two hours of [datetime.min] stops the scan once a group
    exists: the subtraction of the gap raises. *)
Example window_test_overflows :
  @get_videos (Fixture.externals [] [])
    [Sample.entry "20230115_100000_A.mp4"; Sample.entry "00010101_000000_B.mp4"]
    Sample.probe0
  = inl OverflowError.
Proof. vm_compute. reflexivity. Qed.

(** C3 fails: after a front clip of 10:00 the group ends at 10:00; the file
    of 10:30, whose probe fails, moves the end of that group to 10:30. *)
Lemma C3_counterexample :
  @probe_fails Sample.unreadable
    (@probe_before Sample.unreadable [Sample.entry "20230115_100000_A.mp4"]
       Sample.probe0)
    Sample.late_clip
  = true
  ∧ outline (@get_videos Sample.unreadable
               [Sample.entry "20230115_100000_A.mp4"] Sample.probe0)
    = Some [(63809373600, 63809373600, ["20230115_100000_A.mp4"], [])]
  ∧ outline (@get_videos Sample.unreadable
               [Sample.entry "20230115_100000_A.mp4"; Sample.late_clip]
               Sample.probe0)
    = Some [(63809373600, 63809375400, ["20230115_100000_A.mp4"], [])].
Proof. vm_compute. done. Qed.

(** C3, amended: a file whose probe fails is appended to no Front or Back
    sequence, and the end of every existing group but one stays as it was:
    the first group for which the test [t - 2h < end] is true has its end
    set to the time [t] of the file and is otherwise unchanged, as are all
    other groups; when the test is false for every group, all of them stay
    as they were and a group without clips is appended. *)
Theorem C3_probe_failure_moves_one_end `{Externals}
    (gs : list VideoGroup) (probe : PROBE.t) (file : Path) (t : datetime) :
  strptime (file_name_datetime_section file) = Some t →
  probe_fails probe file = true →
  (∀ i g,
     gs !! i = Some g → window_holds t g = true →
     (∀ j g', (j < i)%nat → gs !! j = Some g' → window_holds t g' = false) →
     get_videos_step gs probe file
     = inr (<[i := set_end_time g t]> gs, (Video__init__ file probe).2))
  ∧ ((∀ g, g ∈ gs → window_excludes t g = true) →
     ∃ g1,
       get_videos_step gs probe file
       = inr (gs ++ [g1], (Video__init__ file probe).2)
       ∧ front_videos g1 = [] ∧ back_videos g1 = []).
Proof.
  intros Ht Hfail. apply Video__init___duration in Hfail. split.
  - intros i g Hi Hholds Hbefore.
    rewrite <-(with_clip_None (set_end_time g t) _ Hfail).
    apply get_videos_step_first; [done..|].
    intros j g' Hj Hg'. apply (window_holds_false_excludes t g); [done|].
    by apply (Hbefore j).
  - intros Hall.
    destruct (get_videos_step_new gs probe file t Ht Hall)
      as (g1 & Hstep & _ & _ & _ & _ & Hf & Hb).
    exists g1. unfold clip_at in Hf, Hb. rewrite Hfail in Hf, Hb. done.
Qed.

Lemma C3_probe_failure_moves_one_end_witness :
  @strptime Sample.unreadable (file_name_datetime_section Sample.late_clip)
  = Some 63809375400
  ∧ @probe_fails Sample.unreadable Sample.probe0 Sample.late_clip = true
  ∧ @get_videos_step Sample.unreadable [Sample.morning] Sample.probe0 Sample.late_clip
    = inr (<[0%nat := set_end_time Sample.morning 63809375400]> [Sample.morning],
           (@Video__init__ Sample.unreadable Sample.late_clip Sample.probe0).2).
Proof.
  assert (@strptime Sample.unreadable (file_name_datetime_section Sample.late_clip)
          = Some 63809375400) as Ht by (vm_compute; reflexivity).
  assert (@probe_fails Sample.unreadable Sample.probe0 Sample.late_clip = true)
    as Hfail by (vm_compute; reflexivity).
  split; [exact Ht|]. split; [exact Hfail|].
  apply (proj1 (@C3_probe_failure_moves_one_end Sample.unreadable
                  [Sample.morning] Sample.probe0 Sample.late_clip 63809375400
                  Ht Hfail) 0%nat Sample.morning).
  - reflexivity.
  - vm_compute. reflexivity.
  - intros j g' Hj. lia.
Defined.

(** C7: a listing that contains a file whose name does not parse makes the
    scan end with an exception: no list of groups is returned, whatever
    files come after it.  The exception is the [ValueError] of [strptime]
    whenever the files before it were scanned without one. *)
Theorem C7_unparseable_name_aborts_scan `{Externals}
    (files : list Path) (probe : PROBE.t) (file : Path) :
  file ∈ files →
  strptime (file_name_datetime_section file) = None →
  (∃ e, get_videos files probe = inl e)
  ∧ (∀ pre post gs1 probe1,
       files = pre ++ file :: post →
       get_videos pre probe = inr (gs1, probe1) →
       get_videos files probe = inl ValueError).
Proof.
  intros Hin Hnone. split.
  - by apply get_videos_loop_unparseable with file.
  - intros pre post gs1 probe1 -> Hpre.
    by apply get_videos_loop_ValueError with gs1 probe1.
Qed.

Lemma C7_unparseable_name_aborts_scan_witness :
  Sample.misnamed
    ∈ [Sample.entry "20230115_100000_A.mp4"; Sample.misnamed;
       Sample.entry "20230115_100010_B.mp4"]
  ∧ @strptime (Fixture.externals [] []) (file_name_datetime_section Sample.misnamed)
    = None
  ∧ ∃ e,
      @get_videos (Fixture.externals [] [])
        [Sample.entry "20230115_100000_A.mp4"; Sample.misnamed;
         Sample.entry "20230115_100010_B.mp4"] Sample.probe0
      = inl e.
Proof.
  assert (Sample.misnamed
            ∈ [Sample.entry "20230115_100000_A.mp4"; Sample.misnamed;
               Sample.entry "20230115_100010_B.mp4"]) as Hin
    by (apply (bool_decide_unpack _); vm_compute; exact I).
  assert (@strptime (Fixture.externals [] [])
            (file_name_datetime_section Sample.misnamed) = None) as Hnone
    by (vm_compute; reflexivity).
  split; [exact Hin|]. split; [exact Hnone|].
  exact (proj1 (@C7_unparseable_name_aborts_scan (Fixture.externals [] []) _
                  Sample.probe0 Sample.misnamed Hin Hnone)).
Defined.

Section ProbeFailure.
Context `{Externals}.

Lemma app_cons_NoDup_eq (pre pre' post post' : list Path) (file : Path) :
  NoDup (pre ++ file :: post) →
  pre ++ file :: post = pre' ++ file :: post' → pre = pre'.
Proof.
  intros Hnd Heq.
  assert (length pre = length pre') as Hlen.
  { apply (NoDup_lookup _ _ _ file Hnd).
    - by rewrite list_lookup_middle.
    - rewrite Heq. by rewrite list_lookup_middle. }
  apply (f_equal (take (length pre))) in Heq.
  rewrite take_app_length in Heq. rewrite Hlen in Heq.
  by rewrite take_app_length in Heq.
Qed.

(** The clip of a file whose probe failed is in no group of the output. *)
Lemma get_videos_drops_failed pre file post probe gs probe' g v :
  NoDup (pre ++ file :: post) →
  probe_fails (probe_before pre probe) file = true →
  get_videos (pre ++ file :: post) probe = inr (gs, probe') →
  g ∈ gs → v ∈ clips g → path v ≠ file.
Proof.
  intros Hnd Hfail Hget Hg Hv Hpath.
  destruct (get_videos_loop_clips _ _ _ _ _ _ _ Hget Hg Hv)
    as [(g0 & Hg0 & _)|(pre' & file' & post' & Heq & -> & Hd)].
  { by apply elem_of_nil in Hg0. }
  rewrite Video__init___path in Hpath. subst file'.
  apply (app_cons_NoDup_eq _ _ _ _ _ Hnd) in Heq. subst pre'.
  apply Hd. by apply Video__init___duration.
Qed.

End ProbeFailure.

(** C8: the files of a listing are distinct.  When the probe of one of them
    exits non-zero or writes something that is not a number, in the state
    the [PROBE] object is in when that file is reached, the duration of its
    clip is recorded as [None], and no Front or Back sequence of a group the
    scan returns has a clip of that file. *)
Theorem C8_failed_probe_excludes_clip `{Externals}
    (pre : list Path) (file : Path) (post : list Path) (probe : PROBE.t) :
  NoDup (pre ++ file :: post) →
  probe_fails (probe_before pre probe) file = true →
  duration_seconds (Video__init__ file (probe_before pre probe)).1 = None
  ∧ (∀ gs probe',
       get_videos (pre ++ file :: post) probe = inr (gs, probe') →
       ∀ g v, g ∈ gs → v ∈ front_videos g ++ back_videos g → path v ≠ file).
Proof.
  intros Hnd Hfail. split.
  - by apply Video__init___duration.
  - intros gs probe' Hget g v Hg Hv.
    by apply (get_videos_drops_failed pre file post probe gs probe' g v).
Qed.

Lemma C8_failed_probe_excludes_clip_witness :
  NoDup ([Sample.entry "20230115_100000_A.mp4"] ++ Sample.late_clip
           :: [Sample.entry "20230115_113000_B.mp4"])
  ∧ @probe_fails Sample.unreadable
      (@probe_before Sample.unreadable [Sample.entry "20230115_100000_A.mp4"]
         Sample.probe0)
      Sample.late_clip
    = true
  ∧ duration_seconds
      (@Video__init__ Sample.unreadable Sample.late_clip
         (@probe_before Sample.unreadable [Sample.entry "20230115_100000_A.mp4"]
            Sample.probe0)).1
    = None
  ∧ outline (@get_videos Sample.unreadable
               ([Sample.entry "20230115_100000_A.mp4"] ++ Sample.late_clip
                  :: [Sample.entry "20230115_113000_B.mp4"]) Sample.probe0)
    = Some [(63809373600, 63809379000, ["20230115_100000_A.mp4"], [])].
Proof.
  assert (NoDup ([Sample.entry "20230115_100000_A.mp4"] ++ Sample.late_clip
                   :: [Sample.entry "20230115_113000_B.mp4"])) as Hnd
    by (apply (bool_decide_unpack _); vm_compute; exact I).
  assert (@probe_fails Sample.unreadable
            (@probe_before Sample.unreadable
               [Sample.entry "20230115_100000_A.mp4"] Sample.probe0)
            Sample.late_clip = true) as Hfail
    by (vm_compute; reflexivity).
  split; [exact Hnd|]. split; [exact Hfail|]. split.
  - exact (proj1 (@C8_failed_probe_excludes_clip Sample.unreadable
                    [Sample.entry "20230115_100000_A.mp4"] Sample.late_clip
                    [Sample.entry "20230115_113000_B.mp4"] Sample.probe0
                    Hnd Hfail)).
  - vm_compute. reflexivity.
Defined.

(** C9: in the scan of a listing, a file that the scan reaches (the scan
    of the files before it returned the groups [gs]), whose probe fails and
    for which the test is false for every group of [gs], still opens a
    group: the scan of the listing up to that file returns [gs] followed by
    a group that starts and ends at the time of the file and has empty Front
    and Back sequences.  Whatever files come after it, a scan that returns
    has a group that starts at that time at the same place in its output;
    and when the next file is one for which the test against the end of the
    empty group is true and which no earlier group takes, the scan up to
    that next file returns the empty group with its end moved to the time of
    that file, and with the clip of that file if its probe gave a
    duration. *)
Theorem C9_probe_failure_still_opens_group `{Externals}
    (pre : list Path) (file : Path) (post : list Path) (probe : PROBE.t)
    (gs : list VideoGroup) (probe1 : PROBE.t) (t : datetime) :
  get_videos pre probe = inr (gs, probe1) →
  strptime (file_name_datetime_section file) = Some t →
  probe_fails probe1 file = true →
  (∀ g, g ∈ gs → window_excludes t g = true) →
  ∃ g1,
    get_videos (pre ++ [file]) probe
    = inr (gs ++ [g1], (Video__init__ file probe1).2)
    ∧ start_time g1 = t ∧ end_time g1 = t
    ∧ front_videos g1 = [] ∧ back_videos g1 = []
    ∧ (∀ out probe',
         get_videos (pre ++ file :: post) probe = inr (out, probe') →
         (length gs < length out)%nat
         ∧ ∃ g2, out !! length gs = Some g2 ∧ start_time g2 = t)
    ∧ (∀ later t2,
         strptime (file_name_datetime_section later) = Some t2 →
         window_holds t2 g1 = true →
         (∀ g, g ∈ gs → window_holds t2 g = false) →
         get_videos (pre ++ [file; later]) probe
         = inr (gs ++ [with_clip (set_end_time g1 t2)
                         (Video__init__ later (Video__init__ file probe1).2).1],
                (Video__init__ later (Video__init__ file probe1).2).2)).
Proof.
  intros Hpre Ht Hfail Hall. apply Video__init___duration in Hfail.
  destruct (get_videos_step_new gs probe1 file t Ht Hall)
    as (g1 & Hstep & Hs & He & _ & _ & Hf & Hb).
  unfold clip_at in Hf, Hb. rewrite Hfail in Hf, Hb.
  assert (get_videos (pre ++ [file]) probe
          = inr (gs ++ [g1], (Video__init__ file probe1).2)) as Hscan.
  { by rewrite (get_videos_snoc pre file probe gs probe1 Hpre). }
  exists g1. split_and!; [done..| |].
  - intros out probe' Hout.
    rewrite (get_videos_after pre file post probe _ _ Hscan) in Hout.
    destruct (get_videos_loop_keeps post (gs ++ [g1]) _ out probe' (length gs) g1 Hout)
      as (g2 & Hg2 & Hs2 & _); [by rewrite list_lookup_middle|].
    split; [by eapply lookup_lt_Some|]. exists g2. by rewrite Hs2.
  - intros later t2 Ht2 Hholds Hbefore.
    change (pre ++ [file; later]) with (pre ++ [file] ++ [later]).
    rewrite app_assoc.
    rewrite (get_videos_snoc (pre ++ [file]) later probe _ _ Hscan).
    rewrite (get_videos_step_first (gs ++ [g1]) _ later t2 (length gs) g1);
      [by rewrite insert_at_end|done| |done|].
    + by rewrite list_lookup_middle.
    + intros j g' Hj Hg'. rewrite lookup_app_l in Hg' by done.
      apply (window_holds_false_excludes t2 g1); [done|].
      apply Hbefore. by eapply list_elem_of_lookup_2.
Qed.

Lemma C9_probe_failure_still_opens_group_witness :
  @get_videos Afternoon.unreadable Afternoon.morning_files Sample.probe0
  = inr ([Sample.morning], Sample.probe0)
  ∧ @strptime Afternoon.unreadable (file_name_datetime_section Afternoon.first_clip)
    = Some 63809384400
  ∧ @probe_fails Afternoon.unreadable Sample.probe0 Afternoon.first_clip = true
  ∧ window_excludes 63809384400 Sample.morning = true
  ∧ ∃ g1,
      @get_videos Afternoon.unreadable
        (Afternoon.morning_files ++ [Afternoon.first_clip]) Sample.probe0
      = inr ([Sample.morning] ++ [g1],
             (@Video__init__ Afternoon.unreadable Afternoon.first_clip
                Sample.probe0).2)
      ∧ start_time g1 = 63809384400 ∧ end_time g1 = 63809384400
      ∧ front_videos g1 = [] ∧ back_videos g1 = []
      ∧ (∃ g2,
           Sample.groups_of (H := Afternoon.unreadable)
             (Afternoon.morning_files ++ Afternoon.first_clip :: [Afternoon.next_clip])
             !! 1%nat = Some g2
           ∧ start_time g2 = 63809384400)
      ∧ @get_videos Afternoon.unreadable
          (Afternoon.morning_files ++ [Afternoon.first_clip; Afternoon.next_clip])
          Sample.probe0
        = inr ([Sample.morning]
               ++ [with_clip (set_end_time g1 63809384410)
                     (@Video__init__ Afternoon.unreadable Afternoon.next_clip
                        (@Video__init__ Afternoon.unreadable Afternoon.first_clip
                           Sample.probe0).2).1],
               (@Video__init__ Afternoon.unreadable Afternoon.next_clip
                  (@Video__init__ Afternoon.unreadable Afternoon.first_clip
                     Sample.probe0).2).2)
      ∧ outline (@get_videos Afternoon.unreadable
                   (Afternoon.morning_files
                    ++ [Afternoon.first_clip; Afternoon.next_clip]) Sample.probe0)
        = Some [(63809373600, 63809373610,
                 ["20230115_100000_A.mp4"], ["20230115_100010_B.mp4"]);
                (63809384400, 63809384410, [], [])].
Proof.
  assert (@get_videos Afternoon.unreadable Afternoon.morning_files Sample.probe0
          = inr ([Sample.morning], Sample.probe0)) as Hpre
    by (vm_compute; reflexivity).
  assert (@strptime Afternoon.unreadable
            (file_name_datetime_section Afternoon.first_clip)
          = Some 63809384400) as Ht by (vm_compute; reflexivity).
  assert (@probe_fails Afternoon.unreadable Sample.probe0 Afternoon.first_clip = true)
    as Hfail by (vm_compute; reflexivity).
  assert (window_excludes 63809384400 Sample.morning = true) as Hex
    by (vm_compute; reflexivity).
  split; [exact Hpre|]. split; [exact Ht|]. split; [exact Hfail|]. split; [exact Hex|].
  destruct (@C9_probe_failure_still_opens_group Afternoon.unreadable
              Afternoon.morning_files Afternoon.first_clip [Afternoon.next_clip]
              Sample.probe0 [Sample.morning] Sample.probe0 63809384400
              Hpre Ht Hfail)
    as (g1 & Hscan & Hs & He & Hf & Hb & Hstays & Hlater).
  - intros g Hg. apply list_elem_of_singleton in Hg. by subst g.
  - exists g1. split; [exact Hscan|]. split; [exact Hs|]. split; [exact He|].
    split; [exact Hf|]. split; [exact Hb|]. split.
    + unfold Sample.groups_of.
      destruct (@get_videos Afternoon.unreadable
                  (Afternoon.morning_files
                   ++ Afternoon.first_clip :: [Afternoon.next_clip]) Sample.probe0)
        as [e|[out probe']] eqn:Hout;
        [exfalso; revert Hout; vm_compute; discriminate|].
      exact (proj2 (Hstays out probe' eq_refl)).
    + split; [|vm_compute; reflexivity].
      apply (Hlater Afternoon.next_clip 63809384410).
      * vm_compute. reflexivity.
      * unfold window_holds. rewrite He. vm_compute. reflexivity.
      * intros g Hg. apply list_elem_of_singleton in Hg. subst g.
        vm_compute. reflexivity.
Defined.

(** The empty group of a file that could not be probed takes the next file
    of the session. *)
Example empty_group_takes_next_file :
  outline (@get_videos (Fixture.externals ["/media/input/20230115_100000_A.mp4"] [])
             [Sample.entry "20230115_100000_A.mp4"] Sample.probe0)
  = Some [(63809373600, 63809373600, [], [])]
  ∧ outline (@get_videos (Fixture.externals ["/media/input/20230115_100000_A.mp4"] [])
               [Sample.entry "20230115_100000_A.mp4";
                Sample.entry "20230115_100010_B.mp4"] Sample.probe0)
    = Some [(63809373600, 63809373610, [], [])].
Proof. vm_compute. done. Qed.

(** ** The [concat] filter of the builder *)

Lemma append_inj_r (s a b : string) : s +:+ a = s +:+ b → a = b.
Proof. induction s as [|c s IH]; simpl; [done|]. intros [= ?]. by apply IH. Qed.

Lemma append_assoc (a b c : string) : (a +:+ b) +:+ c = a +:+ b +:+ c.
Proof.
  induction a as [|x a IH]; [done|].
  change (String x ((a +:+ b) +:+ c) = String x (a +:+ b +:+ c)). by rewrite IH.
Qed.

Lemma prefix_append (needle post : string) :
  String.prefix needle (needle +:+ post) = true.
Proof.
  induction needle as [|c needle IH]; simpl; [by destruct post|].
  by destruct (Ascii.ascii_dec c c).
Qed.

Lemma contains_prefix (needle s : string) :
  String.prefix needle s = true → contains needle s = true.
Proof. intros Hp. destruct s; cbn [contains]; by rewrite Hp. Qed.

Lemma contains_append (needle pre post : string) :
  contains needle (pre +:+ needle +:+ post) = true.
Proof.
  induction pre as [|c pre IH].
  - change (contains needle (needle +:+ post) = true).
    apply contains_prefix, prefix_append.
  - change (String c pre +:+ needle +:+ post)
      with (String c (pre +:+ needle +:+ post)).
    cbn [contains]. rewrite IH. apply orb_true_r.
Qed.

Lemma concat_filter_head input output_video output_audio :
  FFMPEG.concat_filter input output_video output_audio
  = concat_head input output_video output_audio
    +:+ FFMPEG.concat_outputs output_video output_audio.
Proof. reflexivity. Qed.

(** The third branch of [concat] is dead: its condition is the condition of
    the first branch. *)
Lemma concat_outputs_never_audio_only output_video output_audio :
  FFMPEG.concat_outputs output_video output_audio
  ≠ "a=1[" +:+ fmt_opt output_audio +:+ "];".
Proof.
  unfold FFMPEG.concat_outputs.
  destruct (truthy output_audio); simpl; [done|].
  by destruct (truthy output_video).
Qed.

(** C10 fails: with [output_video = None] and the empty string, which is
    not [None], as [output_audio], [concat] appends the bare count: neither
    [v=1:a=1] nor [[None]] is in it. *)
Lemma C10_counterexample :
  FFMPEG.filter_complex
    (FFMPEG.concat (FFMPEG.__init__ "ffmpeg" false)
       [(VStr "0:v", VStr "0:a")] None (Some EmptyString))
  = ["concat=n=1:"]
  ∧ contains "v=1:a=1" "concat=n=1:" = false
  ∧ contains "[None]" "concat=n=1:" = false.
Proof. vm_compute. done. Qed.

(** C10, amended: with [output_video = None] and a non-empty
    [output_audio], the fragment that [concat] appends closes with
    [v=1:a=1[None][<output_audio>];], so it contains [v=1:a=1] and the label
    [[None]]; and for no input at all does the fragment close with the
    audio-only form [a=1[<output_audio>];]. *)
Theorem C10_concat_never_audio_only
    (self : FFMPEG.t) (input : list (fval * fval)) (output_audio : string) :
  truthy_str output_audio = true →
  FFMPEG.filter_complex (FFMPEG.concat self input None (Some output_audio))
  = FFMPEG.filter_complex self
    ++ [FFMPEG.concat_filter input None (Some output_audio)]
  ∧ FFMPEG.concat_filter input None (Some output_audio)
    = concat_head input None (Some output_audio)
      +:+ "v=1:a=1[None][" +:+ output_audio +:+ "];"
  ∧ contains "v=1:a=1" (FFMPEG.concat_filter input None (Some output_audio)) = true
  ∧ contains "[None]" (FFMPEG.concat_filter input None (Some output_audio)) = true
  ∧ (∀ input' output_video' output_audio',
       FFMPEG.concat_filter input' output_video' output_audio'
       ≠ concat_head input' output_video' output_audio'
         +:+ "a=1[" +:+ fmt_opt output_audio' +:+ "];").
Proof.
  intros Htrue.
  assert (FFMPEG.concat_filter input None (Some output_audio)
          = concat_head input None (Some output_audio)
            +:+ "v=1:a=1[None][" +:+ output_audio +:+ "];") as Hform.
  { rewrite concat_filter_head. unfold FFMPEG.concat_outputs. simpl.
    by rewrite Htrue. }
  split_and!.
  - reflexivity.
  - exact Hform.
  - rewrite Hform.
    apply (contains_append "v=1:a=1" _ ("[None][" +:+ output_audio +:+ "];")).
  - rewrite Hform.
    change ("v=1:a=1[None][" +:+ output_audio +:+ "];")
      with ("v=1:a=1" +:+ "[None]" +:+ "[" +:+ output_audio +:+ "];").
    rewrite <-(append_assoc _ "v=1:a=1").
    apply contains_append.
  - intros input' ov oa Heq. rewrite concat_filter_head in Heq.
    apply append_inj_r in Heq. by apply concat_outputs_never_audio_only in Heq.
Qed.

Lemma C10_concat_never_audio_only_witness :
  truthy_str "front_a" = true
  ∧ FFMPEG.concat_filter [(VStr "0:v", VStr "0:a")] None (Some "front_a")
    = "[0:a]concat=n=1:v=1:a=1[None][front_a];".
Proof.
  split; [reflexivity|].
  rewrite (proj1 (proj2 (C10_concat_never_audio_only
                           (FFMPEG.__init__ "ffmpeg" false)
                           [(VStr "0:v", VStr "0:a")] "front_a" eq_refl))).
  vm_compute. reflexivity.
Defined.

(** ** More on the grouper: when the scan returns *)

Section ScanReturns.
Context `{Externals}.

Lemma find_group_defined file t gs probe :
  gap_defined t = true → ∃ res, find_group file t gs probe = inr res.
Proof.
  unfold gap_defined. intros Hdef.
  induction gs as [|g gs [res IH]]; cbn [find_group]; [by eexists|].
  destruct (datetime_sub t (timedelta_hours 2)) as [|d]; [done|].
  destruct (d <? end_time g).
  - destruct (add_video _ _ _). by eexists.
  - rewrite IH. destruct res as [[]|]; by eexists.
Qed.

Lemma find_group_undefined file t g gs probe :
  gap_defined t = false → ∃ e, find_group file t (g :: gs) probe = inl e.
Proof.
  unfold gap_defined. intros Hdef. cbn [find_group].
  destruct (datetime_sub t (timedelta_hours 2)) as [e|d]; [by exists e|done].
Qed.

(** One iteration returns exactly when the name parses and, if a group
    exists, the subtraction of the gap is defined. *)
Lemma get_videos_step_returns gs probe file :
  (∃ r, get_videos_step gs probe file = inr r)
  ↔ ∃ t, file_time file = Some t ∧ (gs = [] ∨ gap_defined t = true).
Proof.
  unfold get_videos_step, datetime_from_file_name, file_time.
  destruct (strptime _) as [t|]; [|split; [by intros [? ?]|by intros (? & ? & _)]].
  split.
  - intros [r Hr]. exists t. split; [done|].
    destruct gs as [|g gs]; [by left|]. right.
    destruct (gap_defined t) eqn:Hdef; [done|].
    destruct (find_group_undefined file t g gs probe Hdef) as [e He].
    by rewrite He in Hr.
  - intros (t' & [= <-] & [->|Hdef]).
    + cbn [find_group]. destruct (VideoGroup__init__ _ _ _ _ _). by eexists.
    + destruct (find_group_defined file t gs probe Hdef) as [res ->].
      destruct res as [r|]; [by eexists|].
      destruct (VideoGroup__init__ _ _ _ _ _). by eexists.
Qed.

(** An iteration that returns leaves at least one group, never fewer than
    before and at most one more. *)
Lemma get_videos_step_length gs probe file gs' probe' :
  get_videos_step gs probe file = inr (gs', probe') →
  (length gs ≤ length gs' ≤ S (length gs))%nat ∧ gs' ≠ [].
Proof.
  intros (_ & t & _ & [(i & g & Hi & _ & ->)|(g1 & _ & -> & _)])%get_videos_step_cases.
  - rewrite length_insert. split; [lia|].
    intros Hnil. apply (f_equal length) in Hnil. rewrite length_insert in Hnil.
    apply lookup_lt_Some in Hi. simpl in Hnil. lia.
  - rewrite length_app. simpl. split; [lia|]. by destruct gs.
Qed.

Lemma get_videos_loop_returns_nonempty files gs probe :
  gs ≠ [] →
  (∃ r, get_videos_loop files gs probe = inr r)
  ↔ Forall (fun file => ∃ t, file_time file = Some t ∧ gap_defined t = true) files.
Proof.
  revert gs probe. induction files as [|file files IH]; intros gs probe Hne.
  - split; [by constructor|]. intros _. by eexists.
  - cbn [get_videos_loop]. rewrite Forall_cons. split.
    + intros [r Hr].
      destruct (get_videos_step gs probe file) as [|[gs1 probe1]] eqn:Hstep; [done|].
      split.
      * destruct (proj1 (get_videos_step_returns gs probe file)) as (t & Ht & [?|?]);
          [by eexists|done|by exists t].
      * apply (IH gs1 probe1); [|by exists r].
        by apply get_videos_step_length in Hstep as [_ ?].
    + intros [(t & Ht & Hdef) Hall].
      destruct (proj2 (get_videos_step_returns gs probe file)) as [[gs1 probe1] Hstep];
        [exists t; auto|].
      rewrite Hstep. apply IH; [|done].
      by apply get_videos_step_length in Hstep as [_ ?].
Qed.

End ScanReturns.

(** X1: the scan returns a list of groups exactly when every name parses
    and, for every file but the first of the listing, the subtraction of the
    two-hour gap from its time is defined; in every other case it ends with
    an exception. *)
Theorem get_videos_returns_iff `{Externals} (files : list Path) (probe : PROBE.t) :
  (∃ r, get_videos files probe = inr r)
  ↔ (∀ file, file ∈ files → is_Some (file_time file))
    ∧ (∀ file t, file ∈ tail files → file_time file = Some t → gap_defined t = true).
Proof.
  unfold get_videos. destruct files as [|file files].
  - split; [|intros _; by eexists].
    intros _. split; [by intros ? ?%elem_of_nil|by intros ? ? ?%elem_of_nil].
  - cbn [get_videos_loop tail]. split.
    + intros [r Hr].
      destruct (get_videos_step [] probe file) as [|[gs1 probe1]] eqn:Hstep; [done|].
      destruct (proj1 (get_videos_step_returns [] probe file)) as (t & Ht & _);
        [by eexists|].
      assert (gs1 ≠ []) as Hne by (by apply get_videos_step_length in Hstep as [_ ?]).
      pose proof (proj1 (get_videos_loop_returns_nonempty files gs1 probe1 Hne)
                    (ex_intro _ r Hr)) as Hall.
      rewrite Forall_forall in Hall. split.
      * intros f [->|Hf]%elem_of_cons; [by rewrite Ht|].
        destruct (Hall f Hf) as (t' & -> & _). done.
      * intros f t' Hf Ht'. destruct (Hall f Hf) as (t'' & Ht'' & Hdef). congruence.
    + intros [Hparse Hdef].
      destruct (Hparse file) as [t Ht]; [left|].
      destruct (proj2 (get_videos_step_returns [] probe file)) as [[gs1 probe1] Hstep];
        [exists t; auto|].
      rewrite Hstep.
      apply get_videos_loop_returns_nonempty;
        [by apply get_videos_step_length in Hstep as [_ ?]|].
      apply Forall_forall. intros f Hf.
      destruct (Hparse f) as [t' Ht']; [by right|]. exists t'. split; [done|].
      by apply (Hdef f).
Qed.

(** ** More on the grouper: where the clips go *)

Section ScanCoverage.
Context `{Externals}.

Lemma videos_built_paths files probe : path <$> videos_built files probe = files.
Proof.
  revert probe. induction files as [|file files IH]; intros probe; [done|].
  cbn [videos_built fmap list_fmap]. rewrite Video__init___path. f_equal. apply IH.
Qed.

Lemma clip_at_filter v :
  clip_at Front v ++ clip_at Back v = filter (fun v => has_duration v = true) [v].
Proof.
  rewrite clip_at_front_back. unfold has_duration.
  rewrite filter_cons, filter_nil. by destruct (duration_seconds v); case_decide.
Qed.

Lemma clips_with_clip g v :
  clips (with_clip g v) ≡ₚ clips g ++ filter (fun v => has_duration v = true) [v].
Proof.
  rewrite <-clip_at_filter. unfold clips, with_clip.
  cbn [front_videos back_videos set_front_videos set_back_videos].
  solve_Permutation.
Qed.

Lemma all_clips_insert gs i g g' :
  gs !! i = Some g →
  all_clips (<[i := g']> gs)
  ≡ₚ clips g' ++ all_clips (take i gs) ++ all_clips (drop (S i) gs).
Proof.
  intros Hi. unfold all_clips.
  rewrite insert_take_drop by (by eapply lookup_lt_Some).
  rewrite fmap_app, fmap_cons, concat_app, concat_cons. solve_Permutation.
Qed.

Lemma all_clips_lookup gs i g :
  gs !! i = Some g →
  all_clips gs ≡ₚ clips g ++ all_clips (take i gs) ++ all_clips (drop (S i) gs).
Proof.
  intros Hi. unfold all_clips. rewrite <-(take_drop_middle gs i g Hi) at 1.
  rewrite fmap_app, fmap_cons, concat_app, concat_cons. solve_Permutation.
Qed.

(** One iteration adds the clip of its file, if it has a duration, to the
    clips of the groups, and nothing else. *)
Lemma get_videos_step_all_clips gs probe file gs' probe' :
  get_videos_step gs probe file = inr (gs', probe') →
  all_clips gs'
  ≡ₚ all_clips gs
     ++ filter (fun v => has_duration v = true) [(Video__init__ file probe).1].
Proof.
  intros (_ & t & _ & [(i & g & Hi & _ & ->)|(g1 & _ & -> & _ & _ & Hf & Hb)])%get_videos_step_cases.
  - rewrite (all_clips_insert gs i g _ Hi), (all_clips_lookup gs i g Hi).
    rewrite clips_with_clip.
    change (clips (set_end_time g t)) with (clips g). solve_Permutation.
  - unfold all_clips. rewrite fmap_app, concat_app. simpl. rewrite app_nil_r.
    unfold clips at 2. by rewrite Hf, Hb, clip_at_filter.
Qed.

Lemma get_videos_loop_all_clips files gs probe gs' probe' :
  get_videos_loop files gs probe = inr (gs', probe') →
  all_clips gs'
  ≡ₚ all_clips gs ++ filter (fun v => has_duration v = true) (videos_built files probe).
Proof.
  revert gs probe. induction files as [|file files IH]; intros gs probe.
  - cbn [get_videos_loop videos_built]. intros [= <- <-].
    by rewrite filter_nil, app_nil_r.
  - cbn [get_videos_loop videos_built].
    destruct (get_videos_step gs probe file) as [|[gs1 probe1]] eqn:Hstep; [done|].
    intros Hloop. rewrite (IH _ _ Hloop).
    rewrite (get_videos_step_probe _ _ _ _ _ Hstep).
    rewrite (get_videos_step_all_clips _ _ _ _ _ Hstep).
    rewrite (filter_cons _ (Video__init__ file probe).1).
    rewrite filter_cons, filter_nil.
    destruct (decide (has_duration (Video__init__ file probe).1 = true));
      solve_Permutation.
Qed.

End ScanCoverage.

(** X2: when the scan returns, the clips of its groups, Front and Back
    sequences together, are the clips built for the files whose probe gave a
    duration, each exactly as often as its file is listed; for a listing
    without repeated files no file has a clip in two places. *)
Theorem get_videos_clips_are_probed_files `{Externals}
    (files : list Path) (probe : PROBE.t) (gs : list VideoGroup) (probe' : PROBE.t) :
  get_videos files probe = inr (gs, probe') →
  all_clips gs
  ≡ₚ filter (fun v => has_duration v = true) (videos_built files probe)
  ∧ (NoDup files → NoDup (path <$> all_clips gs)).
Proof.
  intros Hget.
  pose proof (get_videos_loop_all_clips files [] probe gs probe' Hget) as Hperm.
  cbn [all_clips fmap list_fmap concat app] in Hperm.
  split; [exact Hperm|].
  intros Hnd. rewrite Hperm.
  apply (NoDup_fmap_2_strong path).
  - intros v1 v2 Hv1%list_elem_of_filter Hv2%list_elem_of_filter Hpath.
    destruct Hv1 as [_ Hv1], Hv2 as [_ Hv2].
    apply list_elem_of_lookup in Hv1 as [i1 Hi1].
    apply list_elem_of_lookup in Hv2 as [i2 Hi2].
    assert (files !! i1 = Some (path v1)) as Hf1
      by (by rewrite <-(videos_built_paths files probe), list_lookup_fmap, Hi1).
    assert (files !! i2 = Some (path v2)) as Hf2
      by (by rewrite <-(videos_built_paths files probe), list_lookup_fmap, Hi2).
    rewrite Hpath in Hf1.
    assert (i1 = i2) as -> by (by eapply NoDup_lookup).
    congruence.
  - apply NoDup_filter.
    apply (NoDup_fmap_1 path). by rewrite videos_built_paths.
Qed.

Lemma get_videos_clips_are_probed_files_witness :
  outline (@get_videos Sample.unreadable
             [Sample.entry "20230115_100000_A.mp4"; Sample.late_clip]
             Sample.probe0)
  = Some [(63809373600, 63809375400, ["20230115_100000_A.mp4"], [])]
  ∧ (fun v => name (path v))
      <$> filter (fun v => has_duration v = true)
            (@videos_built Sample.unreadable
               [Sample.entry "20230115_100000_A.mp4"; Sample.late_clip]
               Sample.probe0)
    = ["20230115_100000_A.mp4"]
  ∧ all_clips (@Sample.groups_of Sample.unreadable
                 [Sample.entry "20230115_100000_A.mp4"; Sample.late_clip])
    ≡ₚ filter (fun v => has_duration v = true)
         (@videos_built Sample.unreadable
            [Sample.entry "20230115_100000_A.mp4"; Sample.late_clip]
            Sample.probe0).
Proof.
  split; [vm_compute; reflexivity|]. split; [vm_compute; reflexivity|].
  destruct (@get_videos Sample.unreadable
              [Sample.entry "20230115_100000_A.mp4"; Sample.late_clip]
              Sample.probe0) as [e|[gs p]] eqn:Hget.
  - exfalso. revert Hget. vm_compute. discriminate.
  - unfold Sample.groups_of. rewrite Hget.
    exact (proj1 (@get_videos_clips_are_probed_files Sample.unreadable _ _ _ _ Hget)).
Defined.

(** ** More on the grouper: order and invariants of the groups *)

Section ScanOrder.
Context `{Externals}.

Lemma clip_at_sublist vp v : clip_at vp v `sublist_of` [v].
Proof.
  unfold clip_at. destruct (duration_seconds v); [|apply sublist_nil_l].
  case_decide; [done|apply sublist_nil_l].
Qed.

Lemma clip_at_Forall vp v :
  Forall (fun c => view_point c = vp ∧ has_duration c = true) (clip_at vp v).
Proof.
  unfold clip_at, has_duration. destruct (duration_seconds v) eqn:Hd; [|constructor].
  case_decide; [|constructor]. repeat constructor; [done|by rewrite Hd].
Qed.

Lemma sequences_ok_with_clip built g v :
  sequences_ok built g → sequences_ok (built ++ [v]) (with_clip g v).
Proof.
  intros (Hf & Hb & HF & HB). unfold sequences_ok, with_clip.
  cbn [front_videos back_videos set_front_videos set_back_videos]. split_and!.
  - apply sublist_app; [done|apply clip_at_sublist].
  - apply sublist_app; [done|apply clip_at_sublist].
  - apply Forall_app. split; [done|apply clip_at_Forall].
  - apply Forall_app. split; [done|apply clip_at_Forall].
Qed.

Lemma sequences_ok_grow built g v :
  sequences_ok built g → sequences_ok (built ++ [v]) g.
Proof.
  intros (Hf & Hb & HF & HB). unfold sequences_ok.
  split_and!; [by apply sublist_inserts_r..|done|done].
Qed.

Lemma get_videos_step_sequences built gs probe file gs' probe' :
  Forall (sequences_ok built) gs →
  get_videos_step gs probe file = inr (gs', probe') →
  Forall (sequences_ok (built ++ [(Video__init__ file probe).1])) gs'.
Proof.
  intros Hall
    (_ & t & _ & [(i & g & Hi & _ & ->)|(g1 & _ & -> & _ & _ & Hf & Hb)])%get_videos_step_cases.
  - apply Forall_insert.
    + eapply Forall_impl; [exact Hall|]. intros g0. apply sequences_ok_grow.
    + apply sequences_ok_with_clip.
      rewrite Forall_lookup in Hall. exact (Hall i g Hi).
  - apply Forall_app. split.
    + eapply Forall_impl; [exact Hall|]. intros g0. apply sequences_ok_grow.
    + constructor; [|constructor]. unfold sequences_ok. rewrite Hf, Hb.
      split_and!.
      * apply sublist_inserts_l, clip_at_sublist.
      * apply sublist_inserts_l, clip_at_sublist.
      * apply clip_at_Forall.
      * apply clip_at_Forall.
Qed.

Lemma get_videos_loop_sequences built files gs probe gs' probe' :
  Forall (sequences_ok built) gs →
  get_videos_loop files gs probe = inr (gs', probe') →
  Forall (sequences_ok (built ++ videos_built files probe)) gs'.
Proof.
  revert built gs probe. induction files as [|file files IH]; intros built gs probe Hall.
  - cbn [get_videos_loop videos_built]. intros [= <- <-]. by rewrite app_nil_r.
  - cbn [get_videos_loop videos_built].
    destruct (get_videos_step gs probe file) as [|[gs1 probe1]] eqn:Hstep; [done|].
    intros Hloop.
    pose proof (get_videos_step_sequences built gs probe file gs1 probe1 Hall Hstep) as H1.
    rewrite (get_videos_step_probe _ _ _ _ _ Hstep) in Hloop.
    pose proof (IH _ _ _ H1 Hloop) as H2. by rewrite <-app_assoc in H2.
Qed.

Lemma group_ok_mono files files' g :
  files ⊆ files' → group_ok files g → group_ok files' g.
Proof.
  intros Hsub (Ht & Hfv & Hff & (f1 & Hf1 & Hs) & (f2 & Hf2 & He)).
  split_and!; [done..| |]; [exists f1|exists f2]; split; auto.
Qed.

Lemma VideoGroup__init___ffmpeg t file probe :
  ffmpeg (VideoGroup__init__ t t [file] None probe).1
  = FFMPEG.set_debug (FFMPEG.__init__ "ffmpeg" true) DEBUG.
Proof.
  unfold VideoGroup__init__. cbn [add_videos]. rewrite add_video_spec. reflexivity.
Qed.

Lemma get_videos_step_group_ok seen gs probe file gs' probe' :
  Forall (group_ok seen) gs →
  get_videos_step gs probe file = inr (gs', probe') →
  Forall (group_ok (seen ++ [file])) gs'.
Proof.
  intros Hall Hstep.
  assert (Forall (group_ok (seen ++ [file])) gs) as Hall'.
  { eapply Forall_impl; [exact Hall|]. intros g. apply group_ok_mono.
    intros x Hx. apply elem_of_app. by left. }
  assert (file ∈ seen ++ [file]) as Hin by (apply elem_of_app; right; by left).
  pose proof Hstep as Hcases. apply get_videos_step_cases in Hcases.
  destruct Hcases as (_ & t & Ht & [(i & g & Hi & _ & ->)|(g1 & Hex & -> & _)]).
  - apply Forall_insert; [done|].
    rewrite Forall_lookup in Hall'.
    destruct (Hall' i g Hi) as (Htitle & Hfv & Hff & Hs & _).
    split_and!; [done..|]. exists file. split; [done|]. exact Ht.
  - apply Forall_app. split; [done|]. constructor; [|constructor].
    destruct (get_videos_step_new gs probe file t Ht Hex)
      as (g2 & Hstep2 & Hs & He & Htitle & Hfv & _).
    rewrite Hstep in Hstep2. injection Hstep2 as Heq.
    apply app_inj_tail in Heq as [_ <-].
    assert (ffmpeg g1 = FFMPEG.set_debug (FFMPEG.__init__ "ffmpeg" true) DEBUG) as Hff.
    { unfold get_videos_step, datetime_from_file_name in Hstep. rewrite Ht in Hstep.
      rewrite find_group_none in Hstep by done.
      pose proof (VideoGroup__init___ffmpeg t file probe) as Hinit.
      destruct (VideoGroup__init__ t t [file] None probe) as [g0 p0].
      injection Hstep as Heq2 _. apply app_inj_tail in Heq2 as [_ ->]. exact Hinit. }
    split_and!; [by rewrite Htitle, Hs|done|done| |]; exists file;
      (split; [done|]); unfold file_time; congruence.
Qed.

Lemma get_videos_loop_group_ok seen files gs probe gs' probe' :
  Forall (group_ok seen) gs →
  get_videos_loop files gs probe = inr (gs', probe') →
  Forall (group_ok (seen ++ files)) gs'.
Proof.
  revert seen gs probe. induction files as [|file files IH]; intros seen gs probe Hall.
  - cbn [get_videos_loop]. intros [= <- <-]. by rewrite app_nil_r.
  - cbn [get_videos_loop].
    destruct (get_videos_step gs probe file) as [|[gs1 probe1]] eqn:Hstep; [done|].
    intros Hloop.
    pose proof (get_videos_step_group_ok seen gs probe file gs1 probe1 Hall Hstep) as H1.
    pose proof (IH _ _ _ H1 Hloop) as H2. by rewrite <-app_assoc in H2.
Qed.

Lemma get_videos_loop_length files gs probe gs' probe' :
  get_videos_loop files gs probe = inr (gs', probe') →
  (length gs ≤ length gs' ≤ length gs + length files)%nat
  ∧ (files ≠ [] → gs' ≠ []).
Proof.
  revert gs probe. induction files as [|file files IH]; intros gs probe.
  - cbn [get_videos_loop]. intros [= <- <-]. simpl. split; [lia|done].
  - cbn [get_videos_loop].
    destruct (get_videos_step gs probe file) as [|[gs1 probe1]] eqn:Hstep; [done|].
    intros Hloop. apply get_videos_step_length in Hstep as [Hlen Hne].
    destruct (IH _ _ Hloop) as [Hlen' _]. simpl. split; [lia|].
    intros _ ->. destruct gs1; [done|]. simpl in Hlen'. lia.
Qed.

End ScanOrder.

(** X3: in every group the scan returns, the Front sequence and the Back
    sequence list their clips in discovery order (each is a subsequence of
    the clips built for the listing), the Front sequence holds only clips
    tagged Front and the Back sequence only clips tagged Back, and every
    clip in them has a duration. *)
Theorem get_videos_sequences_in_discovery_order `{Externals}
    (files : list Path) (probe : PROBE.t) (gs : list VideoGroup) (probe' : PROBE.t) :
  get_videos files probe = inr (gs, probe') →
  ∀ g, g ∈ gs →
    front_videos g `sublist_of` videos_built files probe
    ∧ back_videos g `sublist_of` videos_built files probe
    ∧ Forall (fun c => view_point c = Front ∧ has_duration c = true) (front_videos g)
    ∧ Forall (fun c => view_point c = Back ∧ has_duration c = true) (back_videos g).
Proof.
  intros Hget g Hg.
  pose proof (get_videos_loop_sequences [] files [] probe gs probe'
                (Forall_nil_2 _) Hget) as Hall.
  rewrite Forall_forall in Hall. exact (Hall g Hg).
Qed.

Lemma get_videos_sequences_in_discovery_order_witness :
  (fun g => (fun v => name (path v)) <$> front_videos g)
    <$> @Sample.groups_of (Fixture.externals [] []) Sample.two_sessions_files
  = [["20230115_100000_A.mp4"]; ["20230115_130000_A.mp4"]]
  ∧ ∀ g, g ∈ @Sample.groups_of (Fixture.externals [] []) Sample.two_sessions_files →
      front_videos g
        `sublist_of` @videos_built (Fixture.externals [] [])
                       Sample.two_sessions_files Sample.probe0.
Proof.
  split; [vm_compute; reflexivity|].
  destruct (@get_videos (Fixture.externals [] []) Sample.two_sessions_files
              Sample.probe0) as [e|[gs p]] eqn:Hget.
  - exfalso. revert Hget. vm_compute. discriminate.
  - unfold Sample.groups_of. rewrite Hget. intros g Hg.
    exact (proj1 (@get_videos_sequences_in_discovery_order (Fixture.externals [] [])
                    _ _ _ _ Hget g Hg)).
Defined.

(** X4: every group the scan returns is titled by the formatted time of
    its start, has no final video recorded, carries a builder of its own in
    the state [FFMPEG(use_gpu=True)] leaves it with debugging off, and starts
    and ends at the times of files of the listing; a non-empty listing gives
    at least one group and at most as many groups as files. *)
Theorem get_videos_group_invariants `{Externals}
    (files : list Path) (probe : PROBE.t) (gs : list VideoGroup) (probe' : PROBE.t) :
  get_videos files probe = inr (gs, probe') →
  (∀ g, g ∈ gs →
     title g = strftime (start_time g)
     ∧ final_video g = None
     ∧ ffmpeg g = FFMPEG.set_debug (FFMPEG.__init__ "ffmpeg" true) DEBUG
     ∧ (∃ file, file ∈ files ∧ file_time file = Some (start_time g))
     ∧ (∃ file, file ∈ files ∧ file_time file = Some (end_time g)))
  ∧ (length gs ≤ length files)%nat
  ∧ (files ≠ [] → gs ≠ []).
Proof.
  intros Hget. split.
  - pose proof (get_videos_loop_group_ok [] files [] probe gs probe'
                  (Forall_nil_2 _) Hget) as Hall.
    rewrite Forall_forall in Hall. intros g Hg. exact (Hall g Hg).
  - destruct (get_videos_loop_length files [] probe gs probe' Hget) as [Hlen Hne].
    simpl in Hlen. split; [lia|done].
Qed.

Lemma get_videos_group_invariants_witness :
  title <$> @Sample.groups_of (Fixture.externals [] []) Sample.two_sessions_files
  = ["15 Jan 2023 10-00-00"; "15 Jan 2023 13-00-00"]
  ∧ ∀ g, g ∈ @Sample.groups_of (Fixture.externals [] []) Sample.two_sessions_files →
      title g = @strftime (Fixture.externals [] []) (start_time g).
Proof.
  split; [vm_compute; reflexivity|].
  destruct (@get_videos (Fixture.externals [] []) Sample.two_sessions_files
              Sample.probe0) as [e|[gs p]] eqn:Hget.
  - exfalso. revert Hget. vm_compute. discriminate.
  - unfold Sample.groups_of. rewrite Hget. intros g Hg.
    exact (proj1 (proj1 (@get_videos_group_invariants (Fixture.externals [] [])
                           _ _ _ _ Hget) g Hg)).
Defined.

(** ** More on the grouper: a chronological listing *)

Section Chronological.
Context `{Externals}.

(** What the scan keeps true on a chronological listing: no group ends
    before it starts or after the time [lo] of the last file seen, and the
    groups are separated. *)
Lemma separated_append gs g1 :
  separated gs →
  (∀ g, g ∈ gs → end_time g + timedelta_hours 2 ≤ start_time g1) →
  separated (gs ++ [g1]).
Proof.
  intros Hsep Hnew i j g g' Hij Hi Hj.
  assert (j < length gs ∨ j = length gs)%nat as [Hlt| ->].
  { apply lookup_lt_Some in Hj. rewrite length_app in Hj. simpl in Hj. lia. }
  - rewrite lookup_app_l in Hi by lia. rewrite lookup_app_l in Hj by lia.
    by apply (Hsep i j).
  - rewrite list_lookup_middle in Hj by done. injection Hj as <-.
    rewrite lookup_app_l in Hi by lia. apply Hnew. by eapply list_elem_of_lookup_2.
Qed.

Lemma window_holds_spec t g :
  window_holds t g = true → t - timedelta_hours 2 < end_time g.
Proof.
  unfold window_holds, datetime_sub.
  destruct (_ && _); [|done]. by intros ?%Z.ltb_lt.
Qed.

Lemma window_excludes_spec t g :
  window_excludes t g = true → end_time g ≤ t - timedelta_hours 2.
Proof.
  unfold window_excludes, datetime_sub.
  destruct (_ && _); [|done]. by intros ?%Z.leb_le.
Qed.

Lemma get_videos_step_chronological gs probe file gs' probe' t lo :
  file_time file = Some t → lo ≤ t →
  Forall (fun g => start_time g ≤ end_time g ∧ end_time g ≤ lo) gs →
  separated gs →
  get_videos_step gs probe file = inr (gs', probe') →
  Forall (fun g => start_time g ≤ end_time g ∧ end_time g ≤ t) gs'
  ∧ separated gs'.
Proof.
  intros Ht Hlo Hall Hsep Hstep.
  assert (Forall (fun g => start_time g ≤ end_time g ∧ end_time g ≤ t) gs) as Hall'.
  { eapply Forall_impl; [exact Hall|]. intros g [? ?]. split; lia. }
  apply get_videos_step_cases in Hstep.
  destruct Hstep as (_ & t' & Ht' & [(i & g & Hi & Hholds & ->)|(g1 & Hex & -> & Hs & He & _)]);
    unfold file_time in Ht; rewrite Ht in Ht'; injection Ht' as <-.
  - apply window_holds_spec in Hholds.
    rewrite Forall_lookup in Hall.
    pose proof (Hall i g Hi) as [Hgs Hge].
    assert (∀ j g', (i < j)%nat → gs !! j = Some g' → False) as Hlast.
    { intros j g' Hij Hj. pose proof (Hsep i j g g' Hij Hi Hj).
      pose proof (Hall j g' Hj) as [? ?]. lia. }
    split.
    + apply Forall_insert; [done|].
      cbn [with_clip set_end_time start_time end_time set_front_videos set_back_videos].
      lia.
    + intros a b ga gb Hab Ha Hb.
      destruct (decide (i = b)) as [->|Hnb].
      * rewrite list_lookup_insert_ne in Ha by lia.
        rewrite list_lookup_insert_eq in Hb by (by eapply lookup_lt_Some).
        injection Hb as <-.
        change (start_time (with_clip (set_end_time g t) (Video__init__ file probe).1))
          with (start_time g).
        by apply (Hsep a b).
      * rewrite list_lookup_insert_ne in Hb by done.
        destruct (decide (i = a)) as [->|Hna].
        -- by destruct (Hlast b gb).
        -- rewrite list_lookup_insert_ne in Ha by done. by apply (Hsep a b).
  - split.
    + apply Forall_app. split; [done|]. constructor; [|constructor]. lia.
    + apply separated_append; [done|]. intros g Hg.
      specialize (Hex g Hg). apply window_excludes_spec in Hex. lia.
Qed.

Lemma get_videos_loop_chronological files ts gs probe lo :
  mapM file_time files = Some ts →
  nondecreasing (lo :: ts) = true →
  Forall (fun t => gap_defined t = true) ts →
  Forall (fun g => start_time g ≤ end_time g ∧ end_time g ≤ lo) gs →
  separated gs →
  ∃ gs' probe',
    get_videos_loop files gs probe = inr (gs', probe')
    ∧ Forall (fun g => start_time g ≤ end_time g) gs'
    ∧ separated gs'.
Proof.
  revert ts gs probe lo.
  induction files as [|file files IH]; intros ts gs probe lo Hts Hnd Hdef Hall Hsep.
  - exists gs, probe. split; [done|]. split; [|done].
    eapply Forall_impl; [exact Hall|]. by intros g [? _].
  - apply mapM_Some_1 in Hts. apply Forall2_cons_inv_l in Hts as (t & ts' & Ht & Hts & ->).
    apply mapM_Some_2 in Hts.
    cbn [nondecreasing] in Hnd. apply andb_prop in Hnd as [Hlo Hnd].
    apply Z.leb_le in Hlo. apply Forall_cons in Hdef as [Hdt Hdef].
    destruct (proj2 (get_videos_step_returns gs probe file)) as [[gs1 probe1] Hstep];
      [exists t; auto|].
    destruct (get_videos_step_chronological gs probe file gs1 probe1 t lo
                Ht Hlo Hall Hsep Hstep) as [Hall1 Hsep1].
    cbn [get_videos_loop]. rewrite Hstep.
    by apply (IH ts' gs1 probe1 t).
Qed.

End Chronological.

(** X5: for a listing in chronological order (the times of the names never
    go back) in which every name parses and the subtraction of the gap is
    defined for every time, the scan returns, no group it returns ends
    before it starts, and every group ends at least two hours before any
    group created after it starts. *)
Theorem get_videos_chronological_groups_are_separated `{Externals}
    (files : list Path) (ts : list datetime) (probe : PROBE.t) :
  mapM file_time files = Some ts →
  nondecreasing ts = true →
  forallb gap_defined ts = true →
  ∃ gs probe',
    get_videos files probe = inr (gs, probe')
    ∧ Forall (fun g => 0 ≤ total_seconds g) gs
    ∧ separated gs.
Proof.
  intros Hts Hnd Hdef.
  destruct (get_videos_loop_chronological files ts [] probe (hd 0 ts))
    as (gs & probe' & Hget & Hall & Hsep).
  - done.
  - destruct ts as [|t ts]; [done|].
    change ((t <=? t) && nondecreasing (t :: ts) = true).
    by rewrite Hnd, Z.leb_refl.
  - apply Forall_forall. intros t Ht.
    rewrite forallb_forall in Hdef. apply Hdef. by apply list_elem_of_In.
  - constructor.
  - intros i j g g' _ Hi. by rewrite lookup_nil in Hi.
  - exists gs, probe'. split; [done|]. split; [|done].
    eapply Forall_impl; [exact Hall|]. intros g. unfold total_seconds. lia.
Qed.

Lemma get_videos_chronological_groups_are_separated_witness :
  mapM (@file_time (Fixture.externals [] [])) Sample.two_sessions_files
  = Some [63809373600; 63809373610; 63809384400; 63809384410]
  ∧ nondecreasing [63809373600; 63809373610; 63809384400; 63809384410] = true
  ∧ forallb gap_defined [63809373600; 63809373610; 63809384400; 63809384410] = true
  ∧ ∃ gs probe',
      @get_videos (Fixture.externals [] []) Sample.two_sessions_files Sample.probe0
      = inr (gs, probe')
      ∧ Forall (fun g => 0 ≤ total_seconds g) gs
      ∧ separated gs.
Proof.
  assert (mapM (@file_time (Fixture.externals [] [])) Sample.two_sessions_files
          = Some [63809373600; 63809373610; 63809384400; 63809384410]) as Hts
    by (vm_compute; reflexivity).
  split; [exact Hts|]. split; [reflexivity|]. split; [reflexivity|].
  exact (@get_videos_chronological_groups_are_separated (Fixture.externals [] [])
           Sample.two_sessions_files _ Sample.probe0 Hts eq_refl eq_refl).
Defined.

(** Out of chronological order the conclusion fails: a group can end before
    it starts. *)
Example unordered_listing_negative_total_seconds :
  total_seconds
    <$> @Sample.groups_of (Fixture.externals [] [])
          [Sample.entry "20230115_130000_A.mp4"; Sample.entry "20230115_090000_B.mp4"]
  = [-14400].
Proof. vm_compute. reflexivity. Qed.

(** X6: when the scan returns, the front and back totals of the table add
    up to the number of files of the listing whose probe gave a duration. *)
Theorem display_table_totals_count_probed_files `{Externals}
    (files : list Path) (probe : PROBE.t) (gs : list VideoGroup) (probe' : PROBE.t) :
  get_videos files probe = inr (gs, probe') →
  (totals_front_videos (display_table_totals gs)
   + totals_back_videos (display_table_totals gs))%nat
  = length (filter (fun v => has_duration v = true) (videos_built files probe)).
Proof.
  intros Hget.
  pose proof (get_videos_loop_all_clips files [] probe gs probe' Hget) as Hperm.
  cbn [all_clips fmap list_fmap concat app] in Hperm. rewrite <-Hperm.
  unfold display_table_totals.
  assert (∀ l acc,
            (totals_front_videos (foldl totals_add acc l)
             + totals_back_videos (foldl totals_add acc l))%nat
            = (totals_front_videos acc + totals_back_videos acc
               + length (all_clips l))%nat) as Hfold.
  { induction l as [|g l IH]; intros acc.
    - simpl. lia.
    - cbn [foldl]. rewrite IH. cbn [totals_add totals_front_videos totals_back_videos].
      unfold all_clips. cbn [fmap list_fmap concat]. rewrite length_app.
      unfold clips at 2. rewrite length_app. lia. }
  rewrite Hfold. simpl. lia.
Qed.

Lemma display_table_totals_count_probed_files_witness :
  (totals_front_videos
     (display_table_totals
        (@Sample.groups_of Sample.unreadable
           [Sample.entry "20230115_100000_A.mp4"; Sample.late_clip]))
   + totals_back_videos
       (display_table_totals
          (@Sample.groups_of Sample.unreadable
             [Sample.entry "20230115_100000_A.mp4"; Sample.late_clip])))%nat
  = 1%nat
  ∧ (totals_front_videos
       (display_table_totals
          (@Sample.groups_of Sample.unreadable
             [Sample.entry "20230115_100000_A.mp4"; Sample.late_clip]))
     + totals_back_videos
         (display_table_totals
            (@Sample.groups_of Sample.unreadable
               [Sample.entry "20230115_100000_A.mp4"; Sample.late_clip])))%nat
    = length (filter (fun v => has_duration v = true)
                (@videos_built Sample.unreadable
                   [Sample.entry "20230115_100000_A.mp4"; Sample.late_clip]
                   Sample.probe0)).
Proof.
  split; [vm_compute; reflexivity|].
  destruct (@get_videos Sample.unreadable
              [Sample.entry "20230115_100000_A.mp4"; Sample.late_clip]
              Sample.probe0) as [e|[gs p]] eqn:Hget.
  - exfalso. revert Hget. vm_compute. discriminate.
  - unfold Sample.groups_of. rewrite Hget.
    exact (@display_table_totals_count_probed_files Sample.unreadable _ _ _ _ Hget).
Defined.

(** ** More on [probe.py]: the command of the shared object *)

Section ProbeCommand.
Context `{Externals}.

Lemma Video__init___probe_cmd file probe :
  PROBE.cmd (Video__init__ file probe).2
  = if probe_fails probe file then PROBE.cmd probe ++ probe_args file
    else [PROBE.probe_path probe].
Proof.
  unfold Video__init__, PROBE.get_media_duration, PROBE._run, probe_fails, probe_cmd,
    probe_args.
  cbn [PROBE.cmd PROBE.probe_path PROBE._debug].
  destruct (ffprobe_process _) as [rc out]. cbn [negb].
  destruct (rc =? 0); cbn [negb orb]; [|done].
  destruct (decode_utf8 out) as [output|]; [|done].
  by destruct (int_round_float (strip output)).
Qed.

End ProbeCommand.

(** X7: [get_media_duration] resets the command of the [PROBE] object only
    when it returns.  After a probe that failed, the command still holds the
    arguments of that probe, so the next probe is run with the arguments of
    both files, the failed one first. *)
Theorem probe_failure_leaves_arguments_behind `{Externals}
    (probe : PROBE.t) (file next : Path) :
  probe_fails probe file = true →
  PROBE.cmd (Video__init__ file probe).2 = PROBE.cmd probe ++ probe_args file
  ∧ probe_cmd (Video__init__ file probe).2 next
    = PROBE.cmd probe ++ probe_args file ++ probe_args next
  ∧ (probe_fails (Video__init__ file probe).2 next = false →
     PROBE.cmd (Video__init__ next (Video__init__ file probe).2).2
     = [PROBE.probe_path probe]).
Proof.
  intros Hfail.
  pose proof (Video__init___probe_cmd file probe) as Hcmd. rewrite Hfail in Hcmd.
  split; [exact Hcmd|]. split.
  - unfold probe_cmd. rewrite Hcmd, <-app_assoc. reflexivity.
  - intros Hok. rewrite Video__init___probe_cmd, Hok.
    unfold Video__init__, PROBE.get_media_duration.
    by destruct (PROBE._run _) as [?|?]; [|destruct (int_round_float _)].
Qed.

Lemma probe_failure_leaves_arguments_behind_witness :
  @probe_fails Sample.unreadable Sample.probe0 Sample.late_clip = true
  ∧ probe_cmd
      (@Video__init__ Sample.unreadable Sample.late_clip Sample.probe0).2
      (Sample.entry "20230115_113000_B.mp4")
    = ["ffprobe"; "-v"; "error"; "-show_entries"; "format=duration"; "-of";
       "default=noprint_wrappers=1:nokey=1"; "/media/input/20230115_103000_A.mp4";
       "-v"; "error"; "-show_entries"; "format=duration"; "-of";
       "default=noprint_wrappers=1:nokey=1"; "/media/input/20230115_113000_B.mp4"].
Proof.
  assert (@probe_fails Sample.unreadable Sample.probe0 Sample.late_clip = true)
    as Hfail by (vm_compute; reflexivity).
  split; [exact Hfail|].
  rewrite (proj1 (proj2 (@probe_failure_leaves_arguments_behind Sample.unreadable
                           Sample.probe0 Sample.late_clip
                           (Sample.entry "20230115_113000_B.mp4") Hfail))).
  vm_compute. reflexivity.
Defined.

(** ** More on rendering: the command of a chunk *)

Lemma add_as_ffmpeg_input_spec (v : Video) (ff : FFMPEG.t) :
  add_as_ffmpeg_input v ff = (as_input v (FFMPEG._input_count ff), input_added ff v).
Proof.
  unfold add_as_ffmpeg_input, as_input, input_added, audio_label, silent_fragment,
    FFMPEG.add_input, FFMPEG.current_input_index, FFMPEG.set_cmd,
    FFMPEG.set__input_count.
  cbn [FFMPEG.cmd FFMPEG._input_count FFMPEG.extra_input_options FFMPEG._bitrate
       FFMPEG.filter_complex FFMPEG.maps FFMPEG.ffmpeg_path FFMPEG._debug
       FFMPEG._quality FFMPEG._preset FFMPEG._pix_format FFMPEG._video_encoder
       FFMPEG._audio_encoder FFMPEG._output_added FFMPEG._overwrite_output
       type_ view_point path duration_seconds].
  replace (FFMPEG._input_count ff + 1 - 1) with (FFMPEG._input_count ff) by lia.
  destruct (bool_decide (type_ v = Parked) && bool_decide (view_point v = Front)).
  - reflexivity.
  - by rewrite app_nil_r.
Qed.

Lemma add_batch_inputs_spec (batch : list (Video * Video)) (ff : FFMPEG.t) :
  add_batch_inputs batch ff
  = (number_batch (FFMPEG._input_count ff) batch, batch_added ff batch).
Proof.
  revert ff. induction batch as [|[front_video back_video] batch IH]; intros ff; [done|].
  cbn [add_batch_inputs number_batch batch_added].
  rewrite !add_as_ffmpeg_input_spec, IH.
  cbn [input_added FFMPEG._input_count].
  by replace (FFMPEG._input_count ff + 1 + 1) with (FFMPEG._input_count ff + 2) by lia.
Qed.

Lemma number_batch_lookup n batch k front_video back_video :
  batch !! k = Some (front_video, back_video) →
  number_batch n batch !! k
  = Some (as_input front_video (n + 2 * Z.of_nat k),
          as_input back_video (n + 2 * Z.of_nat k + 1)).
Proof.
  revert n k. induction batch as [|[f b] batch IH]; intros n k; [done|].
  cbn [number_batch]. rewrite !lookup_cons. destruct k as [|k].
  - intros [= -> ->]. by rewrite Z.add_0_r.
  - intros Hk. rewrite (IH (n + 2) k Hk). do 3 f_equal; lia.
Qed.

Lemma number_batch_length n batch : length (number_batch n batch) = length batch.
Proof.
  revert n. induction batch as [|[f b] batch IH]; intros n; [done|].
  cbn [number_batch length]. by rewrite IH.
Qed.


(** What registering a batch changes in the builder, and what it keeps. *)
Lemma batch_added_fields (ff : FFMPEG.t) (batch : list (Video * Video)) :
  FFMPEG.cmd (batch_added ff batch)
  = FFMPEG.cmd ff ++ batch_inputs (FFMPEG.extra_input_options ff) batch
  ∧ FFMPEG.filter_complex (batch_added ff batch)
    = FFMPEG.filter_complex ff
      ++ batch_silent (FFMPEG._bitrate ff) (FFMPEG._input_count ff) batch
  ∧ FFMPEG._input_count (batch_added ff batch)
    = FFMPEG._input_count ff + 2 * Z.of_nat (length batch)
  ∧ FFMPEG.maps (batch_added ff batch) = FFMPEG.maps ff
  ∧ FFMPEG._compile_settings (batch_added ff batch) = FFMPEG._compile_settings ff
  ∧ FFMPEG.ffmpeg_path (batch_added ff batch) = FFMPEG.ffmpeg_path ff
  ∧ FFMPEG.extra_input_options (batch_added ff batch) = FFMPEG.extra_input_options ff.
Proof.
  revert ff. induction batch as [|[f b] batch IH]; intros ff.
  - cbn [batch_added batch_inputs batch_silent length].
    rewrite !app_nil_r. split_and!; [done|done|lia|done..].
  - cbn [batch_added batch_inputs batch_silent length].
    destruct (IH (input_added (input_added ff f) b))
      as (Hcmd & Hfc & Hn & Hmaps & Hset & Hpath & Hopt).
    rewrite Hcmd, Hfc, Hn, Hmaps, Hset, Hpath, Hopt.
    cbn [input_added FFMPEG.cmd FFMPEG.filter_complex FFMPEG._input_count FFMPEG.maps
         FFMPEG.ffmpeg_path FFMPEG.extra_input_options FFMPEG._bitrate].
    split_and!.
    + by rewrite <-!app_assoc.
    + rewrite <-!app_assoc. do 3 f_equal. f_equal. lia.
    + lia.
    + done.
    + reflexivity.
    + done.
    + done.
Qed.

Lemma append_nil_r (s : string) : s +:+ EmptyString = s.
Proof.
  induction s as [|c s IH]; [done|].
  change (String c (s +:+ EmptyString) = String c s). by rewrite IH.
Qed.

Lemma concat_empty_cons (x : string) (l : list string) :
  String.concat EmptyString (x :: l) = x +:+ String.concat EmptyString l.
Proof. destruct l; [by rewrite append_nil_r|reflexivity]. Qed.

Lemma concat_empty_app (l k : list string) :
  String.concat EmptyString (l ++ k)
  = String.concat EmptyString l +:+ String.concat EmptyString k.
Proof.
  induction l as [|x l IH]; [done|].
  change ((x :: l) ++ k) with (x :: (l ++ k)).
  by rewrite !concat_empty_cons, IH, append_assoc.
Qed.

Lemma endswith_semicolon_append (s t : string) :
  t ≠ EmptyString → endswith_semicolon (s +:+ t) = endswith_semicolon t.
Proof.
  intros Ht. induction s as [|c s IH]; [done|].
  change (String c s +:+ t) with (String c (s +:+ t)).
  cbn [endswith_semicolon]. rewrite IH.
  destruct (s +:+ t) eqn:Hst; [|done].
  destruct s; [by subst|done].
Qed.

Lemma drop_last_char_append (s t : string) :
  t ≠ EmptyString → drop_last_char (s +:+ t) = s +:+ drop_last_char t.
Proof.
  intros Ht. induction s as [|c s IH]; [done|].
  change (String c s +:+ t) with (String c (s +:+ t)).
  cbn [drop_last_char]. rewrite IH.
  change (String c s +:+ drop_last_char t) with (String c (s +:+ drop_last_char t)).
  destruct (s +:+ t) eqn:Hst; [|done].
  destruct s; [by subst|done].
Qed.

(** The command [add_output] leaves: the command so far, the settings, the
    filter graph with the maps if there is any filter, and the output. *)
Lemma add_output_cmd (ff : FFMPEG.t) (output_file : string) :
  FFMPEG.cmd (FFMPEG.add_output ff output_file)
  = FFMPEG.cmd ff ++ FFMPEG._compile_settings ff
    ++ match FFMPEG.filter_complex ff with
       | [] => []
       | _ :: _ =>
           ["-filter_complex"; FFMPEG._compile_filter_complex ff] ++ FFMPEG.maps ff
       end
    ++ [output_file].
Proof.
  unfold FFMPEG.add_output, FFMPEG._add_settings, FFMPEG._add_filter_complex,
    FFMPEG.set__output_added, FFMPEG.set_cmd.
  cbn [FFMPEG.filter_complex FFMPEG.cmd FFMPEG.maps].
  destruct (FFMPEG.filter_complex ff) eqn:Hfc;
    cbn [FFMPEG.cmd FFMPEG.maps FFMPEG.filter_complex].
  - by rewrite <-!app_assoc.
  - unfold FFMPEG._compile_filter_complex. cbn [FFMPEG.filter_complex].
    rewrite Hfc. by rewrite <-!app_assoc.
Qed.

(** A filter method appends its fragment and touches nothing else. *)
Lemma append_filter_fields (ff : FFMPEG.t) (f : string) :
  FFMPEG.cmd (FFMPEG.append_filter ff f) = FFMPEG.cmd ff
  ∧ FFMPEG.filter_complex (FFMPEG.append_filter ff f) = FFMPEG.filter_complex ff ++ [f]
  ∧ FFMPEG.maps (FFMPEG.append_filter ff f) = FFMPEG.maps ff
  ∧ FFMPEG._compile_settings (FFMPEG.append_filter ff f) = FFMPEG._compile_settings ff.
Proof. by destruct ff. Qed.

(** [map] appends to the maps and touches nothing else. *)
Lemma map_fields (ff : FFMPEG.t) (input : fval) :
  FFMPEG.cmd (FFMPEG.map ff input) = FFMPEG.cmd ff
  ∧ FFMPEG.filter_complex (FFMPEG.map ff input) = FFMPEG.filter_complex ff
  ∧ FFMPEG.maps (FFMPEG.map ff input)
    = FFMPEG.maps ff ++ ["-map"; "[" +:+ fmt input +:+ "]"]
  ∧ FFMPEG._compile_settings (FFMPEG.map ff input) = FFMPEG._compile_settings ff.
Proof. by destruct ff. Qed.

(** The plan of a batch, field by field, before [add_output]. *)
Lemma batch_plan_cmd (ff : FFMPEG.t) (batch : list (Video * Video)) (output_file : string) :
  FFMPEG.cmd (batch_plan ff batch output_file)
  = FFMPEG.cmd ff ++ FFMPEG._compile_settings ff
    ++ ["-filter_complex";
        String.concat EmptyString (FFMPEG.filter_complex ff)
        +:+ FFMPEG.concat_filter ((fun p => streams (fst p)) <$> batch)
              (Some "front_v") (Some "front_a")
        +:+ FFMPEG.concat_filter ((fun p => streams (snd p)) <$> batch)
              (Some "back_v") None
        +:+ "[back_v]scale_cuda='1280.0':'720.0'[back_v];"
        +:+ "[front_v][back_v]overlay_cuda='0':'0'[v]"]
    ++ FFMPEG.maps ff ++ ["-map"; "[v]"; "-map"; "[front_a]"; output_file].
Proof.
  unfold batch_plan. rewrite add_output_cmd.
  unfold FFMPEG._compile_filter_complex.
  unfold FFMPEG.overlay, FFMPEG.scale, FFMPEG.concat.
  generalize (FFMPEG.concat_filter ((fun p => streams (fst p)) <$> batch)
                (Some "front_v") (Some "front_a")).
  generalize (FFMPEG.concat_filter ((fun p => streams (snd p)) <$> batch)
                (Some "back_v") None).
  intros cB cF.
  change ("[" +:+ fmt (VStr "back_v") +:+ "]scale_cuda='" +:+ fmt (VFloat "1280.0")
          +:+ "':'" +:+ fmt (VFloat "720.0") +:+ "'[" +:+ "back_v" +:+ "];")
    with "[back_v]scale_cuda='1280.0':'720.0'[back_v];".
  change ("[" +:+ fmt (VStr "front_v") +:+ "][" +:+ fmt (VStr "back_v")
          +:+ "]overlay_cuda='" +:+ fmt (VInt 0) +:+ "':'" +:+ fmt (VInt 0)
          +:+ "'[" +:+ "v" +:+ "];")
    with "[front_v][back_v]overlay_cuda='0':'0'[v];".
  set (f1 := FFMPEG.append_filter ff cF).
  set (f2 := FFMPEG.append_filter f1 cB).
  set (f3 := FFMPEG.append_filter f2 "[back_v]scale_cuda='1280.0':'720.0'[back_v];").
  set (f4 := FFMPEG.append_filter f3 "[front_v][back_v]overlay_cuda='0':'0'[v];").
  set (f5 := FFMPEG.map f4 (VStr "v")).
  set (f6 := FFMPEG.map f5 (VStr "front_a")).
  destruct (map_fields f5 (VStr "front_a")) as (Hc6 & Hf6 & Hm6 & Hs6).
  destruct (map_fields f4 (VStr "v")) as (Hc5 & Hf5 & Hm5 & Hs5).
  destruct (append_filter_fields f3 "[front_v][back_v]overlay_cuda='0':'0'[v];")
    as (Hc4 & Hf4 & Hm4 & Hs4).
  destruct (append_filter_fields f2 "[back_v]scale_cuda='1280.0':'720.0'[back_v];")
    as (Hc3 & Hf3 & Hm3 & Hs3).
  destruct (append_filter_fields f1 cB) as (Hc2 & Hf2 & Hm2 & Hs2).
  destruct (append_filter_fields ff cF) as (Hc1 & Hf1 & Hm1 & Hs1).
  fold f1 in Hc1, Hf1, Hm1, Hs1. fold f2 in Hc2, Hf2, Hm2, Hs2.
  fold f3 in Hc3, Hf3, Hm3, Hs3. fold f4 in Hc4, Hf4, Hm4, Hs4.
  fold f5 in Hc5, Hf5, Hm5, Hs5. fold f6 in Hc6, Hf6, Hm6, Hs6.
  assert (FFMPEG.cmd f6 = FFMPEG.cmd ff) as -> by congruence.
  assert (FFMPEG._compile_settings f6 = FFMPEG._compile_settings ff) as ->
    by congruence.
  assert (FFMPEG.maps f6 = FFMPEG.maps ff ++ ["-map"; "[v]"; "-map"; "[front_a]"]) as ->.
  { rewrite Hm6, Hm5, Hm4, Hm3, Hm2, Hm1, <-app_assoc. reflexivity. }
  assert (FFMPEG.filter_complex f6
          = FFMPEG.filter_complex ff
            ++ [cF; cB; "[back_v]scale_cuda='1280.0':'720.0'[back_v];";
                "[front_v][back_v]overlay_cuda='0':'0'[v];"]) as ->.
  { rewrite Hf6, Hf5, Hf4, Hf3, Hf2, Hf1, <-!app_assoc. reflexivity. }
  clearbody f1 f2 f3 f4 f5 f6. clear.
  assert (String.concat EmptyString
            (FFMPEG.filter_complex ff
             ++ [cF; cB; "[back_v]scale_cuda='1280.0':'720.0'[back_v];";
                 "[front_v][back_v]overlay_cuda='0':'0'[v];"])
          = (String.concat EmptyString (FFMPEG.filter_complex ff) +:+ cF +:+ cB
             +:+ "[back_v]scale_cuda='1280.0':'720.0'[back_v];")
            +:+ "[front_v][back_v]overlay_cuda='0':'0'[v];") as Hjoin.
  { rewrite concat_empty_app, !concat_empty_cons. cbn [String.concat].
    rewrite append_nil_r. by rewrite !append_assoc. }
  rewrite Hjoin.
  rewrite endswith_semicolon_append by done.
  rewrite drop_last_char_append by done.
  change (endswith_semicolon "[front_v][back_v]overlay_cuda='0':'0'[v];") with true.
  change (drop_last_char "[front_v][back_v]overlay_cuda='0':'0'[v];")
    with "[front_v][back_v]overlay_cuda='0':'0'[v]".
  destruct (FFMPEG.filter_complex ff ++ _) eqn:Hne.
  { apply (f_equal length) in Hne. rewrite length_app in Hne. simpl in Hne. lia. }
  rewrite !append_assoc. rewrite <-!app_assoc. reflexivity.
Qed.

Lemma batch_plan_chunk_cmd (ff0 : FFMPEG.t) (batch : list (Video * Video))
    (output_file : string) :
  FFMPEG.cmd
    (batch_plan (add_batch_inputs batch (FFMPEG.reset ff0)).2
       (add_batch_inputs batch (FFMPEG.reset ff0)).1 output_file)
  = chunk_cmd (FFMPEG.ffmpeg_path ff0) (FFMPEG.extra_input_options ff0) batch
      output_file.
Proof.
  rewrite add_batch_inputs_spec. cbn [fst snd]. rewrite batch_plan_cmd.
  destruct (batch_added_fields (FFMPEG.reset ff0) batch)
    as (-> & -> & _ & -> & -> & _ & _).
  unfold chunk_cmd, chunk_graph. cbn [FFMPEG.reset FFMPEG._set_defaults FFMPEG.cmd
    FFMPEG.filter_complex FFMPEG.maps FFMPEG._input_count FFMPEG._bitrate
    FFMPEG.extra_input_options app].
  change (FFMPEG._compile_settings (FFMPEG._set_defaults ff0)) with default_settings.
  reflexivity.
Qed.

Lemma add_output_keeps_path (ff : FFMPEG.t) (output_file : string) :
  FFMPEG.ffmpeg_path (FFMPEG.add_output ff output_file) = FFMPEG.ffmpeg_path ff
  ∧ FFMPEG.extra_input_options (FFMPEG.add_output ff output_file)
    = FFMPEG.extra_input_options ff.
Proof.
  unfold FFMPEG.add_output, FFMPEG._add_filter_complex.
  destruct (FFMPEG.filter_complex (FFMPEG._add_settings ff)); split; reflexivity.
Qed.

Lemma batch_plan_keeps_path (ff : FFMPEG.t) (batch : list (Video * Video))
    (output_file : string) :
  FFMPEG.ffmpeg_path (batch_plan ff batch output_file) = FFMPEG.ffmpeg_path ff
  ∧ FFMPEG.extra_input_options (batch_plan ff batch output_file)
    = FFMPEG.extra_input_options ff.
Proof.
  unfold batch_plan.
  destruct (add_output_keeps_path
              (FFMPEG.map
                 (FFMPEG.map
                    (FFMPEG.overlay
                       (FFMPEG.scale
                          (FFMPEG.concat
                             (FFMPEG.concat ff ((fun p => streams (fst p)) <$> batch)
                                (Some "front_v") (Some "front_a"))
                             ((fun p => streams (snd p)) <$> batch)
                             (Some "back_v") None)
                          (VStr "back_v") (VFloat "1280.0") (VFloat "720.0") "back_v")
                       (VStr "front_v") (VStr "back_v") (VInt 0) (VInt 0) "v")
                    (VStr "v"))
                 (VStr "front_a")) output_file) as [-> ->].
  split; reflexivity.
Qed.

(** X8: the clips of a batch are registered on a builder that was reset as
    inputs 0, 1, 2, ...: the front clip of the pair at index [k] is input
    [2k], its back clip input [2k + 1]; each is labelled by its number
    ([<n>:v], and [<n>:a] or, for a parked front clip, the silent stream
    [a_<n>]) and stays the clip it was. *)
Theorem add_batch_inputs_numbers_clips (ff0 : FFMPEG.t)
    (batch : list (Video * Video)) (k : nat) (front_video back_video : Video) :
  batch !! k = Some (front_video, back_video) →
  (add_batch_inputs batch (FFMPEG.reset ff0)).1 !! k
  = Some (as_input front_video (2 * Z.of_nat k),
          as_input back_video (2 * Z.of_nat k + 1))
  ∧ FFMPEG._input_count (add_batch_inputs batch (FFMPEG.reset ff0)).2
    = 2 * Z.of_nat (length batch)
  ∧ length (add_batch_inputs batch (FFMPEG.reset ff0)).1 = length batch.
Proof.
  intros Hk. rewrite add_batch_inputs_spec. cbn [fst snd].
  split_and!.
  - by rewrite (number_batch_lookup _ batch k front_video back_video Hk).
  - by destruct (batch_added_fields (FFMPEG.reset ff0) batch) as (_ & _ & -> & _).
  - apply number_batch_length.
Qed.


(** ** More on rendering: the processes a render spawns *)

Section RenderTrace.
Context `{Externals}.

Lemma chunk_plan_facts (ff0 : FFMPEG.t) (b : list (Video * Video)) (out : string) :
  FFMPEG.cmd (batch_plan (add_batch_inputs b (FFMPEG.reset ff0)).2
                (add_batch_inputs b (FFMPEG.reset ff0)).1 out)
  = chunk_cmd (FFMPEG.ffmpeg_path ff0) (FFMPEG.extra_input_options ff0) b out
  ∧ FFMPEG.ffmpeg_path (batch_plan (add_batch_inputs b (FFMPEG.reset ff0)).2
                          (add_batch_inputs b (FFMPEG.reset ff0)).1 out)
    = FFMPEG.ffmpeg_path ff0
  ∧ FFMPEG.extra_input_options
      (batch_plan (add_batch_inputs b (FFMPEG.reset ff0)).2
         (add_batch_inputs b (FFMPEG.reset ff0)).1 out)
    = FFMPEG.extra_input_options ff0.
Proof.
  split; [apply batch_plan_chunk_cmd|].
  destruct (batch_plan_keeps_path (add_batch_inputs b (FFMPEG.reset ff0)).2
              (add_batch_inputs b (FFMPEG.reset ff0)).1 out) as [-> ->].
  rewrite add_batch_inputs_spec. cbn [snd].
  by destruct (batch_added_fields (FFMPEG.reset ff0) b) as (_ & _ & _ & _ & _ & -> & ->).
Qed.

(** The processes the loop over the batches spawns are the chunk commands of
    the batches, in order, up to the last batch or to the first one whose
    process exits non-zero, which is the one raised. *)
Lemma render_batches_spawned title index bs ff0 files0 w :
  ∃ m,
    (m ≤ length bs)%nat
    ∧ spawned (bl_world (render_batches title index bs ff0 files0 w))
      = spawned w
        ++ take m (chunk_cmds (FFMPEG.ffmpeg_path ff0) (FFMPEG.extra_input_options ff0)
                     title index bs)
    ∧ (bl_result (render_batches title index bs ff0 files0 w) = inr tt →
       m = length bs)
    ∧ (∀ e, bl_result (render_batches title index bs ff0 files0 w) = inl e →
       ∃ rc cmd,
         e = RuntimeError rc cmd ∧ rc ≠ 0 ∧ (0 < m)%nat
         ∧ chunk_cmds (FFMPEG.ffmpeg_path ff0) (FFMPEG.extra_input_options ff0)
             title index bs !! (m - 1)%nat
           = Some cmd).
Proof.
  revert index ff0 files0 w.
  induction bs as [|b bs IH]; intros index ff0 files0 w.
  - exists 0%nat. cbn [render_batches bl_world bl_result chunk_cmds take length].
    rewrite app_nil_r. split_and!; [lia|done|done|done].
  - rewrite render_batches_cons. cbv zeta.
    rewrite run_spec by apply batch_plan_output_added.
    destruct (chunk_plan_facts ff0 b (title +:+ "_" +:+ str_of_nat index +:+ ".mp4"))
      as (Hcmd & Hpath & Hopt).
    revert Hcmd Hpath Hopt.
    generalize (files0 ++ [title +:+ "_" +:+ str_of_nat index +:+ ".mp4"]).
    generalize (batch_plan (add_batch_inputs b (FFMPEG.reset ff0)).2
                  (add_batch_inputs b (FFMPEG.reset ff0)).1
                  (title +:+ "_" +:+ str_of_nat index +:+ ".mp4")).
    generalize (add_batch_inputs b (FFMPEG.reset ff0)).1.
    intros batch plan files1 Hcmd Hpath Hopt.
    cbn [chunk_cmds]. rewrite <-Hcmd.
    destruct (Z.eqb_spec (ffmpeg_process (FFMPEG.cmd plan) w).1 0) as [Hz|Hnz];
      cbn [bl_result bl_world].
    + destruct (IH (S index) plan files1
                  {| fs := (ffmpeg_process (FFMPEG.cmd plan) w).2;
                     spawned := spawned w ++ [FFMPEG.cmd plan] |})
        as (m & Hm & Hsp & Hok & Herr).
      rewrite Hpath, Hopt in Hsp, Herr.
      exists (S m). cbn [length take]. split_and!.
      * lia.
      * rewrite Hsp. cbn [spawned]. by rewrite <-app_assoc.
      * intros Hres. by rewrite (Hok Hres).
      * intros e He. destruct (Herr e He) as (rc & cmd & -> & Hrc & Hpos & Hlk).
        exists rc, cmd. split_and!; [done|done|lia|].
        replace (S m - 1)%nat with (S (m - 1)) by lia. by rewrite lookup_cons.
    + exists 1%nat. cbn [length take spawned]. split_and!.
      * lia.
      * done.
      * done.
      * intros e [= <-]. eexists _, _. split_and!; [done|done|lia|done].
Qed.


End RenderTrace.

(** ** More on rendering: what a render does to a group and to the world *)

Section RenderExtras.
Context `{Externals}.

(** [make_video] when the final output file does not exist. *)
Lemma make_video_renders self w :
  title self +:+ ".mp4" ∉ fs w →
  make_video self w
  = match bl_result (render_batches (title self) 0 (batches self) (ffmpeg self) [] w) with
    | inl e =>
        (inl e,
         with_rendered_clips
           (set_ffmpeg self
              (bl_ffmpeg (render_batches (title self) 0 (batches self) (ffmpeg self) [] w)))
           (bl_batches (render_batches (title self) 0 (batches self) (ffmpeg self) [] w)),
         bl_world (render_batches (title self) 0 (batches self) (ffmpeg self) [] w))
    | inr _ =>
        (inr tt,
         set_final_video
           (with_rendered_clips
              (set_ffmpeg self
                 (bl_ffmpeg (render_batches (title self) 0 (batches self) (ffmpeg self) [] w)))
              (bl_batches (render_batches (title self) 0 (batches self) (ffmpeg self) [] w)))
           (Some (title self +:+ ".mp4")),
         (spawn_ffmpeg
            (merge_cmd
               (bl_batch_files
                  (render_batches (title self) 0 (batches self) (ffmpeg self) [] w))
               (title self +:+ ".mp4"))
            (bl_world (render_batches (title self) 0 (batches self) (ffmpeg self) [] w))).2)
    end.
Proof.
  intros Hnot. unfold make_video, exists_. rewrite bool_decide_false by done.
  cbn [andb]. cbv zeta.
  generalize (render_batches (title self) 0 (batches self) (ffmpeg self) [] w).
  intros r. destruct (bl_result r); [done|]. by destruct (spawn_ffmpeg _ _).
Qed.

Lemma spawn_ffmpeg_spawned cmd w :
  spawned (spawn_ffmpeg cmd w).2 = spawned w ++ [cmd].
Proof. unfold spawn_ffmpeg. by destruct (ffmpeg_process cmd w). Qed.




End RenderExtras.


(** X11: a render that raises the [RuntimeError] of [run] (an encoder
    process exited with a code that is not zero) has spawned the chunk
    commands of the group's batches in order up to the one of that error,
    and nothing after it: no later chunk, no merge.  The code of the error
    is not zero, its command is that chunk's, the final output did not
    exist, and the final output path is not recorded. *)
Theorem make_video_stops_at_failed_chunk `{Externals} (self : VideoGroup) (w : World)
    (rc : Z) (cmd : list string) :
  (make_video self w).1.1 = inl (RuntimeError rc cmd) →
  ∃ m : nat,
    rc ≠ 0
    ∧ chunk_cmds (FFMPEG.ffmpeg_path (ffmpeg self))
        (FFMPEG.extra_input_options (ffmpeg self)) (title self) 0 (batches self) !! m
      = Some cmd
    ∧ spawned (make_video self w).2
      = spawned w
        ++ take (S m)
             (chunk_cmds (FFMPEG.ffmpeg_path (ffmpeg self))
                (FFMPEG.extra_input_options (ffmpeg self)) (title self) 0 (batches self))
    ∧ final_video (make_video self w).1.2 = final_video self
    ∧ title self +:+ ".mp4" ∉ fs w.
Proof.
  destruct (decide (title self +:+ ".mp4" ∈ fs w)) as [Hin|Hnot].
  { by rewrite (make_video_skip self w Hin). }
  rewrite (make_video_renders self w Hnot).
  destruct (render_batches_spawned (title self) 0 (batches self) (ffmpeg self) [] w)
    as (m & Hm & Hsp & _ & Herr).
  revert Hsp Herr.
  generalize (render_batches (title self) 0 (batches self) (ffmpeg self) [] w).
  intros r Hsp Herr.
  destruct (bl_result r) as [e'|[]]; [|done]. cbn [fst snd]. intros [= ->].
  destruct (Herr _ eq_refl) as (rc' & cmd' & [= <- <-] & Hrc & Hpos & Hlk).
  exists (m - 1)%nat. replace (S (m - 1)) with m by lia.
  split_and!; [done|exact Hlk|exact Hsp|done|done].
Qed.


(** X13: the table's [Has Missing Videos] is [False] exactly when the
    batches of the group hold every clip of both sequences; when it is
    [True], the clips of the longer sequence beyond the length of the
    shorter one are in no batch. *)
Theorem has_missing_pair_iff_clips_left_out (self : VideoGroup) :
  (has_missing_pair self = false ↔
   (concat (batches self)).*1 = front_videos self
   ∧ (concat (batches self)).*2 = back_videos self)
  ∧ (concat (batches self)).*1
    = take (length (back_videos self)) (front_videos self)
  ∧ (concat (batches self)).*2
    = take (length (front_videos self)) (back_videos self).
Proof.
  unfold batches. rewrite batches_of_concat. unfold front_and_back_videos.
  rewrite zip_fst_take, zip_snd_take. split; [|done].
  unfold has_missing_pair. rewrite negb_false_iff, Nat.eqb_eq. split.
  - intros Hlen. rewrite <-Hlen at 1. rewrite Hlen at 2. by rewrite !firstn_all.
  - intros [Hf Hb].
    apply (f_equal length) in Hf, Hb. rewrite length_take in Hf, Hb. lia.
Qed.

(** X14: a group without a pair (no front clip or no back clip) whose final
    output does not exist is not skipped.  It has no batch, and a render of
    it that returns has spawned no chunk and exactly one process, the merge
    with no input at all ([concat=n=0]), and has recorded the final output
    path. *)
Theorem make_video_without_pairs_merges_nothing `{Externals} (self : VideoGroup)
    (w : World) :
  front_videos self = [] ∨ back_videos self = [] →
  title self +:+ ".mp4" ∉ fs w →
  (make_video self w).1.1 = inr tt →
  batches self = []
  ∧ spawned (make_video self w).2
    = spawned w
      ++ [["ffmpeg"; "-filter_complex"; "concat=n=0:v=1:a=1";
           "-c:v"; "h264_nvenc"; "-preset"; "slow"; "-qp"; "20";
           "-c:a"; "aac"; "-b:a"; "44100"; title self +:+ ".mp4"]]
  ∧ final_video (make_video self w).1.2 = Some (title self +:+ ".mp4").
Proof.
  intros Hempty Hnot. rewrite (make_video_renders self w Hnot).
  assert (batches self = []) as ->.
  { unfold batches, front_and_back_videos.
    destruct Hempty as [-> | ->]; [done|]. by destruct (front_videos self). }
  cbn [render_batches bl_result bl_world bl_batch_files fst snd].
  rewrite spawn_ffmpeg_spawned. done.
Qed.


(** ** The render properties at concrete groups *)

Lemma add_batch_inputs_numbers_clips_witness :
  Clips.morning_pairs !! 0%nat = Some (Clips.morning_front, Clips.morning_back)
  ∧ (add_batch_inputs Clips.morning_pairs (FFMPEG.reset (ffmpeg Sample.morning))).1
      !! 0%nat
    = Some (as_input Clips.morning_front 0, as_input Clips.morning_back 1).
Proof.
  split; [reflexivity|].
  exact (proj1 (add_batch_inputs_numbers_clips (ffmpeg Sample.morning)
                  Clips.morning_pairs 0 Clips.morning_front Clips.morning_back
                  eq_refl)).
Defined.


Lemma make_video_stops_at_failed_chunk_witness :
  (@make_video Sample.chunk_fails Sample.morning Sample.world0).1.1
  = inl (RuntimeError 1 Sample.morning_chunk_cmd)
  ∧ ∃ (m : nat) (rc : Z) (cmd : list string),
      RuntimeError 1 Sample.morning_chunk_cmd = RuntimeError rc cmd ∧ rc ≠ 0
      ∧ spawned (@make_video Sample.chunk_fails Sample.morning Sample.world0).2
        = spawned Sample.world0
          ++ take (S m)
               (chunk_cmds (FFMPEG.ffmpeg_path (ffmpeg Sample.morning))
                  (FFMPEG.extra_input_options (ffmpeg Sample.morning))
                  (title Sample.morning) 0 (batches Sample.morning))
      ∧ final_video (@make_video Sample.chunk_fails Sample.morning Sample.world0).1.2
        = final_video Sample.morning.
Proof.
  assert ((@make_video Sample.chunk_fails Sample.morning Sample.world0).1.1
          = inl (RuntimeError 1 Sample.morning_chunk_cmd)) as Hres
    by (vm_compute; reflexivity).
  split; [exact Hres|].
  destruct (@make_video_stops_at_failed_chunk Sample.chunk_fails Sample.morning
              Sample.world0 1 Sample.morning_chunk_cmd Hres)
    as (m & Hrc & _ & Hsp & Hfin & _).
  exists m, 1, Sample.morning_chunk_cmd. split_and!; [reflexivity|assumption..].
Defined.

Lemma make_video_without_pairs_merges_nothing_witness :
  back_videos Clips.front_only = []
  ∧ length (front_videos Clips.front_only) = 1%nat
  ∧ (@make_video (Fixture.externals [] []) Clips.front_only Sample.world0).1.1 = inr tt
  ∧ final_video (@make_video (Fixture.externals [] []) Clips.front_only Sample.world0).1.2
    = Some "15 Jan 2023 10-00-00.mp4".
Proof.
  split; [reflexivity|]. split; [reflexivity|].
  assert (title Clips.front_only +:+ ".mp4" ∉ fs Sample.world0) as Hnot.
  { apply (bool_decide_unpack _). vm_compute. exact I. }
  assert ((@make_video (Fixture.externals [] []) Clips.front_only Sample.world0).1.1
          = inr tt) as Hok by (vm_compute; reflexivity).
  destruct (@make_video_without_pairs_merges_nothing (Fixture.externals [] [])
              Clips.front_only Sample.world0 (or_intror eq_refl) Hnot Hok)
    as (_ & _ & Hfin).
  split; [exact Hok|exact Hfin].
Defined.


(** ** More on the builder: what can be run, and what [map] needs *)

Lemma call_on_fields (ff : FFMPEG.t) (c : call) :
  FFMPEG._output_added (call_on ff c) = FFMPEG._output_added ff
  ∧ FFMPEG.ffmpeg_path (call_on ff c) = FFMPEG.ffmpeg_path ff
  ∧ head (FFMPEG.cmd (call_on ff c)) = head (FFMPEG.cmd ff ++ FFMPEG.cmd (call_on ff c)).
Proof.
  destruct c; cbn [call_on]; (split; [by destruct ff|]); (split; [by destruct ff|]);
    destruct ff as [? ? [|a cmd] ? ? ? ? ? ? ? ? ? ? ? ?]; reflexivity.
Qed.

Lemma calls_on_fields (ff : FFMPEG.t) (cs : list call) :
  FFMPEG._output_added (calls_on ff cs) = FFMPEG._output_added ff
  ∧ FFMPEG.ffmpeg_path (calls_on ff cs) = FFMPEG.ffmpeg_path ff
  ∧ (FFMPEG.cmd ff ≠ [] → head (FFMPEG.cmd (calls_on ff cs)) = head (FFMPEG.cmd ff)).
Proof.
  revert ff. induction cs as [|c cs IH]; intros ff; [done|].
  unfold calls_on. cbn [foldl]. fold (calls_on (call_on ff c) cs).
  destruct (IH (call_on ff c)) as (Ha & Hp & Hh).
  destruct (call_on_fields ff c) as (Ha' & Hp' & Hh').
  rewrite Ha, Hp, Ha', Hp'. split_and!; [done|done|].
  intros Hne. destruct (FFMPEG.cmd ff) as [|a cmd] eqn:Hcmd; [done|].
  cbn [app head] in Hh'. rewrite Hh; [done|].
  intros Hnil. by rewrite Hnil in Hh'.
Qed.

(** X16: a builder that was reset cannot be run before an output is added:
    whatever inputs, filters and maps were added since the reset, [run]
    raises [Output file not added] and spawns nothing; once the output is
    added, [run] spawns exactly one process, the binary of the builder's
    path with the output file as its last argument. *)
Theorem run_needs_an_output `{Externals} (ff : FFMPEG.t) (cs : list call)
    (output_file : string) (w : World) :
  FFMPEG.run (calls_on (FFMPEG.reset ff) cs) w
  = (inl (Exception_ "Output file not added"), w)
  ∧ ∃ cmd,
      spawned (FFMPEG.run (FFMPEG.add_output (calls_on (FFMPEG.reset ff) cs) output_file) w).2
      = spawned w ++ [cmd]
      ∧ head cmd = Some (FFMPEG.ffmpeg_path ff)
      ∧ last cmd = Some output_file.
Proof.
  destruct (calls_on_fields (FFMPEG.reset ff) cs) as (Ha & Hp & Hh).
  split.
  - unfold FFMPEG.run. by rewrite Ha.
  - exists (FFMPEG.cmd (FFMPEG.add_output (calls_on (FFMPEG.reset ff) cs) output_file)).
    rewrite run_spec by reflexivity. cbn [snd spawned].
    split; [done|]. rewrite add_output_cmd. split.
    + specialize (Hh ltac:(done)).
      destruct (FFMPEG.cmd (calls_on (FFMPEG.reset ff) cs)) as [|a cmd]; [done|].
      cbn [app head] in *. exact Hh.
    + rewrite !app_assoc. apply last_snoc.
Qed.

(** X17: the maps of a builder reach the command only together with a
    filter graph: on a builder without any filter, [map] changes nothing of
    the command that [add_output] compiles, which is the command so far, the
    settings and the output file. *)
Theorem map_without_filter_is_dropped (ff : FFMPEG.t) (input : fval)
    (output_file : string) :
  FFMPEG.filter_complex ff = [] →
  FFMPEG.cmd (FFMPEG.add_output (FFMPEG.map ff input) output_file)
  = FFMPEG.cmd (FFMPEG.add_output ff output_file)
  ∧ FFMPEG.cmd (FFMPEG.add_output ff output_file)
    = FFMPEG.cmd ff ++ FFMPEG._compile_settings ff ++ [output_file].
Proof.
  intros Hfc. rewrite !add_output_cmd.
  destruct (map_fields ff input) as (Hcmd & Hfc' & _).
  assert (FFMPEG._compile_settings (FFMPEG.map ff input) = FFMPEG._compile_settings ff)
    as -> by (by destruct ff).
  rewrite Hcmd, Hfc', Hfc. done.
Qed.

Lemma map_without_filter_is_dropped_witness :
  FFMPEG.cmd (FFMPEG.add_output
                (FFMPEG.map (FFMPEG.add_input (FFMPEG.__init__ "ffmpeg" false) "in.mp4")
                   (VStr "v")) "out.mp4")
  = ["ffmpeg"; "-i"; "in.mp4"; "-c:v"; "h264_nvenc"; "-c:a"; "aac"; "-b:a"; "44100";
     "-qp"; "20"; "-preset"; "slow"; "-y"; "out.mp4"].
Proof.
  rewrite (proj1 (map_without_filter_is_dropped
                    (FFMPEG.add_input (FFMPEG.__init__ "ffmpeg" false) "in.mp4")
                    (VStr "v") "out.mp4" eq_refl)).
  reflexivity.
Defined.

(** ** More of [main.py]: silent audio, the minutes of the table, a second run *)

(** X18: the clips that get a silent audio stream are exactly those of the
    files whose name before the first dot holds both a [P] and an [A]:
    registered as input [n], such a clip is labelled [a_<n>] and one
    [anullsrc] fragment of its duration is added to the filter graph; any
    other clip is labelled [<n>:a] and adds no fragment. *)
Theorem silent_audio_iff_name_has_P_and_A `{Externals} (file : Path) (probe : PROBE.t)
    (ff : FFMPEG.t) :
  ffmpeg_audio_stream (add_as_ffmpeg_input (Video__init__ file probe).1 ff).1
  = (if contains_char "P" (split_dot_0 (name file))
        && contains_char "A" (split_dot_0 (name file))
     then "a_" +:+ str_of_Z (FFMPEG._input_count ff)
     else str_of_Z (FFMPEG._input_count ff) +:+ ":a")
  ∧ FFMPEG.filter_complex (add_as_ffmpeg_input (Video__init__ file probe).1 ff).2
    = FFMPEG.filter_complex ff
      ++ (if contains_char "P" (split_dot_0 (name file))
             && contains_char "A" (split_dot_0 (name file))
          then ["anullsrc=channel_layout=stereo:sample_rate=" +:+ FFMPEG._bitrate ff
                +:+ ":d=" +:+ fmt_opt_Z (duration_seconds (Video__init__ file probe).1)
                +:+ "[a_" +:+ str_of_Z (FFMPEG._input_count ff) +:+ "];"]
          else []).
Proof.
  rewrite add_as_ffmpeg_input_spec. cbn [fst snd].
  unfold as_input, input_added, audio_label, silent_fragment.
  cbn [ffmpeg_audio_stream FFMPEG.filter_complex].
  unfold Video__init__.
  destruct (PROBE.get_media_duration probe (as_posix file)) as [r probe'].
  cbn [fst type_ view_point duration_seconds].
  destruct (contains_char "P" (split_dot_0 (name file)));
    destruct (contains_char "A" (split_dot_0 (name file))); done.
Qed.

Lemma totals_add_minutes (videos : list VideoGroup) (totals : Totals) :
  totals_minutes (foldl totals_add totals videos)
  = totals_minutes totals
    + foldr (fun video acc => total_seconds video / 60 + acc) 0 videos.
Proof.
  revert totals. induction videos as [|g videos IH]; intros totals.
  - cbn [foldl foldr]. lia.
  - cbn [foldl foldr]. rewrite IH. cbn [totals_add totals_minutes]. lia.
Qed.

(** X19: the minutes total of the table is the sum of the whole minutes of
    each group, not the whole minutes of the sum: it falls short of the
    summed seconds by less than one minute per group. *)
Theorem display_table_minutes_are_floored_per_group (videos : list VideoGroup) :
  60 * totals_minutes (display_table_totals videos) ≤ sum_total_seconds videos
  ∧ sum_total_seconds videos
    ≤ 60 * totals_minutes (display_table_totals videos) + 59 * Z.of_nat (length videos).
Proof.
  unfold display_table_totals. rewrite totals_add_minutes. cbn [totals_minutes].
  induction videos as [|g videos IH]; [done|].
  unfold sum_total_seconds in *. cbn [foldr length].
  pose proof (Z.div_mod (total_seconds g) 60 ltac:(done)) as Hdm.
  pose proof (Z.mod_pos_bound (total_seconds g) 60 ltac:(done)) as Hm.
  generalize dependent (total_seconds g / 60).
  generalize dependent (total_seconds g `mod` 60).
  intros. lia.
Qed.

(** X20: a render loop over groups whose final output files all exist
    renders nothing: it returns, spawns no process, and leaves every group
    and the world as they were. *)
Theorem render_all_skips_existing_outputs `{Externals} (vs : list VideoGroup)
    (w : World) :
  Forall (fun v => title v +:+ ".mp4" ∈ fs w) vs →
  render_all vs w = (inr tt, vs, w).
Proof.
  induction 1 as [|v vs Hv _ IH]; [done|].
  cbn [render_all]. by rewrite (make_video_skip v w Hv), IH.
Qed.

Lemma render_all_skips_existing_outputs_witness :
  (@render_all (Fixture.externals [] []) Sample.two_sessions Sample.world0).1.1 = inr tt
  ∧ @render_all (Fixture.externals [] []) Sample.two_sessions
      (@render_all (Fixture.externals [] []) Sample.two_sessions Sample.world0).2
    = (inr tt, Sample.two_sessions,
       (@render_all (Fixture.externals [] []) Sample.two_sessions Sample.world0).2).
Proof.
  split; [vm_compute; reflexivity|].
  apply (@render_all_skips_existing_outputs (Fixture.externals [] [])).
  repeat constructor; apply (bool_decide_unpack _); vm_compute; exact I.
Defined.

(** ** [ffmpeg/helpers.py] *)

Section Helpers.
Import helpers.

Lemma length_append (s t : string) :
  String.length (s +:+ t) = (String.length s + String.length t)%nat.
Proof.
  induction s as [|c s IH]; [done|].
  change (S (String.length (s +:+ t)) = S (String.length s + String.length t)).
  by rewrite IH.
Qed.

(** The two passes of [fix_ffmpeg_text] as one: a colon gets a backslash
    before it, an apostrophe is dropped, any other character is kept. *)
Lemma fix_ffmpeg_text_cons (c : Ascii.ascii) (s : string) :
  fix_ffmpeg_text (String c s)
  = if Ascii.eqb c ":"%char then String "\"%char (String ":"%char (fix_ffmpeg_text s))
    else if Ascii.eqb c "'"%char then fix_ffmpeg_text s
    else String c (fix_ffmpeg_text s).
Proof.
  unfold fix_ffmpeg_text. cbn [replace_char].
  destruct (Ascii.eqb_spec c ":"%char) as [->|Hc]; [done|].
  cbn [replace_char]. by destruct (Ascii.eqb c "'"%char).
Qed.

Lemma fix_ffmpeg_text_each_char (s : string) :
  fix_ffmpeg_text s = each_char fixed_char s.
Proof.
  induction s as [|c s IH]; [done|]. rewrite fix_ffmpeg_text_cons.
  cbn [each_char]. unfold fixed_char at 1. rewrite <-IH.
  destruct (Ascii.eqb c ":"%char); [done|]. by destruct (Ascii.eqb c "'"%char).
Qed.

Lemma fix_ffmpeg_text_no_quote (s : string) :
  contains_char "'" (fix_ffmpeg_text s) = false.
Proof.
  induction s as [|c s IH]; [done|]. rewrite fix_ffmpeg_text_cons.
  destruct (Ascii.eqb_spec c ":"%char) as [->|Hc]; [exact IH|].
  destruct (Ascii.eqb_spec c "'"%char) as [->|Hq]; [exact IH|].
  cbn [contains_char]. destruct (Ascii.eqb_spec "'"%char c) as [<-|_]; [done|exact IH].
Qed.

Lemma fix_ffmpeg_text_escaped (prev : Ascii.ascii) (s : string) :
  colons_escaped_after prev (fix_ffmpeg_text s) = true.
Proof.
  revert prev. induction s as [|c s IH]; intros prev; [done|].
  rewrite fix_ffmpeg_text_cons.
  destruct (Ascii.eqb_spec c ":"%char) as [->|Hc].
  - cbn [colons_escaped_after]. by rewrite IH.
  - destruct (Ascii.eqb_spec c "'"%char) as [->|Hq]; [apply IH|].
    cbn [colons_escaped_after]. rewrite IH.
    by destruct (Ascii.eqb_spec c ":"%char).
Qed.

Lemma fix_ffmpeg_text_length (s : string) :
  (String.length (fix_ffmpeg_text s) + count_char "'" s
   = String.length s + count_char ":" s)%nat.
Proof.
  induction s as [|c s IH]; [done|]. rewrite fix_ffmpeg_text_cons.
  cbn [count_char String.length].
  destruct (Ascii.eqb_spec c ":"%char) as [->|Hc].
  - cbn [String.length Ascii.eqb Bool.eqb]. lia.
  - destruct (Ascii.eqb_spec c "'"%char) as [->|Hq]; cbn [String.length]; lia.
Qed.

(** *** Splitting at a character *)

Lemma split_char_nonnil sep s : split_char sep s ≠ [].
Proof.
  induction s as [|c s IH]; [done|]. cbn [split_char].
  destruct (Ascii.eqb c sep); [done|]. by destruct (split_char sep s).
Qed.

(** A string without the separator is one word. *)
Lemma split_char_word sep s :
  contains_char sep s = false → split_char sep s = [s].
Proof.
  induction s as [|c s IH]; [done|]. cbn [contains_char split_char].
  rewrite Ascii.eqb_sym. destruct (Ascii.eqb c sep); [done|].
  intros Hs. by rewrite (IH Hs).
Qed.

(** The words of a split do not hold the separator. *)
Lemma split_char_words sep s :
  Forall (fun word => contains_char sep word = false) (split_char sep s).
Proof.
  induction s as [|c s IH]; [by repeat constructor|]. cbn [split_char].
  destruct (Ascii.eqb c sep) eqn:Hc; [by constructor|].
  destruct (split_char sep s) as [|word words].
  { constructor; [|constructor]. cbn [contains_char]. by rewrite Ascii.eqb_sym, Hc. }
  inversion IH as [|? ? Hword Hwords]; subst. constructor; [|done].
  cbn [contains_char]. by rewrite Ascii.eqb_sym, Hc.
Qed.

(** Joining with the separator and splitting again gives the words of both
    sides. *)
Lemma split_char_join sep a b :
  split_char sep (a +:+ String sep b) = split_char sep a ++ split_char sep b.
Proof.
  induction a as [|c a IH].
  - change (split_char sep (String sep b) = [EmptyString] ++ split_char sep b).
    cbn [split_char]. by rewrite Ascii.eqb_refl.
  - change (split_char sep (String c (a +:+ String sep b))
            = split_char sep (String c a) ++ split_char sep b).
    cbn [split_char]. rewrite IH. destruct (Ascii.eqb c sep); [done|].
    pose proof (split_char_nonnil sep a).
    by destruct (split_char sep a).
Qed.

(** *** The loop of [fit_text_to_screen] *)

(** The non-empty words of the lines and of the phrase in hand are the
    non-empty words taken so far. *)
Lemma fit_word_words max_letters lines current_phrase words taken :
  Forall (fun word => contains_char " " word = false) words →
  filter (fun word => nonempty word = true)
    (concat (split_char " " <$> lines) ++ split_char " " current_phrase)
  = filter (fun word => nonempty word = true) taken →
  filter (fun word => nonempty word = true)
    (concat (split_char " " <$> (foldl (fit_word max_letters) (lines, current_phrase) words).1)
     ++ split_char " " (foldl (fit_word max_letters) (lines, current_phrase) words).2)
  = filter (fun word => nonempty word = true) (taken ++ words).
Proof.
  intros Hwords. revert lines current_phrase taken.
  induction Hwords as [|word words Hword _ IH]; intros lines current_phrase taken Hinv.
  - cbn [foldl fst snd]. by rewrite app_nil_r.
  - cbn [foldl].
    replace (taken ++ word :: words) with ((taken ++ [word]) ++ words)
      by (by rewrite <-app_assoc).
    unfold fit_word at 2 4.
    destruct (_ <=? max_letters).
    + destruct (Nat.eqb_spec (String.length current_phrase) 0) as [Hz|Hnz].
      * apply IH. destruct current_phrase; [|done].
        rewrite filter_app in Hinv. cbn in Hinv. rewrite app_nil_r in Hinv.
        rewrite !filter_app, Hinv, (split_char_word _ _ Hword). done.
      * apply IH. change (current_phrase +:+ " " +:+ word)
          with (current_phrase +:+ String " "%char word).
        rewrite split_char_join, (split_char_word _ _ Hword), app_assoc.
        by rewrite filter_app, Hinv, <-filter_app.
    + apply IH. rewrite fmap_app, concat_app. cbn [fmap list_fmap concat].
      rewrite app_nil_r, (split_char_word _ _ Hword).
      by rewrite filter_app, Hinv, <-filter_app.
Qed.

(** Every line, and the phrase in hand, is at most one letter longer than
    [max_letters] or is one of the words. *)
Lemma fit_word_lengths max_letters (all_words : list string) lines current_phrase words :
  let ok line :=
    Z.of_nat (String.length line) ≤ max_letters + 1 ∨ line ∈ all_words in
  words ⊆ all_words →
  Forall ok lines → ok current_phrase →
  Forall ok (foldl (fit_word max_letters) (lines, current_phrase) words).1
  ∧ ok (foldl (fit_word max_letters) (lines, current_phrase) words).2.
Proof.
  intros ok. revert lines current_phrase.
  induction words as [|word words IH]; intros lines current_phrase Hsub Hlines Hcur.
  - done.
  - cbn [foldl]. unfold fit_word at 2 4.
    assert (word ∈ all_words) as Hin by (apply Hsub; left).
    assert (words ⊆ all_words) as Hsub' by (intros x Hx; apply Hsub; by right).
    destruct (Z.leb_spec (Z.of_nat (String.length current_phrase)
                          + Z.of_nat (String.length word)) max_letters) as [Hle|Hgt].
    + destruct (Nat.eqb (String.length current_phrase) 0).
      * apply IH; [done|done|by right].
      * apply IH; [done|done|]. left.
        rewrite !length_append. cbn [String.length]. lia.
    + apply IH; [done| |by right].
      apply Forall_app. split; [done|by constructor].
Qed.

End Helpers.

(** X21: [fix_ffmpeg_text] rewrites the text character by character, in
    order: a colon becomes a backslash and a colon, an apostrophe is
    dropped, and every other character (a backslash too) is kept as it is.
    So it leaves no apostrophe in the text, every colon of its result comes
    right after a backslash, and the result is longer by the number of
    colons and shorter by the number of apostrophes of the text. *)
Theorem fix_ffmpeg_text_escapes_colons_and_drops_quotes (text : string) :
  helpers.fix_ffmpeg_text text = helpers.each_char helpers.fixed_char text
  ∧ (∀ c : Ascii.ascii,
       c ≠ ":"%char → c ≠ "'"%char →
       helpers.fixed_char c = String c EmptyString)
  ∧ helpers.fixed_char ":" = String "\"%char (String ":"%char EmptyString)
  ∧ helpers.fixed_char "'" = EmptyString
  ∧ contains_char "'" (helpers.fix_ffmpeg_text text) = false
  ∧ helpers.colons_escaped (helpers.fix_ffmpeg_text text) = true
  ∧ (String.length (helpers.fix_ffmpeg_text text) + helpers.count_char "'" text
     = String.length text + helpers.count_char ":" text)%nat.
Proof.
  split_and!.
  - apply fix_ffmpeg_text_each_char.
  - intros c Hc Hq. unfold helpers.fixed_char.
    destruct (Ascii.eqb_spec c ":"%char) as [->|_]; [done|].
    by destruct (Ascii.eqb_spec c "'"%char) as [->|_].
  - reflexivity.
  - reflexivity.
  - apply fix_ffmpeg_text_no_quote.
  - apply fix_ffmpeg_text_escaped.
  - apply fix_ffmpeg_text_length.
Qed.

(** X22: [fit_text_to_screen] loses, repeats and reorders no word: the
    non-empty words of its lines, line after line, are the non-empty words
    of the text.  Only empty words, which come from spaces at the ends of
    the text or next to each other, can disappear. *)
Theorem fit_text_to_screen_keeps_the_words (text : string) (max_letters : Z) :
  filter (fun word => helpers.nonempty word = true)
    (concat (helpers.split_char " " <$> helpers.fit_text_to_screen text max_letters))
  = filter (fun word => helpers.nonempty word = true) (helpers.split_char " " text).
Proof.
  unfold helpers.fit_text_to_screen.
  destruct (_ <=? max_letters).
  { cbn [fmap list_fmap concat]. by rewrite app_nil_r. }
  pose proof (fit_word_words max_letters [] EmptyString (helpers.split_char " " text) []
                (split_char_words _ _) eq_refl) as Hinv.
  cbn [app] in Hinv. rewrite <-Hinv.
  destruct (foldl _ _ _) as [lines current_phrase]. cbn [fst snd].
  destruct current_phrase as [|c current_phrase].
  - cbn. by rewrite filter_app, app_nil_r.
  - cbn [String.length Nat.eqb negb]. rewrite fmap_app, concat_app.
    cbn [fmap list_fmap concat]. by rewrite app_nil_r.
Qed.

(** X23: for a [max_letters] that is not negative, every line of
    [fit_text_to_screen] is at most [max_letters + 1] characters long (the
    joining space is not counted when a word is added) or is a single word
    of the text. *)
Theorem fit_text_to_screen_line_lengths (text : string) (max_letters : Z) (line : string) :
  0 ≤ max_letters →
  line ∈ helpers.fit_text_to_screen text max_letters →
  Z.of_nat (String.length line) ≤ max_letters + 1
  ∨ line ∈ helpers.split_char " " text.
Proof.
  intros Hmax. unfold helpers.fit_text_to_screen.
  destruct (Z.leb_spec (Z.of_nat (String.length text)) max_letters) as [Hle|Hgt].
  { intros ->%list_elem_of_singleton. left. lia. }
  destruct (fit_word_lengths max_letters (helpers.split_char " " text) [] EmptyString
              (helpers.split_char " " text)) as [Hlines Hcur].
  { done. }
  { constructor. }
  { left. cbn [String.length]. lia. }
  destruct (foldl _ _ _) as [lines current_phrase]. cbn [fst snd] in *.
  destruct (negb _).
  - intros [Hin| ->%list_elem_of_singleton]%elem_of_app; [|done].
    by apply (proj1 (Forall_forall _ _) Hlines).
  - intros Hin. by apply (proj1 (Forall_forall _ _) Hlines).
Qed.

Lemma fit_text_to_screen_line_lengths_witness :
  helpers.fit_text_to_screen "ab cd ef" 4 = ["ab cd"; "ef"]
  ∧ (Z.of_nat (String.length "ab cd") ≤ 4 + 1
     ∨ "ab cd" ∈ helpers.split_char " " "ab cd ef").
Proof.
  split; [reflexivity|].
  apply (fit_text_to_screen_line_lengths "ab cd ef" 4 "ab cd"); [lia|].
  apply (bool_decide_unpack _). vm_compute. exact I.
Defined.

(** ** The pairs and chunks of a render *)

Lemma chunk_cmds_length ffmpeg_path options title index batches :
  length (chunk_cmds ffmpeg_path options title index batches) = length batches.
Proof.
  revert index. induction batches as [|b bs IH]; intros index; [done|].
  cbn [chunk_cmds length]. by rewrite IH.
Qed.

(** C2: the pairs of a group are the index-wise pairs of its front and back
    clips, as many as the shorter sequence has, the clips beyond that length
    being left out; the batches are consecutive slices of the pairs whose
    concatenation is the pairs, every batch has between one and four pairs
    and every batch but the last has four; there are ceil(min(F, B) / 4)
    batches, and a loop over them in which no run raised names that many
    intermediate files.  The render step renders these batches and nothing
    else: when the final output does not exist, [make_video] spawns the
    chunk commands of the batches in order, each built from the pairs of
    its batch alone, one per batch up to the last or to one that raises;
    when it returns it has spawned all ceil(min(F, B) / 4) of them and then
    the merge of as many intermediate files.  The clips beyond the length of
    the shorter sequence take no part in it: the render of the group
    without them has the same outcome and leaves the same world. *)
Theorem C2_pairing_and_batching `{Externals} (self : VideoGroup) :
  length (front_and_back_videos self)
    = (length (front_videos self) `min` length (back_videos self))%nat
  ∧ (∀ i x y, front_and_back_videos self !! i = Some (x, y)
       ↔ front_videos self !! i = Some x ∧ back_videos self !! i = Some y)
  ∧ (front_and_back_videos self).*1
      = take (length (front_videos self) `min` length (back_videos self))
          (front_videos self)
  ∧ (front_and_back_videos self).*2
      = take (length (front_videos self) `min` length (back_videos self))
          (back_videos self)
  ∧ concat (batches self) = front_and_back_videos self
  ∧ Forall (fun c => 1 ≤ length c ≤ 4)%nat (batches self)
  ∧ (∀ k c, batches self !! k = Some c →
       (S k < length (batches self))%nat → length c = 4%nat)
  ∧ length (batches self)
      = ceil_div (length (front_videos self) `min` length (back_videos self)) 4
  ∧ (∀ w,
       let r := render_batches (title self) 0 (batches self) (ffmpeg self) [] w in
       (length (bl_batch_files r)
          ≤ ceil_div (length (front_videos self) `min` length (back_videos self)) 4)%nat
       ∧ (bl_result r = inr tt →
          bl_batch_files r
            = batch_file_names (title self) 0
                (ceil_div (length (front_videos self) `min` length (back_videos self)) 4)))
  ∧ length (chunk_cmds (FFMPEG.ffmpeg_path (ffmpeg self))
              (FFMPEG.extra_input_options (ffmpeg self)) (title self) 0 (batches self))
      = ceil_div (length (front_videos self) `min` length (back_videos self)) 4
  ∧ (∀ w,
       title self +:+ ".mp4" ∉ fs w →
       ∃ m,
         (m ≤ ceil_div (length (front_videos self) `min` length (back_videos self)) 4)%nat
         ∧ spawned (make_video self w).2
           = spawned w
             ++ take m
                  (chunk_cmds (FFMPEG.ffmpeg_path (ffmpeg self))
                     (FFMPEG.extra_input_options (ffmpeg self)) (title self) 0
                     (batches self))
             ++ match (make_video self w).1.1 with
                | inr _ =>
                    [merge_cmd
                       (batch_file_names (title self) 0
                          (ceil_div
                             (length (front_videos self) `min` length (back_videos self))
                             4))
                       (title self +:+ ".mp4")]
                | inl _ => []
                end
         ∧ ((make_video self w).1.1 = inr tt →
            m = ceil_div (length (front_videos self) `min` length (back_videos self)) 4))
  ∧ (∀ w,
       (make_video (without_excess self) w).1.1 = (make_video self w).1.1
       ∧ (make_video (without_excess self) w).2 = (make_video self w).2).
Proof.
  assert (length (front_and_back_videos self)
    = (length (front_videos self) `min` length (back_videos self))%nat) as Hlen
    by apply length_zip_with.
  assert (length (batches self)
    = ceil_div (length (front_videos self) `min` length (back_videos self)) 4) as Hn.
  { unfold batches. by rewrite batches_of_length, Hlen. }
  split_and!.
  - done.
  - intros i x y. apply zip_lookup_Some.
  - unfold front_and_back_videos. rewrite zip_fst_take.
    destruct (Nat.min_spec (length (front_videos self)) (length (back_videos self)))
      as [[Hlt ->]|[Hle ->]]; [|done].
    by rewrite !take_ge by lia.
  - unfold front_and_back_videos. rewrite zip_snd_take.
    destruct (Nat.min_spec (length (front_videos self)) (length (back_videos self)))
      as [[Hlt ->]|[Hle ->]]; [done|].
    by rewrite !take_ge by lia.
  - apply batches_of_concat.
  - apply Forall_lookup. intros k c Hk. by eapply batches_of_chunk_length.
  - intros k c. apply batches_of_full_chunk.
  - done.
  - intros w. rewrite <-Hn.
    apply (render_batches_batch_files (title self) 0 (batches self) (ffmpeg self) [] w).
  - by rewrite chunk_cmds_length.
  - intros w Hnot. rewrite <-Hn. rewrite (make_video_renders self w Hnot).
    destruct (render_batches_spawned (title self) 0 (batches self) (ffmpeg self) [] w)
      as (m & Hm & Hsp & Hok & _).
    destruct (render_batches_batch_files (title self) 0 (batches self)
                (ffmpeg self) [] w) as [_ Hfiles].
    revert Hsp Hok Hfiles. cbv zeta.
    generalize (render_batches (title self) 0 (batches self) (ffmpeg self) [] w).
    intros r Hsp Hok Hfiles. exists m.
    destruct (bl_result r) as [e|[]]; cbn [fst snd].
    + split; [exact Hm|]. split; [by rewrite app_nil_r|done].
    + split; [exact Hm|]. split; [|intros _; by apply Hok].
      rewrite spawn_ffmpeg_spawned, Hsp, (Hfiles eq_refl), <-app_assoc. done.
  - intros w.
    assert (batches (without_excess self) = batches self) as Hb.
    { unfold batches, front_and_back_videos, without_excess.
      cbn [set_back_videos set_front_videos front_videos back_videos].
      f_equal. apply zip_with_take_both'; lia. }
    unfold make_video. rewrite Hb.
    change (title (without_excess self)) with (title self).
    change (ffmpeg (without_excess self)) with (ffmpeg self).
    destruct (exists_ (title self +:+ ".mp4") w && negb DEBUG); [done|].
    cbv zeta.
    generalize (render_batches (title self) 0 (batches self) (ffmpeg self) [] w).
    intros r. destruct (bl_result r) as [e|[]]; [done|].
    by destruct (spawn_ffmpeg _ _).
Qed.

Lemma C2_pairing_and_batching_witness :
  length (front_videos Drive.group) = 5%nat
  ∧ length (back_videos Drive.group) = 6%nat
  ∧ length <$> batches Drive.group = [4; 1]%nat
  ∧ (title Drive.group +:+ ".mp4" ∉ fs Sample.world0)
  ∧ (@make_video (Fixture.externals [] []) Drive.group Sample.world0).1.1 = inr tt
  ∧ ∃ m,
      m = 2%nat
      ∧ spawned (@make_video (Fixture.externals [] []) Drive.group Sample.world0).2
        = spawned Sample.world0
          ++ take m
               (chunk_cmds (FFMPEG.ffmpeg_path (ffmpeg Drive.group))
                  (FFMPEG.extra_input_options (ffmpeg Drive.group))
                  (title Drive.group) 0 (batches Drive.group))
          ++ [merge_cmd ["15 Jan 2023 10-00-00_0.mp4"; "15 Jan 2023 10-00-00_1.mp4"]
                "15 Jan 2023 10-00-00.mp4"]
      ∧ Forall (fun cmd => "/media/input/20230115_100500_B.mp4" ∉ cmd)
          (spawned (@make_video (Fixture.externals [] []) Drive.group Sample.world0).2).
Proof.
  split; [reflexivity|]. split; [reflexivity|]. split; [reflexivity|].
  assert (title Drive.group +:+ ".mp4" ∉ fs Sample.world0) as Hnot.
  { apply (bool_decide_unpack _). vm_compute. exact I. }
  assert ((@make_video (Fixture.externals [] []) Drive.group Sample.world0).1.1
          = inr tt) as Hok by (vm_compute; reflexivity).
  split; [exact Hnot|]. split; [exact Hok|].
  pose proof (@C2_pairing_and_batching (Fixture.externals [] []) Drive.group)
    as (_ & _ & _ & _ & _ & _ & _ & _ & _ & _ & Hrender & _).
  destruct (Hrender Sample.world0 Hnot) as (m & _ & Hsp & Hm).
  exists m. split; [exact (Hm Hok)|]. split.
  - rewrite Hsp, Hok. reflexivity.
  - apply (bool_decide_unpack _). vm_compute. exact I.
Defined.
